(** * generate-project-context: a shallow embedding of [.context/generate.py]

  The development follows the pipeline of the program:
  [PathManager] and pathlib paths, the glob engine behind [SmartFilter],
  [FileCollector.collect], [Minifier], [FileProcessor], the three
  formatters with [StreamingWriter.write], and [Generator._resolve_config].

  Conventions.
  - A Python [str] is the list of its code points ([list N]); a [bytes]
    value is a [list byte].
  - A pathlib path is the list of its [parts]; an absolute POSIX path
    has the part "/" first, as [PurePosixPath.parts] has it.
  - Mutable objects (the filter's cache, the preset table, the file
    system) are threaded explicitly.
  - State that the interpreter or the operating system supplies (the file
    tree, the clock, failures of system calls, the optional [chardet] and
    the [tokenize] module) is an argument of the function that reads it. *)

From Stdlib Require Import String Ascii QArith Qround.
From stdpp Require Import base option list sorting gmap.

Set Default Proof Using "Type".
Set Warnings "-register-all".
Local Open Scope N_scope.

(* ================================================================== *)
(** * Python strings *)
(* ================================================================== *)

Module Py.

(** [str]: a sequence of Unicode code points. *)
Abbreviation str := (list N) (only parsing).

(** A literal. Only ASCII literals occur in the program text. *)
Fixpoint lit (s : string) : str :=
  match s with
  | EmptyString => []
  | String a s' => N_of_ascii a :: lit s'
  end.

Definition NUL : N := 0.
Definition TAB : N := 9.
Definition LF : N := 10.
Definition VT : N := 11.
Definition FF : N := 12.
Definition CR : N := 13.
Definition SPACE : N := 32.
Definition BANG : N := 33.
Definition DQUOTE : N := 34.
Definition HASH : N := 35.
Definition STAR : N := 42.
Definition COMMA : N := 44.
Definition MINUS : N := 45.
Definition DOT : N := 46.
Definition SLASH : N := 47.
Definition COLON : N := 58.
Definition SEMI : N := 59.
Definition QMARK : N := 63.
Definition LBRACKET : N := 91.
Definition BACKSLASH : N := 92.
Definition RBRACKET : N := 93.
Definition LBRACE : N := 123.
Definition RBRACE : N := 125.

Definition eqb (a b : str) : bool := bool_decide (a = b).

(** [s.startswith(p)] *)
Fixpoint startswith (s p : str) {struct p} : bool :=
  match p, s with
  | [], _ => true
  | c :: p', d :: s' => (c =? d) && startswith s' p'
  | _ :: _, [] => false
  end.

(** [sep.join(xs)] *)
Fixpoint join (sep : str) (xs : list str) : str :=
  match xs with
  | [] => []
  | [x] => x
  | x :: rest => x ++ sep ++ join sep rest
  end.

(** [str.isspace] on one character, which is also what [\s] matches in
    a [str] pattern and what [strip] removes. *)
Definition isspace (c : N) : bool :=
  ((9 <=? c) && (c <=? 13)) || ((28 <=? c) && (c <=? 32))
  || (c =? 133) || (c =? 160) || (c =? 5760)
  || ((8192 <=? c) && (c <=? 8202))
  || (c =? 8232) || (c =? 8233) || (c =? 8239) || (c =? 8287)
  || (c =? 12288).

(** The line boundaries of [str.splitlines]. *)
Definition islinebreak (c : N) : bool :=
  ((10 <=? c) && (c <=? 13)) || ((28 <=? c) && (c <=? 30))
  || (c =? 133) || (c =? 8232) || (c =? 8233).

(** [s.lstrip()], [s.rstrip()], [s.strip()] *)
Fixpoint lstrip (s : str) : str :=
  match s with
  | c :: s' => if isspace c then lstrip s' else s
  | [] => []
  end.

Fixpoint rstrip (s : str) : str :=
  match s with
  | [] => []
  | c :: s' =>
      match rstrip s' with
      | [] => if isspace c then [] else [c]
      | r => c :: r
      end
  end.

Definition strip (s : str) : str := rstrip (lstrip s).

(** Truth value of a string or a list: non-empty. *)
Definition truthy (s : str) : bool :=
  match s with [] => false | _ => true end.

Definition truthy_list {A} (l : list A) : bool :=
  match l with [] => false | _ => true end.

(** [s.splitlines()]: a CR LF pair is one boundary, and a boundary at
    the very end opens no further line. *)
Fixpoint splitlines_aux (cur : str) (s : str) : list str :=
  match s with
  | [] => match cur with [] => [] | _ => [reverse cur] end
  | c :: s' =>
      if islinebreak c then
        reverse cur ::
          match s' with
          | d :: s'' =>
              if (c =? CR) && (d =? LF) then splitlines_aux [] s''
              else splitlines_aux [] s'
          | [] => []
          end
      else splitlines_aux (c :: cur) s'
  end.

Definition splitlines (s : str) : list str := splitlines_aux [] s.

(** [s.lower()], as far as membership in a set of ASCII strings can
    tell: the ASCII capitals, and the Kelvin sign whose lower case is
    the ASCII letter k. *)
Definition lower_char (c : N) : N :=
  if (65 <=? c) && (c <=? 90) then c + 32
  else if c =? 8490 then 107
  else c.

Definition lower (s : str) : str := map lower_char s.

(** [s.replace(c, r)] for a pattern of one character. *)
Definition replace_char (c : N) (r : str) (s : str) : str :=
  flat_map (fun d => if d =? c then r else [d]) s.

(** [s.lstrip(".")] *)
Fixpoint lstrip_char (c : N) (s : str) : str :=
  match s with
  | d :: s' => if d =? c then lstrip_char c s' else s
  | [] => []
  end.

(** [str(n)] for a non-negative integer. *)
Definition digit (d : N) : N := 48 + d.

Fixpoint str_of_pos_fuel (fuel : nat) (n : N) (acc : str) : str :=
  match fuel with
  | O => acc
  | S fuel' =>
      let acc' := digit (n mod 10) :: acc in
      if n / 10 =? 0 then acc' else str_of_pos_fuel fuel' (n / 10) acc'
  end.

Definition str_of_N (n : N) : str :=
  str_of_pos_fuel (S (N.to_nat (N.log2 n))) n [].

Definition str_of_Z (z : Z) : str :=
  match z with
  | Zneg p => MINUS :: str_of_N (Npos p)
  | _ => str_of_N (Z.to_N z)
  end.

Definition str_of_nat (n : nat) : str := str_of_N (N.of_nat n).

(** [int(x)] for a float, read as a rational: truncation towards zero. *)
Definition int_of_Q (q : Q) : Z := Z.quot (Qnum q) (Zpos (Qden q)).

End Py.

(* ================================================================== *)
(** * pathlib *)
(* ================================================================== *)

Module PurePath.

(** A path is its tuple of [parts]. *)
Abbreviation Path := (list (list N)) (only parsing).

Definition anchor : Py.str := [Py.SLASH].

Definition is_absolute (p : Path) : bool :=
  match p with
  | h :: _ => Py.eqb h anchor
  | [] => false
  end.

(** [Path(s)]: split at "/", drop empty components and ".". *)
Fixpoint split_slash (cur : Py.str) (s : Py.str) : list Py.str :=
  match s with
  | [] => [reverse cur]
  | c :: s' =>
      if c =? Py.SLASH then reverse cur :: split_slash [] s'
      else split_slash (c :: cur) s'
  end.

Definition of_str (s : Py.str) : Path :=
  let comps :=
    filter (fun c => c <> [] /\ c <> [Py.DOT]) (split_slash [] s) in
  if Py.startswith s anchor then anchor :: comps else comps.

(** [str(p)], which is also [p.as_posix()] on a POSIX system. *)
Definition to_str (p : Path) : Py.str :=
  match p with
  | [] => [Py.DOT]
  | h :: t =>
      if Py.eqb h anchor then anchor ++ Py.join [Py.SLASH] t
      else Py.join [Py.SLASH] p
  end.

Definition as_posix (p : Path) : Py.str := to_str p.

(** [p.name]: the last component, empty for the bare anchor. *)
Definition name (p : Path) : Py.str :=
  match last p with
  | Some c => if Py.eqb c anchor then [] else c
  | None => []
  end.

(** [p.suffix]: from the last dot of the name, unless that dot is the
    first or the last character of the name. *)
Fixpoint rfind_dot (s : Py.str) (i : nat) (found : option nat) : option nat :=
  match s with
  | [] => found
  | c :: s' => rfind_dot s' (S i) (if c =? Py.DOT then Some i else found)
  end.

Definition suffix (p : Path) : Py.str :=
  let n := name p in
  match rfind_dot n 0 None with
  | Some i =>
      if bool_decide (0 < i < length n - 1)%nat then drop i n else []
  | None => []
  end.

(** [p / name] for a single component. *)
Definition child (p : Path) (c : Py.str) : Path := p ++ [c].

(** [p / q] *)
Definition joinpath (p q : Path) : Path :=
  if is_absolute q then q else p ++ q.

(** [p.parent] *)
Definition parent (p : Path) : Path :=
  match p with
  | [] => []
  | [h] => if Py.eqb h anchor then p else []
  | _ => removelast p
  end.

(** [p.relative_to(root)]: [None] stands for the [ValueError]. *)
Fixpoint relative_to (p root : Path) : option Path :=
  match root, p with
  | [], _ => Some p
  | r :: root', c :: p' => if Py.eqb r c then relative_to p' root' else None
  | _ :: _, [] => None
  end.

(** The order [sorted] uses on paths: lexicographic on the parts, each
    part compared as a string, code point by code point. *)
Fixpoint str_leb (a b : Py.str) : bool :=
  match a, b with
  | [], _ => true
  | _ :: _, [] => false
  | x :: a', y :: b' => (x <? y) || ((x =? y) && str_leb a' b')
  end.

Fixpoint leb (p q : Path) : bool :=
  match p, q with
  | [], _ => true
  | _ :: _, [] => false
  | x :: p', y :: q' =>
      if Py.eqb x y then leb p' q' else str_leb x y
  end.

Definition le (p q : Path) : Prop := leb p q = true.

#[global] Instance le_dec : RelDecision le :=
  fun p q => decide (leb p q = true).

End PurePath.

(* ================================================================== *)
(** * fnmatch: shell globs *)
(* ================================================================== *)

Module Fnmatch.

(** What [fnmatch.translate] turns a pattern into, one token per regex
    atom: [*] any run of characters (the regex is compiled with the
    [(?s)] flag, so "/" and line breaks are ordinary characters), [?] one
    character, a bracket class, or a literal. *)
Inductive token :=
| Star
| Any
| Lit (c : N)
| Class (negated : bool) (items : list (N * N)).

Abbreviation glob := (list token) (only parsing).

(** The members of a bracket class: [x-y] is a range when the hyphen is
    neither the first nor the last character of the class; every other
    character stands for itself. *)
Fixpoint class_items (s : Py.str) : list (N * N) :=
  match s with
  | x :: ((h :: y :: s') as rest) =>
      if h =? Py.MINUS then (x, y) :: class_items s'
      else (x, x) :: class_items rest
  | x :: s' => (x, x) :: class_items s'
  | [] => []
  end.

(** The text of a class, from just after the opening bracket: an
    optional "!", an optional "]" taken literally, then everything up to
    the next "]". [None] when the bracket is never closed. *)
Fixpoint until_rbracket (s : Py.str) : option (Py.str * nat) :=
  match s with
  | [] => None
  | c :: s' =>
      if c =? Py.RBRACKET then Some ([], 1%nat)
      else '(body, n) ← until_rbracket s'; Some (c :: body, S n)
  end.

Definition class_body (s : Py.str) : option (bool * Py.str * nat) :=
  let '(neg, s1, n1) :=
    match s with
    | c :: s' => if c =? Py.BANG then (true, s', 1%nat) else (false, s, 0%nat)
    | [] => (false, s, 0%nat)
    end in
  match s1 with
  | c :: s2 =>
      if c =? Py.RBRACKET then
        '(body, n) ← until_rbracket s2; Some (neg, c :: body, (n1 + 1 + n)%nat)
      else
        '(body, n) ← until_rbracket s1; Some (neg, body, (n1 + n)%nat)
  | [] => None
  end.

(** [translate]: [skip] counts the characters of a class still to be
    passed over after its token was emitted. An unclosed "[" is a
    literal. *)
Fixpoint translate_from (skip : nat) (s : Py.str) : glob :=
  match s with
  | [] => []
  | c :: s' =>
      match skip with
      | S k => translate_from k s'
      | O =>
          if c =? Py.STAR then Star :: translate_from 0 s'
          else if c =? Py.QMARK then Any :: translate_from 0 s'
          else if c =? Py.LBRACKET then
            match class_body s' with
            | Some (neg, body, n) =>
                Class neg (class_items body) :: translate_from n s'
            | None => Lit c :: translate_from 0 s'
            end
          else Lit c :: translate_from 0 s'
      end
  end.

Definition translate (pat : Py.str) : glob := translate_from 0 pat.

Definition in_class (items : list (N * N)) (c : N) : bool :=
  existsb (fun '(lo, hi) => (lo <=? c) && (c <=? hi)) items.

(** [re.compile(translate(pat)).match(s)]: the translated regex ends in
    [\Z], so the whole of [s] has to be matched. *)
Fixpoint matches (g : glob) (s : Py.str) : bool :=
  match g with
  | [] => match s with [] => true | _ => false end
  | Star :: g' =>
      (fix star (s : Py.str) : bool :=
         matches g' s
         || match s with
            | [] => false
            | _ :: s' => star s'
            end) s
  | Any :: g' =>
      match s with
      | _ :: s' => matches g' s'
      | [] => false
      end
  | Lit c :: g' =>
      match s with
      | d :: s' => (c =? d) && matches g' s'
      | [] => false
      end
  | Class neg items :: g' =>
      match s with
      | d :: s' => xorb neg (in_class items d) && matches g' s'
      | [] => false
      end
  end.

End Fnmatch.

(* ================================================================== *)
(** * Constants and defaults *)
(* ================================================================== *)

Definition CONTEXT_DIR_NAME : Py.str := Py.lit ".context".
Definition GENERATED_DIR_NAME : Py.str := Py.lit "generated".
Definition CONFIG_FILE_NAME : Py.str := Py.lit ".ai-context.yml".
Definition DEFAULT_OUTPUT_NAME : Py.str := Py.lit "context.txt".

Definition DEFAULT_EXCLUDE_PATTERNS : list Py.str :=
  [ Py.lit "*/.*"; Py.lit "dist"; Py.lit "build"; Py.lit "node_modules";
    Py.lit "__pycache__"; CONTEXT_DIR_NAME ++ Py.lit "/*" ].

Definition BINARY_FILE_EXTENSIONS : list Py.str :=
  map Py.lit
    [ ".png"; ".jpg"; ".jpeg"; ".gif"; ".bmp"; ".ico"; ".svg"; ".webp";
      ".zip"; ".tar"; ".gz"; ".bz2"; ".7z"; ".rar"; ".pdf"; ".doc";
      ".docx"; ".xls"; ".xlsx"; ".ppt"; ".pptx"; ".exe"; ".dll"; ".so";
      ".dylib"; ".o"; ".a"; ".lib"; ".mp3"; ".wav"; ".flac"; ".aac";
      ".ogg"; ".wma"; ".mp4"; ".mov"; ".avi"; ".mkv"; ".webm"; ".flv";
      ".class"; ".jar"; ".pyc"; ".pyo"; ".pyd"; ".db"; ".sqlite";
      ".sqlite3"; ".ttf"; ".otf"; ".woff"; ".woff2"; ".eot" ]%string.

Definition ENCODING_SAMPLE_SIZE : N := 8192.
Definition DEFAULT_MAX_FILE_SIZE_MB : Q := 1%Q.
Definition VERSION : Py.str := Py.lit "5.0.0".

(* ================================================================== *)
(** * PathManager *)
(* ================================================================== *)

Module PathManager.

(** [get_project_root]: the parent of the working directory when that is
    the [.context] directory, the working directory otherwise. *)
Definition get_project_root (cwd : PurePath.Path) : PurePath.Path :=
  if Py.eqb (PurePath.name cwd) CONTEXT_DIR_NAME then PurePath.parent cwd
  else cwd.

Definition get_context_dir (cwd : PurePath.Path) : PurePath.Path :=
  PurePath.child (get_project_root cwd) CONTEXT_DIR_NAME.

Definition get_generated_dir (cwd : PurePath.Path) : PurePath.Path :=
  PurePath.child (get_context_dir cwd) GENERATED_DIR_NAME.

Definition get_config_path (cwd : PurePath.Path) : PurePath.Path :=
  PurePath.child (get_context_dir cwd) CONFIG_FILE_NAME.

(** [rel_to_project_root]: the path relative to the project root, and
    the path itself when it does not lie under the root. *)
Definition rel_to_project_root (cwd : PurePath.Path) (path : PurePath.Path)
  : Py.str :=
  match PurePath.relative_to path (get_project_root cwd) with
  | Some r => PurePath.to_str r
  | None => PurePath.to_str path
  end.

(** [resolve_project_path]: an absolute path is returned as it is; a
    relative one is joined to the project root and resolved. *)
Definition resolve_project_path
    (resolve : PurePath.Path -> PurePath.Path)
    (cwd : PurePath.Path) (path : PurePath.Path) : PurePath.Path :=
  if PurePath.is_absolute path then path
  else resolve (PurePath.joinpath (get_project_root cwd) path).

End PathManager.

(* ================================================================== *)
(** * Core data structures *)
(* ================================================================== *)

Inductive OutputFormat := TEXT | JSON | MARKDOWN.

Module Config.

Record t := mk {
  paths : list PurePath.Path;
  output : PurePath.Path;
  preset : option Py.str;
  include : list Py.str;
  exclude : list Py.str;
  exclude_common : bool;
  max_file_size_mb : Q;
  output_format : OutputFormat;
  minify : bool;
  verbose : bool;
  dry_run : bool;
}.

(** [Config.max_file_size_bytes]: [None] is the [float("inf")] the
    property returns for a limit that is zero or negative; otherwise
    [int(mb * 1024 * 1024)], which truncates towards zero. The limit is a
    finite float, read as the rational it denotes: multiplying a binary
    float by 1024 is exact short of overflow. *)
Definition max_file_size_bytes (c : t) : option Z :=
  if Qle_bool (max_file_size_mb c) 0 then None
  else Some (Py.int_of_Q (max_file_size_mb c * 1024 * 1024)).

End Config.

Record ProcessedFile := mkProcessedFile {
  pf_path : PurePath.Path;
  pf_content : option Py.str;
  pf_skipped : bool;
  pf_reason : option Py.str;
  pf_size : Z;
  pf_encoding : Py.str;
}.

(* ================================================================== *)
(** * SmartFilter *)
(* ================================================================== *)

Module SmartFilter.

(** The instance, without its cache: the flag and the three compiled
    pattern lists. The cache is threaded by [should_process]. *)
Record t := mk {
  exclude_common : bool;
  include_patterns : list Fnmatch.glob;
  exclude_patterns : list Fnmatch.glob;
  base_exclude : list Fnmatch.glob;
}.

Definition _compile_glob (pattern : Py.str) : Fnmatch.glob :=
  Fnmatch.translate pattern.

Definition init (config : Config.t) : t :=
  {| exclude_common := Config.exclude_common config;
     include_patterns := map _compile_glob (Config.include config);
     exclude_patterns := map _compile_glob (Config.exclude config);
     base_exclude := map _compile_glob DEFAULT_EXCLUDE_PATTERNS |}.

(** [_matches]: some pattern matches the string. *)
Definition _matches (path_str : Py.str) (patterns : list Fnmatch.glob) : bool :=
  existsb (fun p => Fnmatch.matches p path_str) patterns.

Definition is_binary_extension (ext : Py.str) : bool :=
  existsb (Py.eqb ext) BINARY_FILE_EXTENSIONS.

Section Filter.

(** The file system as the filter sees it: [Path.resolve] and
    [Path.is_file], and the working directory behind
    [PathManager.get_project_root]. *)
Variable resolve : PurePath.Path -> PurePath.Path.
Variable is_file : PurePath.Path -> bool.
Variable cwd : PurePath.Path.

(** [should_process], statement by statement. The cache is keyed by the
    resolved path; every test below reads the path as it was passed. *)
Definition should_process (self : t) (cache : gmap PurePath.Path bool)
    (path : PurePath.Path) : bool * gmap PurePath.Path bool :=
  let key := resolve path in
  match cache !! key with
  | Some b => (b, cache)
  | None =>
      let rel_path := PathManager.rel_to_project_root cwd path in
      if Py.startswith rel_path CONTEXT_DIR_NAME then
        (false, <[key := false]> cache)
      else
        let path_str := PurePath.as_posix path in
        if is_binary_extension (Py.lower (PurePath.suffix path)) then
          (false, <[key := false]> cache)
        else if exclude_common self
                && (Py.startswith (PurePath.name path) [Py.DOT]
                    || _matches path_str (base_exclude self)) then
          (false, <[key := false]> cache)
        else if _matches path_str (exclude_patterns self) then
          (false, <[key := false]> cache)
        else if Py.truthy_list (include_patterns self)
                && is_file path
                && negb (_matches (PurePath.name path) (include_patterns self))
        then (false, <[key := false]> cache)
        else (true, <[key := true]> cache)
  end.

(** The six rules of the decision order, with no cache: what
    [should_process] computes for a path whose key is not cached. *)
Definition decision (self : t) (path : PurePath.Path) : bool :=
  if Py.startswith (PathManager.rel_to_project_root cwd path) CONTEXT_DIR_NAME
  then false
  else if is_binary_extension (Py.lower (PurePath.suffix path)) then false
  else if exclude_common self
          && (Py.startswith (PurePath.name path) [Py.DOT]
              || _matches (PurePath.as_posix path) (base_exclude self))
  then false
  else if _matches (PurePath.as_posix path) (exclude_patterns self) then false
  else if Py.truthy_list (include_patterns self)
          && is_file path
          && negb (_matches (PurePath.name path) (include_patterns self))
  then false
  else true.

End Filter.

End SmartFilter.

(* ================================================================== *)
(** * The file tree *)
(* ================================================================== *)

Module FS.

(** A directory as [os.scandir] lists it: its own name, the names of its
    files, and its sub-directories, each in directory order. The tree has
    no symbolic links. *)
Inductive Tree :=
| Dir (name : Py.str) (files : list Py.str) (dirs : list Tree).

Inductive Entry := IsFile | IsDir (d : Tree).

Record t := mk {
  root : Tree;               (* the directory "/" *)
  cwd : PurePath.Path;       (* [Path.cwd()], absolute *)
}.

Definition DOTDOT : Py.str := [Py.DOT; Py.DOT].

Definition name_of (d : Tree) : Py.str :=
  match d with Dir name _ _ => name end.

Definition files_of (d : Tree) : list Py.str :=
  match d with Dir _ files _ => files end.

Definition dirs_of (d : Tree) : list Tree :=
  match d with Dir _ _ dirs => dirs end.

Fixpoint find_dir (c : Py.str) (dirs : list Tree) : option Tree :=
  match dirs with
  | [] => None
  | sub :: rest => if Py.eqb (name_of sub) c then Some sub else find_dir c rest
  end.

Definition entry_of (d : Tree) (c : Py.str) : option Entry :=
  match find_dir c (dirs_of d) with
  | Some sub => Some (IsDir sub)
  | None => if existsb (Py.eqb c) (files_of d) then Some IsFile else None
  end.

(** Path lookup as the kernel does it, component by component; [up] is
    the chain of directories above the current one. *)
Fixpoint locate (up : list Tree) (cur : Tree) (comps : list Py.str)
  : option Entry :=
  match comps with
  | [] => Some (IsDir cur)
  | c :: rest =>
      if Py.eqb c DOTDOT then
        match up with
        | [] => locate [] cur rest
        | d :: up' => locate up' d rest
        end
      else
        match entry_of cur c with
        | Some (IsDir sub) => locate (cur :: up) sub rest
        | Some IsFile => match rest with [] => Some IsFile | _ => None end
        | None => None
        end
  end.

Definition absolute (fs : t) (p : PurePath.Path) : PurePath.Path :=
  if PurePath.is_absolute p then p else cwd fs ++ p.

Definition stat (fs : t) (p : PurePath.Path) : option Entry :=
  locate [] (root fs) (tail (absolute fs p)).

Definition exists_ (fs : t) (p : PurePath.Path) : bool :=
  match stat fs p with Some _ => true | None => false end.

Definition is_file (fs : t) (p : PurePath.Path) : bool :=
  match stat fs p with Some IsFile => true | _ => false end.

(** [Path.resolve()] where there are no links: make the path absolute
    and fold every ".." into the component before it. *)
Fixpoint normalize (acc : list Py.str) (comps : list Py.str) : list Py.str :=
  match comps with
  | [] => reverse acc
  | c :: rest =>
      if Py.eqb c DOTDOT then normalize (tail acc) rest
      else normalize (c :: acc) rest
  end.

Definition resolve (fs : t) (p : PurePath.Path) : PurePath.Path :=
  PurePath.anchor :: normalize [] (tail (absolute fs p)).

End FS.

(* ================================================================== *)
(** * FileCollector *)
(* ================================================================== *)

Module FileCollector.

(** What one run of the generator [collect] carries along: the filter's
    cache, [seen_paths], and the paths yielded so far, oldest first. *)
Record state := mk {
  cache : gmap PurePath.Path bool;
  seen_paths : gset PurePath.Path;
  yielded : list PurePath.Path;
}.

Section Collect.

Variable fs : FS.t.
Variable filter : SmartFilter.t.

Definition should_process (st : state) (path : PurePath.Path) : bool * state :=
  let '(b, c) :=
    SmartFilter.should_process (FS.resolve fs) (FS.is_file fs) (FS.cwd fs)
      filter (cache st) path in
  (b, mk c (seen_paths st) (yielded st)).

(** The body run for a file that may be yielded. *)
Definition visit_file (st : state) (file_path : PurePath.Path) : state :=
  let '(b, st1) := should_process st file_path in
  if b then
    let resolved_path := FS.resolve fs file_path in
    if bool_decide (resolved_path ∈ seen_paths st1) then st1
    else mk (cache st1) ({[resolved_path]} ∪ seen_paths st1)
            (yielded st1 ++ [resolved_path])
  else st1.

(** [dirs[:] = [d for d in dirs if should_process(root_path / d)]]: the
    verdict per directory, in order. *)
Fixpoint filter_dirs (st : state) (root_path : PurePath.Path)
    (names : list Py.str) : list bool * state :=
  match names with
  | [] => ([], st)
  | d :: rest =>
      let '(b, st1) := should_process st (PurePath.child root_path d) in
      let '(bs, st2) := filter_dirs st1 root_path rest in
      (b :: bs, st2)
  end.

(** [os.walk(top, topdown=True, followlinks=False)] with the loop body of
    [collect]: at each directory the sub-directories are filtered first,
    then the files are visited, then the walk descends into the
    directories that were kept. *)
Fixpoint walk (d : FS.Tree) (root_path : PurePath.Path) (st : state) : state :=
  match d with
  | FS.Dir _ files dirs =>
      let '(keep, st1) := filter_dirs st root_path (map FS.name_of dirs) in
      let st2 :=
        fold_left (fun s name => visit_file s (PurePath.child root_path name))
          files st1 in
      (fix descend (dirs : list FS.Tree) (keep : list bool) (s : state)
         : state :=
         match dirs, keep with
         | sub :: dirs', k :: keep' =>
             descend dirs' keep'
               (if k then walk sub (PurePath.child root_path (FS.name_of sub)) s
                else s)
         | _, _ => s
         end) dirs keep st2
  end.

(** One configured start path. *)
Definition collect_from (st : state) (start_path : PurePath.Path) : state :=
  let start_path :=
    PathManager.resolve_project_path (FS.resolve fs) (FS.cwd fs) start_path in
  match FS.stat fs start_path with
  | None => st                               (* warned about and skipped *)
  | Some FS.IsFile => visit_file st start_path
  | Some (FS.IsDir d) => walk d start_path st
  end.

Definition init_state : state := mk ∅ ∅ [].

Definition collect_state (config : Config.t) : state :=
  fold_left collect_from (Config.paths config) init_state.

(** [collect]: the paths in the order the generator yields them. *)
Definition collect (config : Config.t) : list PurePath.Path :=
  yielded (collect_state config).

End Collect.

End FileCollector.

(* ================================================================== *)
(** * Exceptions *)
(* ================================================================== *)

(** An exception of class [Exception], with the text [str(e)] gives. *)
Inductive exn := Exception (msg : Py.str).

Definition exn_msg (e : exn) : Py.str :=
  match e with Exception msg => msg end.

Inductive result (A : Type) :=
| Ok (a : A)
| Raise (e : exn).

Arguments Ok {A} a.
Arguments Raise {A} e.

(* ================================================================== *)
(** * Codecs *)
(* ================================================================== *)

Module Codecs.

Abbreviation bytes := (list Byte.byte) (only parsing).

Definition REPLACEMENT : N := 65533.

Definition is_cont (b : N) : bool := (128 <=? b) && (b <=? 191).

(** The range of the second byte that a lead byte of a three or four
    byte sequence admits: no overlong forms, no surrogates, nothing above
    U+10FFFF. *)
Definition second_ok (b0 b1 : N) : bool :=
  if b0 =? 224 then (160 <=? b1) && (b1 <=? 191)
  else if b0 =? 237 then (128 <=? b1) && (b1 <=? 159)
  else if b0 =? 240 then (144 <=? b1) && (b1 <=? 191)
  else if b0 =? 244 then (128 <=? b1) && (b1 <=? 143)
  else is_cont b1.

Definition low6 (b : N) : N := b mod 64.

Definition emit (c : N) (r : Py.str * bool) : Py.str * bool := (c :: r.1, r.2).
Definition bad (r : Py.str * bool) : Py.str * bool := (REPLACEMENT :: r.1, false).

(** UTF-8 decoding with [errors="replace"]: the text, and whether the
    input was well formed. Each maximal ill-formed prefix of a sequence
    becomes one U+FFFD. *)
Fixpoint utf8_scan (bs : list N) : Py.str * bool :=
  match bs with
  | [] => ([], true)
  | b0 :: r0 =>
      if b0 <? 128 then emit b0 (utf8_scan r0)
      else if (194 <=? b0) && (b0 <=? 223) then
        match r0 with
        | b1 :: r1 =>
            if is_cont b1
            then emit ((b0 mod 32) * 64 + low6 b1) (utf8_scan r1)
            else bad (utf8_scan r0)
        | [] => bad ([], true)
        end
      else if (224 <=? b0) && (b0 <=? 239) then
        match r0 with
        | b1 :: r1 =>
            if second_ok b0 b1 then
              match r1 with
              | b2 :: r2 =>
                  if is_cont b2
                  then emit ((b0 mod 16) * 4096 + low6 b1 * 64 + low6 b2)
                         (utf8_scan r2)
                  else bad (utf8_scan r1)
              | [] => bad ([], true)
              end
            else bad (utf8_scan r0)
        | [] => bad ([], true)
        end
      else if (240 <=? b0) && (b0 <=? 244) then
        match r0 with
        | b1 :: r1 =>
            if second_ok b0 b1 then
              match r1 with
              | b2 :: r2 =>
                  if is_cont b2 then
                    match r2 with
                    | b3 :: r3 =>
                        if is_cont b3
                        then emit ((b0 mod 8) * 262144 + low6 b1 * 4096
                                   + low6 b2 * 64 + low6 b3) (utf8_scan r3)
                        else bad (utf8_scan r2)
                    | [] => bad ([], true)
                    end
                  else bad (utf8_scan r1)
              | [] => bad ([], true)
              end
            else bad (utf8_scan r0)
        | [] => bad ([], true)
        end
      else bad (utf8_scan r0)
  end.

Definition to_N (bs : bytes) : list N := map Byte.to_N bs.

(** [bs.decode("utf-8")], strict: [None] is the [UnicodeDecodeError]. *)
Definition decode_utf8_strict (bs : bytes) : option Py.str :=
  let '(s, ok) := utf8_scan (to_N bs) in if ok then Some s else None.

Definition decode_utf8_replace (bs : bytes) : Py.str := (utf8_scan (to_N bs)).1.

(** Latin-1 maps every byte to the code point of the same number. *)
Definition decode_latin1 (bs : bytes) : Py.str := to_N bs.

Definition UTF8 : Py.str := Py.lit "utf-8".
Definition LATIN1 : Py.str := Py.lit "latin-1".

(** [bs.decode(encoding, errors="replace")]. The two encodings the
    program names are built in; any other name, which only [chardet] can
    have produced, is looked up in the interpreter's codec registry, and
    an unknown one raises [LookupError]. *)
Definition decode (registry : Py.str -> option (bytes -> Py.str))
    (encoding : Py.str) (bs : bytes) : result Py.str :=
  if Py.eqb encoding UTF8 then Ok (decode_utf8_replace bs)
  else if Py.eqb encoding LATIN1 then Ok (decode_latin1 bs)
  else
    match registry encoding with
    | Some codec => Ok (codec bs)
    | None => Raise (Exception (Py.lit "unknown encoding: " ++ encoding))
    end.

End Codecs.

(* ================================================================== *)
(** * Minifier *)
(* ================================================================== *)

Module Minifier.

Definition head_is (c : N) (s : Py.str) : bool :=
  match s with d :: _ => d =? c | [] => false end.

(** Where [$] can match once [.*] has run to the end of its line: in
    MULTILINE mode before any line feed; otherwise only at the end of the
    string or before a line feed that is its last character. *)
Fixpoint line_end_ok (s : Py.str) : bool :=
  match s with
  | [] => true
  | c :: s' =>
      if c =? Py.LF then match s' with [] => true | _ => false end
      else line_end_ok s'
  end.

(** [re.sub(r"//.*$", "", s)]; [skipping] is set inside a match, where
    everything up to the next line feed is dropped. *)
Fixpoint sub_slash_comment (multiline : bool) (skipping : bool) (s : Py.str)
  : Py.str :=
  match s with
  | [] => []
  | c :: s' =>
      if skipping then
        if c =? Py.LF then c :: sub_slash_comment multiline false s'
        else sub_slash_comment multiline true s'
      else if (c =? Py.SLASH) && head_is Py.SLASH s'
              && (multiline || line_end_ok s')
      then sub_slash_comment multiline true s'
      else c :: sub_slash_comment multiline false s'
  end.

(** [re.sub(r"#(?!!).*$", "", s)]: from the first "#" that "!" does not
    follow. *)
Fixpoint sub_hash_comment (skipping : bool) (s : Py.str) : Py.str :=
  match s with
  | [] => []
  | c :: s' =>
      if skipping then
        if c =? Py.LF then c :: sub_hash_comment false s'
        else sub_hash_comment true s'
      else if (c =? Py.HASH) && negb (head_is Py.BANG s') && line_end_ok s'
      then sub_hash_comment true s'
      else c :: sub_hash_comment false s'
  end.

(** Some "*/" occurs in [s]. *)
Fixpoint has_close (s : Py.str) : bool :=
  match s with
  | [] => false
  | c :: s' => ((c =? Py.STAR) && head_is Py.SLASH s') || has_close s'
  end.

(** [re.sub(r"/\*.*?\*/", "", s, flags=re.DOTALL)]: a "/*" opens a match
    when a "*/" follows it; the match ends at the first such "*/". *)
Fixpoint sub_block_comment (inside : bool) (s : Py.str) : Py.str :=
  match s with
  | [] => []
  | c :: s' =>
      if inside then
        match s' with
        | d :: s'' =>
            if (c =? Py.STAR) && (d =? Py.SLASH)
            then sub_block_comment false s''
            else sub_block_comment true s'
        | [] => []
        end
      else
        match s' with
        | d :: s'' =>
            if (c =? Py.SLASH) && (d =? Py.STAR) && has_close s''
            then sub_block_comment true s''
            else c :: sub_block_comment false s'
        | [] => [c]
        end
  end.

(** [re.sub(r"\s+", " ", s)] *)
Fixpoint collapse_ws (in_ws : bool) (s : Py.str) : Py.str :=
  match s with
  | [] => []
  | c :: s' =>
      if Py.isspace c then
        if in_ws then collapse_ws true s' else Py.SPACE :: collapse_ws true s'
      else c :: collapse_ws false s'
  end.

Definition is_punct (c : N) : bool :=
  (c =? Py.LBRACE) || (c =? Py.RBRACE) || (c =? Py.COLON) || (c =? Py.SEMI)
  || (c =? Py.COMMA).

(** The white space at the head of [s] runs up to one of "{}:;,". *)
Fixpoint ws_then_punct (s : Py.str) : bool :=
  match s with
  | [] => false
  | c :: s' => if Py.isspace c then ws_then_punct s' else is_punct c
  end.

(** [re.sub(r"\s*([{}:;,])\s*", r"\1", s)]; [after] is set behind the
    punctuation of a match, where white space is still part of it. *)
Fixpoint trim_punct (after : bool) (s : Py.str) : Py.str :=
  match s with
  | [] => []
  | c :: s' =>
      if is_punct c then c :: trim_punct true s'
      else if Py.isspace c then
        if after || ws_then_punct s' then trim_punct after s'
        else c :: trim_punct false s'
      else c :: trim_punct false s'
  end.

Definition SHEBANG : Py.str := [Py.HASH; Py.BANG].

(** The loop body of [_minify_generic] for the line of index [i]: the
    line to append, if any. *)
Definition generic_line (first : bool) (line : Py.str) : option Py.str :=
  if first && Py.startswith line SHEBANG then Some line
  else
    let newline := sub_slash_comment false false line in
    let newline := sub_hash_comment false newline in
    if Py.truthy (Py.strip newline) then Some (Py.rstrip newline) else None.

Fixpoint generic_lines (first : bool) (lines : list Py.str) : list Py.str :=
  match lines with
  | [] => []
  | line :: rest =>
      match generic_line first line with
      | Some l => l :: generic_lines false rest
      | None => generic_lines false rest
      end
  end.

Definition _minify_generic (content : Py.str) : Py.str :=
  let lines := Py.splitlines content in
  let res := generic_lines true lines in
  let result := Py.join [Py.LF] res in
  sub_block_comment false result.

Definition _minify_javascript (content : Py.str) : Py.str :=
  let content := sub_slash_comment true false content in
  let content := sub_block_comment false content in
  let lines :=
    map Py.rstrip
      (filter (fun line => Py.truthy (Py.strip line) = true)
         (Py.splitlines content)) in
  Py.join [Py.LF] lines.

Definition _minify_css (content : Py.str) : Py.str :=
  let content := sub_block_comment false content in
  let content := collapse_ws false content in
  let content := trim_punct false content in
  Py.strip content.

(** What [tokenize.untokenize] returns for the tokens of the content
    that are no comments, or how [tokenize] fails. *)
Inductive tokenized :=
| Untokenized (text : Py.str)
| TokenError                     (* or [IndentationError] *)
| OtherError (e : exn).

Section Dispatch.

(** The interpreter's [tokenize] module. *)
Variable tokenize_without_comments : Py.str -> tokenized.

Definition _minify_python (content : Py.str) : result Py.str :=
  match tokenize_without_comments content with
  | Untokenized text => Ok text
  | TokenError => Ok (_minify_generic content)
  | OtherError e => Raise e
  end.

Inductive strategy := Python | JavaScript | Css | Generic.

(** The dispatch on the lower-cased suffix. *)
Definition strategy_of (path : PurePath.Path) : strategy :=
  let ext := Py.lower (PurePath.suffix path) in
  if existsb (Py.eqb ext) (map Py.lit [".py"]%string) then Python
  else if existsb (Py.eqb ext)
            (map Py.lit [".js"; ".jsx"; ".ts"; ".tsx"; ".mjs"; ".cjs"]%string)
  then JavaScript
  else if existsb (Py.eqb ext) (map Py.lit [".css"; ".scss"; ".less"]%string)
  then Css
  else Generic.

Definition minify (content : Py.str) (path : PurePath.Path) : result Py.str :=
  match strategy_of path with
  | Python => _minify_python content
  | JavaScript => Ok (_minify_javascript content)
  | Css => Ok (_minify_css content)
  | Generic => Ok (_minify_generic content)
  end.

End Dispatch.

End Minifier.

(* ================================================================== *)
(** * File input *)
(* ================================================================== *)

Module IO.

(** The system calls [process_file] makes on a path. *)
Inductive event :=
| Stat (p : PurePath.Path)
| Open (p : PurePath.Path)
| Read (p : PurePath.Path) (n : option N)
| Seek (p : PurePath.Path).

(** What each call answers: a value, or the [OSError] it raises. *)
Record env := mk {
  st_size : PurePath.Path -> result Z;
  open_rb : PurePath.Path -> result unit;
  read : PurePath.Path -> option N -> result Codecs.bytes;
  seek0 : PurePath.Path -> result unit;
}.

(** A computation that may raise, and that records the calls it makes. *)
Definition M (A : Type) : Type := list event -> result A * list event.

Definition ret {A} (a : A) : M A := fun log => (Ok a, log).

Definition raise {A} (e : exn) : M A := fun log => (Raise e, log).

Definition bind {A B} (m : M A) (k : A -> M B) : M B :=
  fun log =>
    match m log with
    | (Ok a, log') => k a log'
    | (Raise e, log') => (Raise e, log')
    end.

(** [try: m except Exception as e: h e] *)
Definition try_except {A} (m : M A) (h : exn -> M A) : M A :=
  fun log =>
    match m log with
    | (Ok a, log') => (Ok a, log')
    | (Raise e, log') => h e log'
    end.

Definition lift {A} (r : result A) : M A := fun log => (r, log).

Definition call {A} (ev : event) (r : result A) : M A :=
  fun log => (r, log ++ [ev]).

Definition run {A} (m : M A) : result A * list event := m [].

End IO.

#[export] Instance io_ret : MRet IO.M := @IO.ret.
#[export] Instance io_bind : MBind IO.M := fun A B k m => IO.bind m k.

(** What the interpreter may or may not provide. *)
Record Runtime := mkRuntime {
  (** [chardet.detect], when the module is installed: the guessed
      encoding, if any, and the confidence. *)
  chardet_detect : option (Codecs.bytes -> option Py.str * Q);
  (** The codec registry, for names other than the two built in. *)
  codec_registry : Py.str -> option (Codecs.bytes -> Py.str);
  (** The [tokenize] module. *)
  tokenize_without_comments : Py.str -> Minifier.tokenized;
}.

(* ================================================================== *)
(** * FileProcessor *)
(* ================================================================== *)

Module FileProcessor.

Definition UNKNOWN : Py.str := Py.lit "unknown".

(** [ProcessedFile(path, skipped=True, reason=..., size=...)] *)
Definition skip (path : PurePath.Path) (reason : Py.str) (size : Z)
  : ProcessedFile :=
  mkProcessedFile path None true (Some reason) size UNKNOWN.

Definition reason_exceeds (size max : Z) : Py.str :=
  Py.lit "Exceeds max size (" ++ Py.str_of_Z size ++ Py.lit " > "
  ++ Py.str_of_Z max ++ Py.lit ")".

Definition reason_binary : Py.str := Py.lit "Binary file detected".

Definition reason_decode (encoding : Py.str) (e : exn) : Py.str :=
  Py.lit "Could not decode with " ++ encoding ++ Py.lit ": " ++ exn_msg e.

Definition reason_empty (minify : bool) : Py.str :=
  if minify then Py.lit "Empty after minification"
  else Py.lit "Empty or whitespace-only file".

Definition reason_error (e : exn) : Py.str :=
  Py.lit "Error reading file: " ++ exn_msg e.

Section Processor.

Variable rt : Runtime.
Variable io : IO.env.
Variable config : Config.t.

(** [_detect_encoding]: strict UTF-8 first; then the detector's guess,
    when there is a detector, it names an encoding and its confidence
    exceeds 0.7; Latin-1 otherwise. No float lies strictly between the
    float 0.7 and the rational 7/10, so on floats the two thresholds
    agree. *)
Definition _detect_encoding (chunk : Codecs.bytes) : Py.str :=
  match Codecs.decode_utf8_strict chunk with
  | Some _ => Codecs.UTF8
  | None =>
      match chardet_detect rt with
      | Some detect =>
          match detect chunk with
          | (Some encoding, confidence) =>
              if Py.truthy encoding && negb (Qle_bool confidence (7 # 10))
              then encoding
              else Codecs.LATIN1
          | (None, _) => Codecs.LATIN1
          end
      | None => Codecs.LATIN1
      end
  end.

Definition has_nul (chunk : Codecs.bytes) : bool :=
  existsb (fun b => Byte.to_N b =? Py.NUL) chunk.

(** The body of the [with path.open("rb") as f:] block: either the
    record returned from inside it, or the decoded content and the
    encoding. *)
Definition read_content (path : PurePath.Path) (size : Z)
  : IO.M (ProcessedFile + Py.str * Py.str) :=
  _ ← IO.call (IO.Open path) (IO.open_rb io path);
  chunk ← IO.call (IO.Read path (Some ENCODING_SAMPLE_SIZE))
            (IO.read io path (Some ENCODING_SAMPLE_SIZE));
  if has_nul chunk then IO.ret (inl (skip path reason_binary size))
  else
    let encoding := _detect_encoding chunk in
    _ ← IO.call (IO.Seek path) (IO.seek0 io path);
    IO.try_except
      (data ← IO.call (IO.Read path None) (IO.read io path None);
       content ← IO.lift (Codecs.decode (codec_registry rt) encoding data);
       IO.ret (inr (content, encoding)))
      (fun e => IO.ret (inl (skip path (reason_decode encoding e) size))).

(** [size > self.config.max_file_size_bytes], when the limit is finite. *)
Definition oversized (size : Z) : bool :=
  match Config.max_file_size_bytes config with
  | Some max => (max <? size)%Z
  | None => false
  end.

Definition max_bytes_shown : Z :=
  default 0%Z (Config.max_file_size_bytes config).

Definition process_file (path : PurePath.Path) : IO.M ProcessedFile :=
  IO.try_except
    (size ← IO.call (IO.Stat path) (IO.st_size io path);
     if oversized size
     then IO.ret (skip path (reason_exceeds size max_bytes_shown) size)
     else
       r ← read_content path size;
       match r with
       | inl returned => IO.ret returned
       | inr (content, encoding) =>
           content ←
             (if Config.minify config
              then IO.lift (Minifier.minify (tokenize_without_comments rt)
                              content path)
              else IO.ret content);
           if negb (Py.truthy (Py.strip content))
           then IO.ret (skip path (reason_empty (Config.minify config)) size)
           else IO.ret (mkProcessedFile path (Some content) false None size
                          encoding)
       end)
    (fun e => IO.ret (skip path (reason_error e) 0)).

End Processor.

End FileProcessor.

(* ================================================================== *)
(** * json.dumps *)
(* ================================================================== *)

Module JsonDumps.

Definition hex_digit (d : N) : N := if d <? 10 then 48 + d else 87 + d.

(** ['\\u{0:04x}'.format(n)] *)
Definition u_escape (n : N) : Py.str :=
  [ Py.BACKSLASH; 117;
    hex_digit ((n / 4096) mod 16); hex_digit ((n / 256) mod 16);
    hex_digit ((n / 16) mod 16); hex_digit (n mod 16) ].

(** The replacement [py_encode_basestring_ascii] makes for one
    character: printable ASCII stands for itself, the quote, the
    backslash and five control characters get their short escapes, and
    everything else a [\uXXXX] escape, as a surrogate pair above
    U+FFFF. *)
Definition escape_char (c : N) : Py.str :=
  if c =? Py.DQUOTE then [Py.BACKSLASH; Py.DQUOTE]
  else if c =? Py.BACKSLASH then [Py.BACKSLASH; Py.BACKSLASH]
  else if c =? Py.LF then [Py.BACKSLASH; 110]
  else if c =? Py.CR then [Py.BACKSLASH; 114]
  else if c =? Py.TAB then [Py.BACKSLASH; 116]
  else if c =? 8 then [Py.BACKSLASH; 98]
  else if c =? Py.FF then [Py.BACKSLASH; 102]
  else if (32 <=? c) && (c <=? 126) then [c]
  else if c <? 65536 then u_escape c
  else
    let n := c - 65536 in
    u_escape (55296 + (n / 1024) mod 1024) ++ u_escape (56320 + n mod 1024).

Definition escape (s : Py.str) : Py.str := flat_map escape_char s.

(** [json.dumps(s)] for a string. *)
Definition dumps_str (s : Py.str) : Py.str :=
  [Py.DQUOTE] ++ escape s ++ [Py.DQUOTE].

(** [json.dumps(x)] for an optional string. *)
Definition dumps_opt_str (s : option Py.str) : Py.str :=
  match s with
  | Some s => dumps_str s
  | None => Py.lit "null"
  end.

End JsonDumps.

(* ================================================================== *)
(** * The output stream *)
(* ================================================================== *)

Module Stream.

(** The temporary file as the formatters see it: the text written so
    far, the number of [write] calls made, and the one field a formatter
    keeps between calls, [JsonFormatter._is_first_file]. *)
Record state := mk {
  written : Py.str;
  calls : nat;
  _is_first_file : bool;
}.

Definition M (A : Type) : Type := state -> result A * state.

Definition ret {A} (a : A) : M A := fun st => (Ok a, st).

Definition raise {A} (e : exn) : M A := fun st => (Raise e, st).

Definition bind {A B} (m : M A) (k : A -> M B) : M B :=
  fun st =>
    match m st with
    | (Ok a, st') => k a st'
    | (Raise e, st') => (Raise e, st')
    end.

Definition lift {A} (r : result A) : M A := fun st => (r, st).

Section Faults.

(** Which [write] calls fail, by their index, and how. *)
Variable write_fails : nat -> option exn.

(** [file_stream.write(s)] *)
Definition write (s : Py.str) : M unit :=
  fun st =>
    match write_fails (calls st) with
    | Some e => (Raise e, mk (written st) (S (calls st)) (_is_first_file st))
    | None =>
        (Ok tt, mk (written st ++ s) (S (calls st)) (_is_first_file st))
    end.

(** [file_stream.write(x)] where [x] may be [None]. *)
Definition write_opt (s : option Py.str) : M unit :=
  match s with
  | Some s => write s
  | None =>
      raise (Exception (Py.lit "write() argument must be str, not None"))
  end.

End Faults.

Definition get_is_first_file : M bool :=
  fun st => (Ok (_is_first_file st), st).

Definition set_is_first_file (b : bool) : M unit :=
  fun st => (Ok tt, mk (written st) (calls st) b).

Definition init : state := mk [] 0 true.

End Stream.

#[export] Instance stream_ret : MRet Stream.M := @Stream.ret.
#[export] Instance stream_bind : MBind Stream.M :=
  fun A B k m => Stream.bind m k.

(* ================================================================== *)
(** * Formatters *)
(* ================================================================== *)

(** What the headers read from the process: the working directory, what
    [resolve] makes of the project root, and the clock. *)
Record Clock := mkClock {
  year : N; month : N; day : N; hour : N; minute : N; second : N;
}.

Module Formatter.

Definition two_digits (n : N) : Py.str :=
  if n <? 10 then Py.digit 0 :: Py.str_of_N n else Py.str_of_N n.

(** [time.strftime("%Y-%m-%d %H:%M:%S")] *)
Definition strftime (c : Clock) : Py.str :=
  Py.str_of_N (year c) ++ [Py.MINUS] ++ two_digits (month c) ++ [Py.MINUS]
  ++ two_digits (day c) ++ [Py.SPACE] ++ two_digits (hour c) ++ [Py.COLON]
  ++ two_digits (minute c) ++ [Py.COLON] ++ two_digits (second c).

Definition rule (n : nat) : Py.str := replicate n 61.

Section Formatters.

Variable resolve : PurePath.Path -> PurePath.Path.
Variable cwd : PurePath.Path.
Variable now : Clock.
Variable write_fails : nat -> option exn.

Local Abbreviation write := (Stream.write write_fails).
Local Abbreviation write_opt := (Stream.write_opt write_fails).

Definition project_root_str : Py.str :=
  PurePath.to_str (resolve (PathManager.get_project_root cwd)).

Definition rel_path_of (pf : ProcessedFile) : Py.str :=
  PathManager.rel_to_project_root cwd (pf_path pf).

(** ** TextFormatter *)

Definition text_header (file_count : nat) : Py.str :=
  Py.lit "AI Context Report (v" ++ VERSION ++ Py.lit ")" ++ [Py.LF]
  ++ rule 50 ++ [Py.LF]
  ++ Py.lit "Project Root: " ++ project_root_str ++ [Py.LF]
  ++ Py.lit "Generated: " ++ strftime now ++ [Py.LF]
  ++ Py.lit "Files discovered: " ++ Py.str_of_nat file_count ++ [Py.LF]
  ++ rule 50 ++ [Py.LF; Py.LF].

Definition text_write_header (file_count : nat) : Stream.M unit :=
  write (text_header file_count).

Definition text_separator (rel_path : Py.str) : Py.str :=
  [Py.LF; Py.LF] ++ rule 20 ++ Py.lit " File: " ++ rel_path ++ [Py.SPACE]
  ++ rule 20 ++ [Py.LF; Py.LF].

Definition text_write_file (pf : ProcessedFile) : Stream.M unit :=
  _ ← write (text_separator (rel_path_of pf));
  write_opt (pf_content pf).

Definition text_write_footer : Stream.M unit := Stream.ret tt.

(** ** MarkdownFormatter *)

Definition BACKTICK : N := 96.

Definition markdown_header (file_count : nat) : Py.str :=
  Py.lit "# AI Context Report" ++ [Py.LF; Py.LF]
  ++ Py.lit "- **Version**: `" ++ VERSION ++ [BACKTICK; Py.LF]
  ++ Py.lit "- **Project Root**: `" ++ project_root_str ++ [BACKTICK; Py.LF]
  ++ Py.lit "- **Generated**: `" ++ strftime now ++ [BACKTICK; Py.LF]
  ++ Py.lit "- **Files discovered**: `" ++ Py.str_of_nat file_count
  ++ [BACKTICK; Py.LF; Py.LF]
  ++ Py.lit "---" ++ [Py.LF; Py.LF].

Definition markdown_write_header (file_count : nat) : Stream.M unit :=
  write (markdown_header file_count).

(** [suffix.lstrip(".").lower() or "text"] *)
Definition language_hint (path : PurePath.Path) : Py.str :=
  let ext := Py.lower (Py.lstrip_char Py.DOT (PurePath.suffix path)) in
  if Py.truthy ext then ext else Py.lit "text".

(** What an f-string makes of the content. *)
Definition fstring_opt (s : option Py.str) : Py.str :=
  match s with Some s => s | None => Py.lit "None" end.

Definition markdown_write_file (pf : ProcessedFile) : Stream.M unit :=
  let file_header :=
    Py.lit "## `" ++ rel_path_of pf ++ [BACKTICK; Py.LF; Py.LF] in
  let code_block :=
    Py.lit "```" ++ language_hint (pf_path pf) ++ [Py.LF]
    ++ fstring_opt (pf_content pf) ++ [Py.LF] ++ Py.lit "```"
    ++ [Py.LF; Py.LF] ++ Py.lit "---" ++ [Py.LF; Py.LF] in
  _ ← write file_header;
  write code_block.

Definition markdown_write_footer : Stream.M unit := Stream.ret tt.

(** ** JsonFormatter *)

Definition Q_ (s : string) : Py.str := [Py.DQUOTE] ++ Py.lit s ++ [Py.DQUOTE].

Definition json_write_header (file_count : nat) : Stream.M unit :=
  _ ← write (Py.lit "{" ++ [Py.LF]);
  _ ← write (Py.lit "  " ++ Q_ "metadata" ++ Py.lit ": {" ++ [Py.LF]);
  _ ← write (Py.lit "    " ++ Q_ "version" ++ Py.lit ": " ++ [Py.DQUOTE]
             ++ VERSION ++ [Py.DQUOTE] ++ Py.lit "," ++ [Py.LF]);
  _ ← write (Py.lit "    " ++ Q_ "project_root" ++ Py.lit ": "
             ++ JsonDumps.dumps_str project_root_str ++ Py.lit ","
             ++ [Py.LF]);
  _ ← write (Py.lit "    " ++ Q_ "generated_at" ++ Py.lit ": " ++ [Py.DQUOTE]
             ++ strftime now ++ [Py.DQUOTE] ++ Py.lit "," ++ [Py.LF]);
  _ ← write (Py.lit "    " ++ Q_ "file_count" ++ Py.lit ": "
             ++ Py.str_of_nat file_count ++ [Py.LF]);
  _ ← write (Py.lit "  }," ++ [Py.LF]);
  write (Py.lit "  " ++ Q_ "files" ++ Py.lit ": [" ++ [Py.LF]).

(** [json.dumps(file_data, indent=4)] for the four keys of [file_data]. *)
Definition dumps_file_data (rel_path : Py.str) (size : Z) (encoding : Py.str)
    (content : option Py.str) : Py.str :=
  Py.lit "{" ++ [Py.LF]
  ++ Py.lit "    " ++ Q_ "path" ++ Py.lit ": " ++ JsonDumps.dumps_str rel_path
  ++ Py.lit "," ++ [Py.LF]
  ++ Py.lit "    " ++ Q_ "size" ++ Py.lit ": " ++ Py.str_of_Z size
  ++ Py.lit "," ++ [Py.LF]
  ++ Py.lit "    " ++ Q_ "encoding" ++ Py.lit ": "
  ++ JsonDumps.dumps_str encoding ++ Py.lit "," ++ [Py.LF]
  ++ Py.lit "    " ++ Q_ "content" ++ Py.lit ": "
  ++ JsonDumps.dumps_opt_str content ++ [Py.LF]
  ++ Py.lit "}".

Definition json_entry (pf : ProcessedFile) : Py.str :=
  let json_string :=
    dumps_file_data (rel_path_of pf) (pf_size pf) (pf_encoding pf)
      (pf_content pf) in
  Py.lit "    " ++ Py.replace_char Py.LF (Py.LF :: Py.lit "    ") json_string.

Definition json_write_file (pf : ProcessedFile) : Stream.M unit :=
  first ← Stream.get_is_first_file;
  _ ← (if negb first then write (Py.lit "," ++ [Py.LF]) else Stream.ret tt);
  _ ← write (json_entry pf);
  Stream.set_is_first_file false.

Definition json_write_footer : Stream.M unit :=
  write ([Py.LF] ++ Py.lit "  ]" ++ [Py.LF] ++ Py.lit "}" ++ [Py.LF]).

(** ** Dispatch on the configured format *)

Definition write_header (f : OutputFormat) (file_count : nat) : Stream.M unit :=
  match f with
  | TEXT => text_write_header file_count
  | MARKDOWN => markdown_write_header file_count
  | JSON => json_write_header file_count
  end.

Definition write_file (f : OutputFormat) (pf : ProcessedFile) : Stream.M unit :=
  match f with
  | TEXT => text_write_file pf
  | MARKDOWN => markdown_write_file pf
  | JSON => json_write_file pf
  end.

Definition write_footer (f : OutputFormat) : Stream.M unit :=
  match f with
  | TEXT => text_write_footer
  | MARKDOWN => markdown_write_footer
  | JSON => json_write_footer
  end.

End Formatters.

End Formatter.

(* ================================================================== *)
(** * StreamingWriter *)
(* ================================================================== *)

Module StreamingWriter.

(** The system calls of [write] that may fail, each with the exception
    it raises when it does. [unlink_fails] is the [OSError] of
    [tmp_path.unlink()], which the writer swallows. *)
Record Faults := mkFaults {
  mkdir_fails : option exn;
  mktemp_fails : option exn;
  write_fails : nat -> option exn;
  close_fails : option exn;
  replace_fails : option exn;
  unlink_fails : bool;
}.

Definition no_faults : Faults :=
  mkFaults None None (fun _ => None) None None false.

Inductive outcome :=
| Completed
| DryRun
| Raised (e : exn).

Section Writer.

Variable rt : Runtime.
Variable io : IO.env.
Variable resolve : PurePath.Path -> PurePath.Path.
Variable cwd : PurePath.Path.
Variable now : Clock.
(** The random part of the name [tempfile] picks. *)
Variable tmp_random : Py.str.
Variable config : Config.t.
Variable faults : Faults.

(** [sorted(list(files))], then without the output file itself. *)
Definition file_paths (files : list PurePath.Path) : list PurePath.Path :=
  let out_resolved := resolve (Config.output config) in
  filter (fun p => resolve p <> out_resolved) (merge_sort PurePath.le files).

(** The loop over the files: skipped files write nothing. *)
Fixpoint write_files (paths : list PurePath.Path) : Stream.M unit :=
  match paths with
  | [] => Stream.ret tt
  | path :: rest =>
      result ← Stream.lift
                 (IO.run (FileProcessor.process_file rt io config path)).1;
      _ ← (if pf_skipped result then Stream.ret tt
           else Formatter.write_file cwd (write_fails faults)
                  (Config.output_format config) result);
      write_files rest
  end.

(** What is written to the temporary file. *)
Definition body (paths : list PurePath.Path) : Stream.M unit :=
  _ ← Formatter.write_header resolve cwd now (write_fails faults)
        (Config.output_format config) (length paths);
  _ ← write_files paths;
  Formatter.write_footer (write_fails faults) (Config.output_format config).

(** The name of the temporary file: in the directory of the output,
    ".tmp_", the random part, and the suffix of the output or ".txt". *)
Definition tmp_path : PurePath.Path :=
  let out_suffix :=
    if Py.truthy (PurePath.suffix (Config.output config))
    then PurePath.suffix (Config.output config) else Py.lit ".txt" in
  PurePath.child (PurePath.parent (Config.output config))
    (Py.lit ".tmp_" ++ tmp_random ++ out_suffix).

(** [tempfile.NamedTemporaryFile(..., delete=False)] creates the file
    exclusively: a name that is taken is never returned. *)
Definition mktemp (disk : gmap PurePath.Path Py.str) : result PurePath.Path :=
  match mktemp_fails faults with
  | Some e => Raise e
  | None =>
      match disk !! tmp_path with
      | Some _ => Raise (Exception (Py.lit "No usable temporary file name found"))
      | None => Ok tmp_path
      end
  end.

Definition fail_or_ok (f : option exn) : result unit :=
  match f with Some e => Raise e | None => Ok tt end.

(** [write]: the outcome and the files of the output directory
    afterwards. *)
Definition write (files : list PurePath.Path)
    (disk : gmap PurePath.Path Py.str)
  : outcome * gmap PurePath.Path Py.str :=
  let file_paths := file_paths files in
  if Config.dry_run config then (DryRun, disk)
  else
    (* PathManager.ensure_generated_dir() *)
    match mkdir_fails faults with
    | Some e => (Raised e, disk)
    | None =>
        match mktemp disk with
        | Raise e => (Raised e, disk)       (* no [tmp_path] to clean up *)
        | Ok tmp =>
            let '(r, st) := body file_paths Stream.init in
            let disk1 := <[tmp := Stream.written st]> disk in
            let r :=
              match r with
              | Ok _ => fail_or_ok (close_fails faults)
              | Raise e => Raise e
              end in
            let r :=
              match r with
              | Ok _ => fail_or_ok (replace_fails faults)
              | Raise e => Raise e
              end in
            match r with
            | Ok _ =>
                (* os.replace(tmp_path, self.config.output) *)
                (Completed,
                 <[Config.output config := Stream.written st]>
                   (delete tmp disk1))
            | Raise e =>
                (* if tmp_path.exists(): try: unlink except OSError: pass *)
                (Raised e,
                 if bool_decide (is_Some (disk1 !! tmp))
                 then if unlink_fails faults then disk1 else delete tmp disk1
                 else disk1)
            end
        end
    end.

End Writer.

(** The artifact of a run in which no call fails. *)
Definition render (rt : Runtime) (io : IO.env)
    (resolve : PurePath.Path -> PurePath.Path) (cwd : PurePath.Path)
    (now : Clock) (config : Config.t) (files : list PurePath.Path) : Py.str :=
  Stream.written
    (body rt io resolve cwd now config no_faults
       (file_paths resolve config files) Stream.init).2.

End StreamingWriter.

(* ================================================================== *)
(** * ProjectDetector *)
(* ================================================================== *)

Module ProjectDetector.

(** One entry of [PRESETS]: the two lists, which are Python list
    objects and so can be extended in place. *)
Record preset_conf := mkPreset {
  p_include : list Py.str;
  p_exclude : list Py.str;
}.

Definition L (l : list string) : list Py.str := map Py.lit l.

(** The class attribute [PRESETS] as the module defines it. *)
Definition PRESETS : gmap (list N) preset_conf :=
  list_to_map
    [ (Py.lit "python",
       mkPreset
         (L ["*.py"; "requirements*.txt"; "pyproject.toml"; "setup.py";
             "*.pyx"; "*.pyi"])
         (L ["*.pyc"; "*.pyo"; "*.pyd"; "*.egg-info/*"; "venv/*"; ".venv/*";
             "__pycache__/*"]));
      (Py.lit "javascript",
       mkPreset
         (L ["*.js"; "*.jsx"; "*.ts"; "*.tsx"; "*.mjs"; "*.cjs";
             "package.json"; "tsconfig.json"; "*.vue"; "*.svelte"; "*.html";
             "*.css"; "*.scss"; "*.less"])
         (L ["*.log"; "package-lock.json"; "yarn.lock"; "pnpm-lock.yaml";
             "*.map"]));
      (Py.lit "java",
       mkPreset
         (L ["*.java"; "*.xml"; "*.properties"; "pom.xml"; "build.gradle*";
             "*.kt"])
         (L ["*.class"; "*.jar"; "target/*"; "build/*"]));
      (Py.lit "csharp",
       mkPreset
         (L ["*.cs"; "*.csproj"; "*.sln"; "*.xaml"; "*.config"; "*.resx"])
         (L ["bin/*"; "obj/*"; "*.dll"; "*.exe"]));
      (Py.lit "ruby",
       mkPreset
         (L ["*.rb"; "*.erb"; "*.rake"; "Gemfile"; "Rakefile"; "*.ru"])
         (L ["Gemfile.lock"; "vendor/*"]));
      (Py.lit "go",
       mkPreset (L ["*.go"; "go.mod"; "go.sum"; "*.proto"]) (L ["vendor/*"]));
      (Py.lit "rust",
       mkPreset (L ["*.rs"; "Cargo.toml"; "Cargo.lock"]) (L ["target/*"]));
      (Py.lit "php",
       mkPreset (L ["*.php"; "composer.json"; "*.blade.php"])
         (L ["vendor/*"; "composer.lock"]));
      (Py.lit "cpp",
       mkPreset
         (L ["*.cpp"; "*.cc"; "*.cxx"; "*.h"; "*.hpp"; "*.hxx";
             "CMakeLists.txt"; "*.cmake"])
         (L ["*.o"; "*.obj"; "build/*"; "cmake-build-*/*"]));
      (Py.lit "swift",
       mkPreset
         (L ["*.swift"; "Package.swift"; "*.xcodeproj/*"; "*.xcworkspace/*"])
         (L ["*.xcuserdata/*"; "build/*"; "DerivedData/*"])) ]%string.

(** [INDICATORS], in the order of the dictionary. *)
Definition INDICATORS : list (Py.str * list Py.str) :=
  [ (Py.lit "python",
     L ["requirements.txt"; "requirements-dev.txt"; "pyproject.toml";
        "setup.py"; "Pipfile"]);
    (Py.lit "javascript", L ["package.json"; "node_modules"]);
    (Py.lit "java", L ["pom.xml"; "build.gradle"; "build.gradle.kts"]);
    (Py.lit "csharp", L ["*.csproj"; "*.sln"]);
    (Py.lit "ruby", L ["Gemfile"; "Rakefile"]);
    (Py.lit "go", L ["go.mod"]);
    (Py.lit "rust", L ["Cargo.toml"]);
    (Py.lit "php", L ["composer.json"]);
    (Py.lit "cpp", L ["CMakeLists.txt"; "Makefile"]);
    (Py.lit "swift", L ["Package.swift"; "*.xcodeproj"]) ]%string.

(** [list(path.glob(indicator))] is non-empty: some entry of the
    directory matches the pattern. *)
Definition glob_some (fs : FS.t) (path : PurePath.Path) (pattern : Py.str)
  : bool :=
  match FS.stat fs path with
  | Some (FS.IsDir d) =>
      existsb (Fnmatch.matches (Fnmatch.translate pattern))
        (FS.files_of d ++ map FS.name_of (FS.dirs_of d))
  | _ => false
  end.

Definition indicated (fs : FS.t) (path : PurePath.Path) (indicator : Py.str)
  : bool :=
  if existsb (N.eqb Py.STAR) indicator then glob_some fs path indicator
  else FS.exists_ fs (PurePath.child path indicator).

Definition GENERIC : Py.str := Py.lit "generic".

(** [detect]: the first ecosystem one of whose indicators is there. *)
Definition detect (fs : FS.t) (path : PurePath.Path) : Py.str :=
  match
    list_find (fun '(_, indicators) => existsb (indicated fs path) indicators = true)
      INDICATORS
  with
  | Some (_, (name, _)) => name
  | None => GENERIC
  end.

(** [get_preset_config]: [PRESETS.get(name, {})]. The dictionary
    returned is the one the table holds, not a copy; [None] stands for
    the fresh empty dictionary. *)
Definition get_preset_config (presets : gmap (list N) preset_conf)
    (name : Py.str) : option preset_conf :=
  presets !! name.

End ProjectDetector.

(* ================================================================== *)
(** * Generator *)
(* ================================================================== *)

Module Generator.

(** The dictionary [_load_config_from_file] returns; a key that is absent
    is [None]. A missing or malformed file gives the empty dictionary. *)
Record FileConf := mkFileConf {
  fc_paths : option (list Py.str);
  fc_output : option Py.str;
  fc_format : option Py.str;
  fc_minify : option bool;
  fc_verbose : option bool;
  fc_max_file_size_mb : option Q;
  fc_include : option (list Py.str);
  fc_exclude : option (list Py.str);
  fc_preset : option Py.str;
}.

Definition empty_conf : FileConf :=
  mkFileConf None None None None None None None None None.

(** [list(dict.fromkeys(l))]: the first occurrence of each element. *)
Fixpoint dedup_from (seen : list Py.str) (l : list Py.str) : list Py.str :=
  match l with
  | [] => []
  | x :: l' =>
      if bool_decide (x ∈ seen) then dedup_from seen l'
      else x :: dedup_from (x :: seen) l'
  end.

Definition dedup (l : list Py.str) : list Py.str := dedup_from [] l.

(** [OutputFormat(value)] *)
Definition output_format_of (value : Py.str) : result OutputFormat :=
  if Py.eqb value (Py.lit "text") then Ok TEXT
  else if Py.eqb value (Py.lit "json") then Ok JSON
  else if Py.eqb value (Py.lit "markdown") then Ok MARKDOWN
  else Raise (Exception (value ++ Py.lit " is not a valid OutputFormat")).

Definition AUTO : Py.str := Py.lit "auto".

Section Resolve.

Variable fs : FS.t.
Variable file_conf : FileConf.

(** [x or y] on an optional string. *)
Definition or_else (x : option Py.str) (y : Py.str) : Py.str :=
  match x with
  | Some s => if Py.truthy s then s else y
  | None => y
  end.

(** The preset whose lists the merge reads. *)
Definition preset_name (cli_config : Config.t) : Py.str :=
  let name := or_else (Config.preset cli_config) (default AUTO (fc_preset file_conf)) in
  if Py.eqb name AUTO
  then ProjectDetector.detect fs (PathManager.get_project_root (FS.cwd fs))
  else name.

(** [_resolve_config]. The preset table is the class attribute
    [ProjectDetector.PRESETS], a mutable object: [includes] and
    [excludes] are the lists the table holds whenever the preset is in
    the table, and [extend] changes them in place. The function returns
    the configuration, or the [ValueError] of an unknown format name, and
    the table as it leaves it. *)
Definition _resolve_config (cli_config : Config.t)
    (presets : gmap (list N) ProjectDetector.preset_conf)
  : result Config.t * gmap (list N) ProjectDetector.preset_conf :=
  let cwd := FS.cwd fs in
  let name := preset_name cli_config in
  let preset_conf := ProjectDetector.get_preset_config presets name in
  (* includes = preset_conf.get("include", []); includes.extend(...) twice *)
  let includes :=
    from_option ProjectDetector.p_include [] preset_conf
    ++ default [] (fc_include file_conf) ++ Config.include cli_config in
  let excludes :=
    from_option ProjectDetector.p_exclude [] preset_conf
    ++ default [] (fc_exclude file_conf) ++ Config.exclude cli_config in
  let presets' :=
    match preset_conf with
    | Some _ => <[name := ProjectDetector.mkPreset includes excludes]> presets
    | None => presets
    end in
  let paths :=
    if bool_decide (Config.paths cli_config = [PathManager.get_project_root cwd])
    then map PurePath.of_str (default [[Py.DOT]] (fc_paths file_conf))
    else Config.paths cli_config in
  let default_output :=
    PurePath.child (PathManager.get_generated_dir cwd) DEFAULT_OUTPUT_NAME in
  let output :=
    if bool_decide (Config.output cli_config = default_output) then
      let config_output :=
        PurePath.of_str (default DEFAULT_OUTPUT_NAME (fc_output file_conf)) in
      if bool_decide (PurePath.parent config_output = [])
      then PurePath.joinpath (PathManager.get_generated_dir cwd) config_output
      else config_output
    else if bool_decide (PurePath.parent (Config.output cli_config) = [])
    then PurePath.child (PathManager.get_generated_dir cwd)
           (PurePath.name (Config.output cli_config))
    else Config.output cli_config in
  let max_file_size_mb :=
    if Qeq_bool (Config.max_file_size_mb cli_config) DEFAULT_MAX_FILE_SIZE_MB
    then default DEFAULT_MAX_FILE_SIZE_MB (fc_max_file_size_mb file_conf)
    else Config.max_file_size_mb cli_config in
  let output_format :=
    match Config.output_format cli_config with
    | TEXT => output_format_of (default (Py.lit "text") (fc_format file_conf))
    | f => Ok f
    end in
  (match output_format with
   | Ok f =>
       Ok {| Config.paths := paths;
             Config.output := output;
             Config.preset := Some AUTO;
             Config.include := dedup includes;
             Config.exclude := dedup excludes;
             Config.exclude_common := true;
             Config.max_file_size_mb := max_file_size_mb;
             Config.output_format := f;
             Config.minify :=
               Config.minify cli_config || default false (fc_minify file_conf);
             Config.verbose :=
               Config.verbose cli_config || default false (fc_verbose file_conf);
             Config.dry_run := Config.dry_run cli_config |}
   | Raise e => Raise e
   end,
   presets').

End Resolve.

End Generator.

(* ================================================================== *)
(** * JSON texts (RFC 8259) *)
(* ================================================================== *)

Module Json.

(** A JSON value. Strings and numbers are kept as their lexemes: the
    characters between the quotes, escapes included, and the digits. *)
Inductive value :=
| Null
| Bool (b : bool)
| Number (lexeme : Py.str)
| String (lexeme : Py.str)
| Array (items : list value)
| Object (members : list (Py.str * value)).

Definition is_ws (c : N) : bool :=
  (c =? 32) || (c =? 9) || (c =? 10) || (c =? 13).

Definition ws (s : Py.str) : Prop := forallb is_ws s = true.

Definition is_digit (c : N) : bool := (48 <=? c) && (c <=? 57).

Definition is_hex (c : N) : bool :=
  is_digit c || ((97 <=? c) && (c <=? 102)) || ((65 <=? c) && (c <=? 70)).

(** The characters that may follow a backslash, "u" apart. *)
Definition is_short_escape (c : N) : bool :=
  (c =? 34) || (c =? 92) || (c =? 47) || (c =? 98) || (c =? 102)
  || (c =? 110) || (c =? 114) || (c =? 116).

(** The inside of a string literal. *)
Inductive chars : Py.str -> Prop :=
| chars_nil : chars []
| chars_plain c s :
    is_true ((32 <=? c) && negb (c =? 34) && negb (c =? 92)) ->
    chars s -> chars (c :: s)
| chars_short c s :
    is_true (is_short_escape c) -> chars s -> chars (92 :: c :: s)
| chars_unicode h1 h2 h3 h4 s :
    is_true (is_hex h1 && is_hex h2 && is_hex h3 && is_hex h4) ->
    chars s -> chars (92 :: 117 :: h1 :: h2 :: h3 :: h4 :: s).

Definition digits (s : Py.str) : Prop := s <> [] /\ forallb is_digit s = true.

Definition int_part (s : Py.str) : Prop :=
  s = [48] \/ exists d ds,
    s = d :: ds /\ is_true ((49 <=? d) && (d <=? 57))
    /\ forallb is_digit ds = true.

Definition frac_part (s : Py.str) : Prop :=
  s = [] \/ exists ds, s = 46 :: ds /\ digits ds.

Definition exp_part (s : Py.str) : Prop :=
  s = [] \/ exists e sign ds,
    s = e :: sign ++ ds /\ (e = 69 \/ e = 101)
    /\ (sign = [] \/ sign = [43] \/ sign = [45]) /\ digits ds.

Definition number (s : Py.str) : Prop :=
  exists minus i f e,
    s = minus ++ i ++ f ++ e /\ (minus = [] \/ minus = [45])
    /\ int_part i /\ frac_part f /\ exp_part e.

(** [text v s]: [s] is a JSON text for the value [v], with no white
    space around it. [elements] and [members] are the comma separated
    lists inside brackets and braces, white space included. *)
Inductive text : value -> Py.str -> Prop :=
| text_null : text Null (Py.lit "null")
| text_true : text (Bool true) (Py.lit "true")
| text_false : text (Bool false) (Py.lit "false")
| text_number n : number n -> text (Number n) n
| text_string s : chars s -> text (String s) ([34] ++ s ++ [34])
| text_array_empty w : ws w -> text (Array []) ([91] ++ w ++ [93])
| text_array v vs s :
    elements (v :: vs) s -> text (Array (v :: vs)) ([91] ++ s ++ [93])
| text_object_empty w : ws w -> text (Object []) ([123] ++ w ++ [125])
| text_object m ms s :
    members (m :: ms) s -> text (Object (m :: ms)) ([123] ++ s ++ [125])
with elements : list value -> Py.str -> Prop :=
| elements_one v w1 s w2 :
    ws w1 -> text v s -> ws w2 -> elements [v] (w1 ++ s ++ w2)
| elements_cons v vs w1 s w2 rest :
    ws w1 -> text v s -> ws w2 -> elements vs rest ->
    elements (v :: vs) (w1 ++ s ++ w2 ++ [44] ++ rest)
with members : list (Py.str * value) -> Py.str -> Prop :=
| members_one k v w1 w2 w3 s w4 :
    ws w1 -> chars k -> ws w2 -> ws w3 -> text v s -> ws w4 ->
    members [(k, v)]
      (w1 ++ [34] ++ k ++ [34] ++ w2 ++ [58] ++ w3 ++ s ++ w4)
| members_cons k v ms w1 w2 w3 s w4 rest :
    ws w1 -> chars k -> ws w2 -> ws w3 -> text v s -> ws w4 ->
    members ms rest ->
    members ((k, v) :: ms)
      (w1 ++ [34] ++ k ++ [34] ++ w2 ++ [58] ++ w3 ++ s ++ w4 ++ [44] ++ rest).

(** A complete JSON document: a value with white space around it. *)
Definition document (v : value) (s : Py.str) : Prop :=
  exists w1 t w2, s = w1 ++ t ++ w2 /\ ws w1 /\ text v t /\ ws w2.

(** Reading the generator's artifact: the member of an object, the
    [file_count] of the metadata, the number of entries of [files]. *)
Fixpoint lookup (key : Py.str) (ms : list (Py.str * value)) : option value :=
  match ms with
  | [] => None
  | (k, v) :: ms' => if Py.eqb k key then Some v else lookup key ms'
  end.

Definition member (key : string) (v : value) : option value :=
  match v with
  | Object ms => lookup (Py.lit key) ms
  | _ => None
  end.

Definition file_count (doc : value) : option Py.str :=
  match member "metadata" doc ≫= member "file_count" with
  | Some (Number n) => Some n
  | _ => None
  end.

Definition files_length (doc : value) : option nat :=
  match member "files" doc with
  | Some (Array items) => Some (length items)
  | _ => None
  end.

End Json.

(* ================================================================== *)
(** * scripts/install_context.py *)
(* ================================================================== *)

Module InstallContext.

(** The files the installer reads and writes, as texts: a file holds the
    characters its bytes decode to (UTF-8); the operating system is a
    POSIX one, where writing "\n" in text mode stores "\n". *)
Abbreviation Disk := (gmap PurePath.Path Py.str) (only parsing).

(** What reading in text mode makes of the characters of a file: with
    universal newlines, "\r\n" and a lone "\r" both arrive as "\n". *)
Fixpoint universal_newlines (s : Py.str) : Py.str :=
  match s with
  | [] => []
  | c :: s' =>
      if c =? Py.CR then
        Py.LF ::
          match s' with
          | d :: s'' =>
              if d =? Py.LF then universal_newlines s''
              else universal_newlines s'
          | [] => []
          end
      else c :: universal_newlines s'
  end.

(** [file.read_text(encoding="utf-8") if file.exists() else ""] *)
Definition read_text (disk : Disk) (file : PurePath.Path) : Py.str :=
  match disk !! file with
  | Some raw => universal_newlines raw
  | None => []
  end.

(** [s.endswith(p)] *)
Definition endswith (s p : Py.str) : bool :=
  Py.startswith (reverse s) (reverse p).

(** [append_if_missing]: the value returned and the files afterwards.
    Opening in mode "a" creates a file that is missing and writes at the
    end of one that is there. *)
Definition append_if_missing (file : PurePath.Path) (line : Py.str)
    (disk : Disk) : bool * Disk :=
  let text := read_text disk file in
  let lines := map Py.strip (Py.splitlines text) in
  if bool_decide (line ∈ lines) then (false, disk)
  else
    let newline :=
      if Py.truthy text && negb (endswith text [Py.LF]) then [Py.LF] else [] in
    (true, <[file := default [] (disk !! file) ++ newline ++ line ++ [Py.LF]]> disk).

Definition GITIGNORE_BANNER : Py.str :=
  Py.lit "# .gitignore created by install_context.py" ++ [Py.LF; Py.LF].

Definition patterns : list Py.str :=
  [Py.lit ".context/generated/"; Py.lit "**/generated/"].

(** What [main] does to [.gitignore]: the file is created with its
    banner when it is missing, then each pattern is appended unless it is
    there. The list tells which patterns were added. *)
Definition main_gitignore (gitignore_file : PurePath.Path) (disk : Disk)
  : list bool * Disk :=
  let disk :=
    match disk !! gitignore_file with
    | Some _ => disk
    | None => <[gitignore_file := GITIGNORE_BANNER]> disk
    end in
  fold_left
    (fun '(added, disk) p =>
       let '(b, disk') := append_if_missing gitignore_file p disk in
       (added ++ [b], disk'))
    patterns ([], disk).

End InstallContext.

(* ================================================================== *)
(** * Concrete projects and runs, used by the examples *)
(* ================================================================== *)

Module Scenario.

Definition P (s : string) : PurePath.Path := PurePath.of_str (Py.lit s).

Definition config_with (paths : list PurePath.Path)
    (include exclude : list Py.str) (f : OutputFormat) : Config.t :=
  {| Config.paths := paths;
     Config.output := P "/proj/.context/generated/context.txt";
     Config.preset := None;
     Config.include := include;
     Config.exclude := exclude;
     Config.exclude_common := true;
     Config.max_file_size_mb := 1;
     Config.output_format := f;
     Config.minify := false;
     Config.verbose := false;
     Config.dry_run := false |}.

(** /proj holds a.py, b.png and build/x.py; the run includes "*.py" and
    excludes "build/*". *)
Definition tree : FS.Tree :=
  FS.Dir [] []
    [ FS.Dir (Py.lit "proj") [Py.lit "a.py"; Py.lit "b.png"]
        [ FS.Dir (Py.lit "build") [Py.lit "x.py"] [] ] ].

Definition fs : FS.t := FS.mk tree (P "/proj").

Definition config : Config.t :=
  config_with [P "/proj"] [Py.lit "*.py"] [Py.lit "build/*"] TEXT.

(** /proj holds main.py and tests/t.py; the run excludes "tests/*". *)
Definition tree_tests : FS.Tree :=
  FS.Dir [] []
    [ FS.Dir (Py.lit "proj") [Py.lit "main.py"]
        [ FS.Dir (Py.lit "tests") [Py.lit "t.py"] [] ] ].

Definition fs_tests : FS.t := FS.mk tree_tests (P "/proj").

Definition config_tests : Config.t :=
  config_with [P "/proj"] [] [Py.lit "tests/*"] TEXT.




(** An interpreter with neither [chardet] nor further codecs, whose
    [tokenize] rejects everything. *)
Definition rt : Runtime :=
  mkRuntime None (fun _ => None) (fun _ => Minifier.TokenError).

(** A file system that answers every call: the files of the table have
    the content given, every other path is missing. *)
Definition io_of (table : list (PurePath.Path * string)) : IO.env :=
  let find p :=
    match list_find (fun e => e.1 = p) table with
    | Some (_, (_, content)) => Ok (list_byte_of_string content)
    | None => Raise (Exception (Py.lit "No such file or directory"))
    end in
  IO.mk
    (fun p => match find p with
              | Ok bs => Ok (Z.of_nat (length bs))
              | Raise e => Raise e
              end)
    (fun p => match find p with Ok _ => Ok tt | Raise e => Raise e end)
    (fun p n => match find p, n with
                | Ok bs, Some n => Ok (take (N.to_nat n) bs)
                | Ok bs, None => Ok bs
                | Raise e, _ => Raise e
                end)
    (fun p => match find p with Ok _ => Ok tt | Raise e => Raise e end).

(** /proj holds a.py with one statement and the empty file empty.py. *)
Definition io : IO.env :=
  io_of [ (P "/proj/a.py", "x = 1"%string); (P "/proj/empty.py", ""%string) ].

Definition cwd : PurePath.Path := P "/proj".

Definition clock : Clock := mkClock 2024 1 2 3 4 5.
Definition clock_later : Clock := mkClock 2024 1 2 3 4 6.

Definition config_json : Config.t :=
  config_with [P "/proj"] [] [] JSON.

Definition config_text : Config.t :=
  config_with [P "/proj"] [] [] TEXT.

(** The rename fails, and so does the deletion of the temporary file. *)
Definition faults_replace_and_unlink : StreamingWriter.Faults :=
  StreamingWriter.mkFaults None None (fun _ => None) None
    (Some (Exception (Py.lit "Permission denied"))) true.

Definition tmp_random : Py.str := Py.lit "k3x9w2ab".

End Scenario.

(* ================================================================== *)
(** * SmartFilter and FileCollector: what is matched against what *)
(* ================================================================== *)

Section FilterFacts.

Variable resolve : PurePath.Path -> PurePath.Path.
Variable is_file : PurePath.Path -> bool.
Variable cwd : PurePath.Path.

Local Abbreviation should_process := (SmartFilter.should_process resolve is_file cwd).
Local Abbreviation decision := (SmartFilter.decision is_file cwd).


(** With no entry under its key, a path gets the decision of the rules,
    and the decision is recorded under the key. *)
Lemma should_process_miss self cache path :
  cache !! resolve path = None ->
  should_process self cache path
  = (decision self path, <[resolve path := decision self path]> cache).
Proof.
  intros H. unfold SmartFilter.should_process, SmartFilter.decision.
  rewrite H. repeat case_match; reflexivity.
Qed.



End FilterFacts.



(** Exclude patterns are tested against [path.as_posix()] of the path
    as it was passed, include patterns against [path.name]: the verdict
    of the rules depends on the path through these two strings, its
    suffix, its form relative to the project root and [is_file] only. *)
Lemma decision_reads is_file cwd self p q :
  PurePath.as_posix p = PurePath.as_posix q ->
  PurePath.name p = PurePath.name q ->
  PurePath.suffix p = PurePath.suffix q ->
  PathManager.rel_to_project_root cwd p = PathManager.rel_to_project_root cwd q ->
  is_file p = is_file q ->
  SmartFilter.decision is_file cwd self p = SmartFilter.decision is_file cwd self q.
Proof.
  intros H1 H2 H3 H4 H5. unfold SmartFilter.decision.
  by rewrite H1, H2, H3, H4, H5.
Qed.

(** An absolute path never matches a pattern that starts with a literal
    character other than "/": its POSIX form starts with "/". *)
Lemma absolute_as_posix_head p :
  PurePath.is_absolute p = true ->
  exists rest, PurePath.as_posix p = Py.SLASH :: rest.
Proof.
  destruct p as [|h t]; [done|]. cbn. intros H.
  unfold PurePath.as_posix, PurePath.to_str. rewrite H. by eexists.
Qed.

Lemma literal_head_misses_absolute c pattern p :
  c <> Py.STAR -> c <> Py.QMARK -> c <> Py.LBRACKET -> c <> Py.SLASH ->
  PurePath.is_absolute p = true ->
  Fnmatch.matches (SmartFilter._compile_glob (c :: pattern)) (PurePath.as_posix p)
  = false.
Proof.
  intros H1 H2 H3 H4 Habs.
  destruct (absolute_as_posix_head p Habs) as [rest ->].
  unfold SmartFilter._compile_glob, Fnmatch.translate. cbn [Fnmatch.translate_from].
  rewrite (proj2 (N.eqb_neq _ _) H1), (proj2 (N.eqb_neq _ _) H2),
    (proj2 (N.eqb_neq _ _) H3).
  cbn [Fnmatch.matches]. by rewrite (proj2 (N.eqb_neq _ _) H4).
Qed.

(** C2 (the code at the failing input). The project root is /proj and
    the run excludes "tests/*". The file /proj/tests/t.py has the
    root-relative form "tests/t.py", which the pattern matches; the
    filter tests the pattern against "/proj/tests/t.py", which it does
    not match, and accepts the file. *)
Theorem exclude_is_matched_against_the_absolute_path :
  let fs := Scenario.fs_tests in
  let f := SmartFilter.init Scenario.config_tests in
  let p := Scenario.P "/proj/tests/t.py" in
  PathManager.rel_to_project_root (FS.cwd fs) p = Py.lit "tests/t.py"
  /\ SmartFilter._matches (Py.lit "tests/t.py") (SmartFilter.exclude_patterns f) = true
  /\ PurePath.as_posix p = Py.lit "/proj/tests/t.py"
  /\ SmartFilter._matches (PurePath.as_posix p) (SmartFilter.exclude_patterns f) = false
  /\ (SmartFilter.should_process (FS.resolve fs) (FS.is_file fs) (FS.cwd fs) f ∅ p).1
     = true
  /\ FileCollector.collect fs f Scenario.config_tests
     = [Scenario.P "/proj/main.py"; Scenario.P "/proj/tests/t.py"].
Proof. vm_compute. repeat split; reflexivity. Qed.

(** C1 (the code at the failing input). The root /proj holds a.py,
    b.png and build/x.py; the run includes "*.py" and excludes
    "build/*". Neither the exclude pattern nor the built-in pattern
    "build" matches "/proj/build" or "/proj/build/x.py", so the walk
    descends into build and x.py is collected. *)
Theorem excluded_directory_is_collected :
  let fs := Scenario.fs in
  let f := SmartFilter.init Scenario.config in
  (SmartFilter.should_process (FS.resolve fs) (FS.is_file fs) (FS.cwd fs) f ∅
     (Scenario.P "/proj/build")).1 = true
  /\ FileCollector.collect fs f Scenario.config
     = [Scenario.P "/proj/a.py"; Scenario.P "/proj/build/x.py"].
Proof. vm_compute. split; reflexivity. Qed.

(* ================================================================== *)
(** * FileProcessor: skips, encodings, and the size limit *)
(* ================================================================== *)


Section ProcessorFacts.

Variable rt : Runtime.
Variable io : IO.env.
Variable config : Config.t.

Local Abbreviation process_file := (FileProcessor.process_file rt io config).

Lemma int_of_Q_floor q : (0 <= q)%Q -> Py.int_of_Q q = Qfloor q.
Proof.
  destruct q as [n d]. unfold Qle, Py.int_of_Q. cbn. intros H.
  apply Z.quot_div_nonneg; lia.
Qed.


Lemma utf8_and_latin1_always_decode encoding data :
  encoding = Codecs.UTF8 \/ encoding = Codecs.LATIN1 ->
  exists content,
    Codecs.decode (codec_registry rt) encoding data = Ok content.
Proof. intros [-> | ->]; eexists; reflexivity. Qed.


(** [_detect_encoding] is a total function with three outcomes. *)
Lemma detect_encoding_cases chunk :
  let encoding := FileProcessor._detect_encoding rt chunk in
  (is_Some (Codecs.decode_utf8_strict chunk) -> encoding = Codecs.UTF8)
  /\ (Codecs.decode_utf8_strict chunk = None ->
      chardet_detect rt = None -> encoding = Codecs.LATIN1)
  /\ (forall detect guess confidence,
        Codecs.decode_utf8_strict chunk = None ->
        chardet_detect rt = Some detect ->
        detect chunk = (guess, confidence) ->
        encoding =
          match guess with
          | Some name =>
              if Py.truthy name && negb (Qle_bool confidence (7 # 10))
              then name else Codecs.LATIN1
          | None => Codecs.LATIN1
          end).
Proof.
  unfold FileProcessor._detect_encoding. cbn zeta.
  split; [|split].
  - by intros [s ->].
  - by intros -> ->.
  - intros detect guess confidence -> -> ->. by destruct guess.
Qed.



Ltac run_process_file :=
  unfold IO.run, FileProcessor.process_file, FileProcessor.read_content,
    IO.try_except, mbind, io_bind, IO.bind, IO.call, IO.ret, IO.lift, IO.raise;
  cbn [app].

(** The record [process_file] returns; the default is never needed. *)
Definition processed (path : PurePath.Path) : ProcessedFile :=
  match (IO.run (process_file path)).1 with
  | Ok pf => pf
  | Raise e => FileProcessor.skip path (FileProcessor.reason_error e) 0
  end.

Lemma process_file_returns path :
  (IO.run (process_file path)).1 = Ok (processed path).
Proof.
  unfold processed. run_process_file.
  repeat (case_match; cbn [fst]; try reflexivity).
Qed.






End ProcessorFacts.

(* ================================================================== *)
(** * The order on paths *)
(* ================================================================== *)

Module PathOrder.

Lemma str_leb_refl a : PurePath.str_leb a a = true.
Proof.
  induction a as [|x a IH]; [done|]. cbn.
  rewrite N.eqb_refl, IH. by rewrite orb_true_r.
Qed.

Lemma str_leb_cons x a y b :
  PurePath.str_leb (x :: a) (y :: b) = true
  <-> x < y \/ (x = y /\ PurePath.str_leb a b = true).
Proof.
  cbn. rewrite orb_true_iff, andb_true_iff, N.ltb_lt, N.eqb_eq. tauto.
Qed.

Lemma str_leb_total a b :
  PurePath.str_leb a b = true \/ PurePath.str_leb b a = true.
Proof.
  revert b. induction a as [|x a IH]; intros [|y b]; try (by left); try (by right).
  rewrite !str_leb_cons.
  destruct (N.lt_trichotomy x y) as [H|[H|H]]; [by left; left| |by right; left].
  destruct (IH b); [left|right]; right; done.
Qed.

Lemma str_leb_antisym a b :
  PurePath.str_leb a b = true -> PurePath.str_leb b a = true -> a = b.
Proof.
  revert b. induction a as [|x a IH]; intros [|y b]; try done.
  rewrite !str_leb_cons. intros [H1|[-> H1]] [H2|[H2 H3]]; try lia.
  f_equal. by apply IH.
Qed.

Lemma str_leb_trans a b c :
  PurePath.str_leb a b = true -> PurePath.str_leb b c = true ->
  PurePath.str_leb a c = true.
Proof.
  revert b c. induction a as [|x a IH]; intros [|y b] [|z c]; try done.
  rewrite !str_leb_cons. intros [H1|[-> H1]] [H2|[-> H2]].
  - left. lia.
  - by left.
  - by left.
  - right. split; [done|]. by apply (IH b).
Qed.

Lemma leb_cons x p y q :
  PurePath.leb (x :: p) (y :: q) = true
  <-> (x = y /\ PurePath.leb p q = true)
      \/ (x <> y /\ PurePath.str_leb x y = true).
Proof.
  cbn. unfold Py.eqb. destruct (decide (x = y)) as [E|E].
  - rewrite bool_decide_true by done. tauto.
  - rewrite bool_decide_false by done. tauto.
Qed.

#[global] Instance le_total : Total PurePath.le.
Proof.
  unfold PurePath.le. intros p. induction p as [|x p IH]; intros [|y q];
    try (by left); try (by right).
  rewrite !leb_cons. destruct (decide (x = y)) as [->|Hne].
  - destruct (IH q); [left|right]; by left.
  - destruct (str_leb_total x y); [left|right]; right; split; congruence.
Qed.

#[global] Instance le_antisym : AntiSymm (=) PurePath.le.
Proof.
  unfold PurePath.le. intros p. induction p as [|x p IH]; intros [|y q]; try done.
  rewrite !leb_cons. intros [[-> H1]|[Hne H1]] [[E H2]|[Hne' H2]].
  - f_equal. by apply IH.
  - done.
  - done.
  - destruct Hne. by apply str_leb_antisym.
Qed.

#[global] Instance le_trans : Transitive PurePath.le.
Proof.
  unfold PurePath.le. intros p. induction p as [|x p IH]; intros [|y q] [|z r];
    try done.
  rewrite !leb_cons. intros [[-> H1]|[Hxy H1]] [[-> H2]|[Hyz H2]].
  - left. split; [done|]. by apply (IH q).
  - by right.
  - by right.
  - right. split; [|by apply (str_leb_trans x y z)].
    intros ->. apply Hxy. by apply str_leb_antisym.
Qed.

(** [sorted] forgets the order in which the paths arrived. *)
Lemma merge_sort_permutation_invariant (l1 l2 : list PurePath.Path) :
  l1 ≡ₚ l2 -> merge_sort PurePath.le l1 = merge_sort PurePath.le l2.
Proof.
  intros Hp. apply (Sorted_unique PurePath.le).
  - apply Sorted_merge_sort, _.
  - apply Sorted_merge_sort, _.
  - by rewrite !merge_sort_Permutation.
Qed.

End PathOrder.

(* ================================================================== *)
(** * Decimal numerals *)
(* ================================================================== *)

Module Decimal.

Lemma digit_is_digit d : d < 10 -> Json.is_digit (Py.digit d) = true.
Proof.
  intros H. unfold Json.is_digit, Py.digit.
  apply andb_true_iff. split; [apply N.leb_le|apply N.leb_le]; lia.
Qed.

Lemma mod10_lt n : n mod 10 < 10.
Proof. apply N.mod_lt. lia. Qed.

(** The loop of [str_of_N] only ever puts digits in front of [acc]. *)
Lemma str_of_pos_fuel_digits fuel n acc :
  forallb Json.is_digit acc = true ->
  forallb Json.is_digit (Py.str_of_pos_fuel fuel n acc) = true.
Proof.
  revert n acc. induction fuel as [|fuel IH]; intros n acc Hacc; [done|].
  cbn [Py.str_of_pos_fuel].
  assert (forallb Json.is_digit (Py.digit (n mod 10) :: acc) = true) as H.
  { cbn. by rewrite digit_is_digit, Hacc by apply mod10_lt. }
  destruct (n / 10 =? 0); [done|]. by apply IH.
Qed.

Lemma str_of_N_digits n : forallb Json.is_digit (Py.str_of_N n) = true.
Proof. by apply str_of_pos_fuel_digits. Qed.

(** With enough fuel a positive number is written with a leading digit
    that is not zero. *)
Lemma str_of_pos_fuel_leading fuel n acc :
  0 < n -> (N.to_nat (N.log2 n) < fuel)%nat ->
  exists d ds,
    Py.str_of_pos_fuel fuel n acc = d :: ds ++ acc
    /\ (49 <=? d) && (d <=? 57) = true
    /\ forallb Json.is_digit ds = true.
Proof.
  revert n acc. induction fuel as [|fuel IH]; intros n acc Hn Hfuel; [lia|].
  cbn [Py.str_of_pos_fuel].
  destruct (n / 10 =? 0) eqn:Hq.
  - apply N.eqb_eq in Hq. exists (Py.digit (n mod 10)), [].
    split; [done|]. split; [|done].
    assert (n < 10) by (apply N.div_small_iff in Hq; [done|lia]).
    rewrite N.mod_small by done. unfold Py.digit.
    apply andb_true_iff. split; apply N.leb_le; lia.
  - apply N.eqb_neq in Hq.
    assert (0 < n / 10) by by apply N.neq_0_lt_0.
    assert (N.log2 (n / 10) < N.log2 n).
    { apply N.log2_lt_pow2; [done|].
      pose proof (N.log2_spec n Hn) as [_ Hup].
      rewrite N.pow_succ_r' in Hup.
      assert (n / 10 <= n / 2) by (apply N.div_le_compat_l; lia).
      assert (n / 2 < 2 ^ N.log2 n) by (apply N.Div0.div_lt_upper_bound; lia).
      by eapply N.le_lt_trans. }
    destruct (IH (n / 10) (Py.digit (n mod 10) :: acc)) as (d & ds & E & Hd & Hds);
      [done|lia|].
    exists d, (ds ++ [Py.digit (n mod 10)]). split.
    + by rewrite E, <- app_assoc.
    + split; [done|]. rewrite forallb_app, Hds. cbn.
      by rewrite digit_is_digit by apply mod10_lt.
Qed.

Lemma str_of_N_int_part n : Json.int_part (Py.str_of_N n).
Proof.
  destruct (N.eq_dec n 0) as [->|Hn]; [by left|].
  right. unfold Py.str_of_N.
  destruct (str_of_pos_fuel_leading (S (N.to_nat (N.log2 n))) n [])
    as (d & ds & E & Hd & Hds); [lia|lia|].
  exists d, ds. rewrite E, app_nil_r. done.
Qed.

Lemma str_of_N_number n : Json.number (Py.str_of_N n).
Proof.
  exists [], (Py.str_of_N n), [], []. rewrite !app_nil_r.
  split; [done|]. split; [by left|]. split; [apply str_of_N_int_part|].
  split; by left.
Qed.

Lemma str_of_Z_number z : Json.number (Py.str_of_Z z).
Proof.
  destruct z as [|p|p]; cbn [Py.str_of_Z]; try apply str_of_N_number.
  exists [45], (Py.str_of_N (N.pos p)), [], []. rewrite !app_nil_r.
  split; [done|]. split; [by right|]. split; [apply str_of_N_int_part|].
  split; by left.
Qed.

End Decimal.

(* ================================================================== *)
(** * What json.dumps writes is JSON *)
(* ================================================================== *)

Module JsonFacts.

Definition plain (c : N) : bool :=
  (32 <=? c) && negb (c =? 34) && negb (c =? 92).

Lemma chars_plain_all s : forallb plain s = true -> Json.chars s.
Proof.
  induction s as [|c s IH]; [constructor|].
  cbn. intros [Hc Hs]%andb_true_iff. apply Json.chars_plain; auto.
Qed.

Lemma chars_app a b : Json.chars a -> Json.chars b -> Json.chars (a ++ b).
Proof.
  intros Ha Hb. induction Ha; cbn; [done|..]; by constructor.
Qed.

Lemma hex_digit_is_hex d : d < 16 -> Json.is_hex (JsonDumps.hex_digit d) = true.
Proof.
  intros H. unfold JsonDumps.hex_digit, Json.is_hex, Json.is_digit.
  destruct (d <? 10) eqn:E.
  - apply N.ltb_lt in E.
    replace ((48 <=? 48 + d) && (48 + d <=? 57)) with true; [done|].
    symmetry. apply andb_true_iff. split; apply N.leb_le; lia.
  - apply N.ltb_ge in E.
    replace ((97 <=? 87 + d) && (87 + d <=? 102)) with true;
      [by rewrite orb_true_r|].
    symmetry. apply andb_true_iff. split; apply N.leb_le; lia.
Qed.

Lemma mod16_lt n : n mod 16 < 16.
Proof. apply N.mod_lt. lia. Qed.

Lemma chars_u_escape n : Json.chars (JsonDumps.u_escape n).
Proof.
  unfold JsonDumps.u_escape. apply Json.chars_unicode; [|constructor].
  by rewrite !hex_digit_is_hex by apply mod16_lt.
Qed.

Ltac eqb_cases c :=
  repeat match goal with
         | |- context [c =? ?k] => destruct (N.eqb_spec c k); [subst c|]
         end.

Lemma chars_escape_char c : Json.chars (JsonDumps.escape_char c).
Proof.
  unfold JsonDumps.escape_char, Py.DQUOTE, Py.BACKSLASH, Py.LF, Py.CR,
    Py.TAB, Py.FF.
  destruct (N.eqb_spec c 34); [by apply Json.chars_short; [|constructor]|].
  destruct (N.eqb_spec c 92); [by apply Json.chars_short; [|constructor]|].
  destruct (N.eqb_spec c 10); [by apply Json.chars_short; [|constructor]|].
  destruct (N.eqb_spec c 13); [by apply Json.chars_short; [|constructor]|].
  destruct (N.eqb_spec c 9); [by apply Json.chars_short; [|constructor]|].
  destruct (N.eqb_spec c 8); [by apply Json.chars_short; [|constructor]|].
  destruct (N.eqb_spec c 12); [by apply Json.chars_short; [|constructor]|].
  destruct ((32 <=? c) && (c <=? 126)) eqn:E.
  - apply andb_true_iff in E as [E1 E2]. apply Json.chars_plain; [|constructor].
    rewrite E1. cbn. by rewrite (proj2 (N.eqb_neq c 34)), (proj2 (N.eqb_neq c 92)).
  - destruct (c <? 65536); [apply chars_u_escape|].
    apply chars_app; apply chars_u_escape.
Qed.

Lemma chars_escape s : Json.chars (JsonDumps.escape s).
Proof.
  induction s as [|c s IH]; [constructor|].
  cbn. apply chars_app; [apply chars_escape_char|done].
Qed.

(** No line feed is written inside a string literal, so re-indenting an
    entry changes the white space between its tokens only. *)
Definition no_lf (s : Py.str) : bool := forallb (fun c => negb (c =? Py.LF)) s.

Lemma no_lf_app a b : no_lf (a ++ b) = no_lf a && no_lf b.
Proof. apply forallb_app. Qed.

Lemma hex_digit_not_lf d : d < 16 -> (JsonDumps.hex_digit d =? Py.LF) = false.
Proof.
  intros H. unfold JsonDumps.hex_digit, Py.LF. apply N.eqb_neq.
  destruct (d <? 10); lia.
Qed.

Lemma no_lf_u_escape n : no_lf (JsonDumps.u_escape n) = true.
Proof.
  unfold JsonDumps.u_escape, no_lf. cbn.
  by rewrite !hex_digit_not_lf by apply mod16_lt.
Qed.

Lemma no_lf_escape_char c : no_lf (JsonDumps.escape_char c) = true.
Proof.
  unfold JsonDumps.escape_char, Py.DQUOTE, Py.BACKSLASH, Py.LF, Py.CR,
    Py.TAB, Py.FF.
  destruct (N.eqb_spec c 34); [done|].
  destruct (N.eqb_spec c 92); [done|].
  destruct (N.eqb_spec c 10); [done|].
  destruct (N.eqb_spec c 13); [done|].
  destruct (N.eqb_spec c 9); [done|].
  destruct (N.eqb_spec c 8); [done|].
  destruct (N.eqb_spec c 12); [done|].
  destruct ((32 <=? c) && (c <=? 126)) eqn:E.
  - unfold no_lf, Py.LF. cbn. by rewrite (proj2 (N.eqb_neq c 10)).
  - destruct (c <? 65536); [apply no_lf_u_escape|].
    by rewrite no_lf_app, !no_lf_u_escape.
Qed.

Lemma no_lf_escape s : no_lf (JsonDumps.escape s) = true.
Proof.
  induction s as [|c s IH]; [done|].
  cbn. by rewrite no_lf_app, no_lf_escape_char.
Qed.

Lemma no_lf_dumps_str s : no_lf (JsonDumps.dumps_str s) = true.
Proof.
  unfold JsonDumps.dumps_str. by rewrite !no_lf_app, no_lf_escape.
Qed.

Lemma no_lf_dumps_opt_str s : no_lf (JsonDumps.dumps_opt_str s) = true.
Proof. destruct s; [apply no_lf_dumps_str|done]. Qed.

Lemma no_lf_digits s : forallb Json.is_digit s = true -> no_lf s = true.
Proof.
  unfold no_lf. induction s as [|c s IH]; [done|].
  cbn. intros [Hc Hs]%andb_true_iff. rewrite IH by done.
  unfold Json.is_digit in Hc. apply andb_true_iff in Hc as [H1%N.leb_le _].
  unfold Py.LF. by rewrite (proj2 (N.eqb_neq c 10)) by lia.
Qed.

Lemma no_lf_str_of_Z z : no_lf (Py.str_of_Z z) = true.
Proof.
  destruct z; cbn [Py.str_of_Z]; try apply no_lf_digits, Decimal.str_of_N_digits.
  change (no_lf ([Py.MINUS] ++ Py.str_of_N (N.pos p)) = true).
  rewrite no_lf_app.
  by rewrite (no_lf_digits (Py.str_of_N _)) by apply Decimal.str_of_N_digits.
Qed.

Lemma replace_char_app c r a b :
  Py.replace_char c r (a ++ b) = Py.replace_char c r a ++ Py.replace_char c r b.
Proof. unfold Py.replace_char. by rewrite flat_map_app. Qed.

Lemma replace_char_no_lf r s :
  no_lf s = true -> Py.replace_char Py.LF r s = s.
Proof.
  unfold no_lf, Py.replace_char. induction s as [|c s IH]; [done|].
  cbn [forallb flat_map]. intros [Hc Hs]%andb_true_iff.
  apply negb_true_iff in Hc. rewrite Hc. cbn [app]. by rewrite IH.
Qed.

End JsonFacts.

(* ================================================================== *)
(** * StreamingWriter: what a run writes *)
(* ================================================================== *)

Lemma filter_length_all {A} (P : A -> Prop) `{forall x, Decision (P x)}
    (l : list A) :
  length (filter P l) = length l <-> Forall P l.
Proof.
  induction l as [|a l IH]; [by split|].
  rewrite filter_cons, Forall_cons. destruct (decide (P a)) as [Ha|Ha].
  - cbn. rewrite <- IH. split; [by intros [=]|intros [_ ->]; done].
  - pose proof (length_filter P l). cbn. split; [lia|tauto].
Qed.

Section WriterFacts.

Variable rt : Runtime.
Variable io : IO.env.
Variable resolve : PurePath.Path -> PurePath.Path.
Variable cwd : PurePath.Path.
Variable now : Clock.
Variable config : Config.t.

(** The records of the candidates that are written: those that
    [process_file] did not skip, in the order of the candidates. *)
Definition included (paths : list PurePath.Path) : list ProcessedFile :=
  filter (fun pf => pf_skipped pf = false) (map (processed rt io config) paths).

Lemma included_cons path paths :
  included (path :: paths)
  = if pf_skipped (processed rt io config path) then included paths
    else processed rt io config path :: included paths.
Proof.
  unfold included. cbn [map]. rewrite filter_cons.
  destruct (pf_skipped (processed rt io config path)) eqn:E.
  - by rewrite decide_False.
  - by rewrite decide_True.
Qed.

Lemma included_length paths : (length (included paths) <= length paths)%nat.
Proof.
  unfold included. etrans; [apply length_filter|]. by rewrite length_map.
Qed.

(** ** A run in which no write fails *)

Definition no_write_fails : nat -> option exn := fun _ => None.

Lemma write_no_faults s st :
  Stream.write no_write_fails s st
  = (Ok tt, Stream.mk (Stream.written st ++ s) (S (Stream.calls st))
              (Stream._is_first_file st)).
Proof. reflexivity. Qed.

(** ** A run that succeeds met no failing write *)

Definition succeeds_like {A} (m m0 : Stream.M A) : Prop :=
  forall st a st', m st = (Ok a, st') -> m0 st = (Ok a, st').

Lemma succeeds_like_refl {A} (m : Stream.M A) : succeeds_like m m.
Proof. by intros st a st' H. Qed.

Lemma succeeds_like_bind {A B} (m m0 : Stream.M A) (k k0 : A -> Stream.M B) :
  succeeds_like m m0 -> (forall a, succeeds_like (k a) (k0 a)) ->
  succeeds_like (m ≫= k) (m0 ≫= k0).
Proof.
  intros Hm Hk st b st'. unfold mbind, stream_bind, Stream.bind.
  destruct (m st) as [[a|e] st1] eqn:E; [|done].
  rewrite (Hm _ _ _ E). apply Hk.
Qed.

Lemma succeeds_like_write wf s :
  succeeds_like (Stream.write wf s) (Stream.write no_write_fails s).
Proof.
  intros st a st'. unfold Stream.write, no_write_fails.
  by destruct (wf (Stream.calls st)).
Qed.

Lemma succeeds_like_write_opt wf s :
  succeeds_like (Stream.write_opt wf s) (Stream.write_opt no_write_fails s).
Proof.
  destruct s; [apply succeeds_like_write|apply succeeds_like_refl].
Qed.

Ltac succeeds_like_step :=
  first [ apply succeeds_like_write
        | apply succeeds_like_write_opt
        | apply succeeds_like_bind; [|intros ?]
        | apply succeeds_like_refl ].

Lemma succeeds_like_write_header wf f n :
  succeeds_like (Formatter.write_header resolve cwd now wf f n)
    (Formatter.write_header resolve cwd now no_write_fails f n).
Proof.
  destruct f; cbn [Formatter.write_header];
    unfold Formatter.text_write_header, Formatter.markdown_write_header,
      Formatter.json_write_header;
    repeat succeeds_like_step.
Qed.

Lemma succeeds_like_write_file wf f pf :
  succeeds_like (Formatter.write_file cwd wf f pf)
    (Formatter.write_file cwd no_write_fails f pf).
Proof.
  destruct f; cbn [Formatter.write_file];
    unfold Formatter.text_write_file, Formatter.markdown_write_file,
      Formatter.json_write_file.
  - repeat succeeds_like_step.
  - apply succeeds_like_bind; [apply succeeds_like_refl|intros first].
    apply succeeds_like_bind; [|intros ?; repeat succeeds_like_step].
    destruct (negb first); repeat succeeds_like_step.
  - repeat succeeds_like_step.
Qed.

Lemma succeeds_like_write_footer wf f :
  succeeds_like (Formatter.write_footer wf f)
    (Formatter.write_footer no_write_fails f).
Proof.
  destruct f; cbn [Formatter.write_footer];
    unfold Formatter.text_write_footer, Formatter.markdown_write_footer,
      Formatter.json_write_footer;
    repeat succeeds_like_step.
Qed.

Lemma succeeds_like_write_files faults paths :
  succeeds_like (StreamingWriter.write_files rt io cwd config faults paths)
    (StreamingWriter.write_files rt io cwd config StreamingWriter.no_faults paths).
Proof.
  induction paths as [|path paths IH]; [apply succeeds_like_refl|].
  cbn [StreamingWriter.write_files].
  apply succeeds_like_bind; [apply succeeds_like_refl|intros result].
  apply succeeds_like_bind; [|intros ?; apply IH].
  destruct (pf_skipped result); [apply succeeds_like_refl|].
  apply succeeds_like_write_file.
Qed.

Lemma succeeds_like_body faults paths :
  succeeds_like (StreamingWriter.body rt io resolve cwd now config faults paths)
    (StreamingWriter.body rt io resolve cwd now config StreamingWriter.no_faults
       paths).
Proof.
  unfold StreamingWriter.body.
  apply succeeds_like_bind; [apply succeeds_like_write_header|intros ?].
  apply succeeds_like_bind; [apply succeeds_like_write_files|intros ?].
  apply succeeds_like_write_footer.
Qed.

(** When the body of [write] runs to its end, what it has written is the
    artifact of the run. *)
Lemma body_completes_with_render faults files st :
  StreamingWriter.body rt io resolve cwd now config faults
    (StreamingWriter.file_paths resolve config files) Stream.init = (Ok tt, st) ->
  Stream.written st = StreamingWriter.render rt io resolve cwd now config files.
Proof.
  intros H. apply succeeds_like_body in H.
  unfold StreamingWriter.render. by rewrite H.
Qed.

(** ** The JSON artifact as a text *)

Definition json_header (file_count : nat) : Py.str :=
  (Py.lit "{" ++ [Py.LF])
  ++ (Py.lit "  " ++ Formatter.Q_ "metadata" ++ Py.lit ": {" ++ [Py.LF])
  ++ (Py.lit "    " ++ Formatter.Q_ "version" ++ Py.lit ": " ++ [Py.DQUOTE]
      ++ VERSION ++ [Py.DQUOTE] ++ Py.lit "," ++ [Py.LF])
  ++ (Py.lit "    " ++ Formatter.Q_ "project_root" ++ Py.lit ": "
      ++ JsonDumps.dumps_str (Formatter.project_root_str resolve cwd)
      ++ Py.lit "," ++ [Py.LF])
  ++ (Py.lit "    " ++ Formatter.Q_ "generated_at" ++ Py.lit ": "
      ++ [Py.DQUOTE] ++ Formatter.strftime now ++ [Py.DQUOTE] ++ Py.lit ","
      ++ [Py.LF])
  ++ (Py.lit "    " ++ Formatter.Q_ "file_count" ++ Py.lit ": "
      ++ Py.str_of_nat file_count ++ [Py.LF])
  ++ (Py.lit "  }," ++ [Py.LF])
  ++ (Py.lit "  " ++ Formatter.Q_ "files" ++ Py.lit ": [" ++ [Py.LF]).

Definition json_footer : Py.str :=
  [Py.LF] ++ Py.lit "  ]" ++ [Py.LF] ++ Py.lit "}" ++ [Py.LF].

(** The entries as [json_write_file] writes them one after the other:
    a comma and a line feed before every entry but the first. *)
Fixpoint entries_text (first : bool) (l : list ProcessedFile) : Py.str :=
  match l with
  | [] => []
  | pf :: l' =>
      (if first then [] else Py.lit "," ++ [Py.LF])
      ++ Formatter.json_entry cwd pf ++ entries_text false l'
  end.

Lemma json_write_header_text file_count st :
  exists k,
    Formatter.json_write_header resolve cwd now no_write_fails file_count st
    = (Ok tt,
       Stream.mk (Stream.written st ++ json_header file_count) k
         (Stream._is_first_file st)).
Proof.
  eexists. unfold Formatter.json_write_header, json_header, mbind, stream_bind,
    Stream.bind.
  rewrite !write_no_faults. cbn [Stream.written Stream.calls Stream._is_first_file].
  rewrite <- !app_assoc. reflexivity.
Qed.

Lemma json_write_file_text pf st :
  exists k,
    Formatter.json_write_file cwd no_write_fails pf st
    = (Ok tt,
       Stream.mk
         (Stream.written st
          ++ (if Stream._is_first_file st then [] else Py.lit "," ++ [Py.LF])
          ++ Formatter.json_entry cwd pf)
         k false).
Proof.
  unfold Formatter.json_write_file, mbind, stream_bind, Stream.bind,
    Stream.get_is_first_file, Stream.set_is_first_file.
  destruct st as [w k first]. cbn [Stream._is_first_file Stream.written].
  destruct first; cbn [negb]; eexists.
  - unfold Stream.ret. rewrite write_no_faults. cbn. reflexivity.
  - rewrite !write_no_faults. cbn. by rewrite <- app_assoc.
Qed.

Lemma json_write_footer_text st :
  exists k,
    Formatter.json_write_footer no_write_fails st
    = (Ok tt,
       Stream.mk (Stream.written st ++ json_footer) k
         (Stream._is_first_file st)).
Proof. eexists. unfold Formatter.json_write_footer. by rewrite write_no_faults. Qed.

Lemma write_files_json paths st :
  Config.output_format config = JSON ->
  exists k,
    StreamingWriter.write_files rt io cwd config StreamingWriter.no_faults
      paths st
    = (Ok tt,
       Stream.mk
         (Stream.written st
          ++ entries_text (Stream._is_first_file st) (included paths))
         k
         (Stream._is_first_file st && bool_decide (included paths = []))).
Proof.
  intros Hjson. revert st. induction paths as [|path paths IH]; intros st.
  - exists (Stream.calls st). cbn. rewrite app_nil_r, andb_true_r.
    by destruct st.
  - cbn [StreamingWriter.write_files]. unfold mbind, stream_bind, Stream.bind at 1.
    unfold Stream.lift at 1. rewrite process_file_returns.
    rewrite included_cons. unfold Stream.bind at 1.
    destruct (pf_skipped (processed rt io config path)) eqn:Hskip.
    + unfold Stream.ret at 1. apply IH.
    + rewrite Hjson. cbn [Formatter.write_file].
      change (StreamingWriter.write_fails StreamingWriter.no_faults)
        with no_write_fails.
      destruct (json_write_file_text (processed rt io config path) st)
        as [k ->].
      destruct (IH (Stream.mk
                      (Stream.written st
                       ++ (if Stream._is_first_file st then []
                           else Py.lit "," ++ [Py.LF])
                       ++ Formatter.json_entry cwd
                            (processed rt io config path)) k false))
        as [k' ->].
      exists k'. cbn [Stream.written Stream._is_first_file entries_text].
      rewrite andb_false_l, bool_decide_false by done.
      rewrite andb_false_r. by rewrite <- !app_assoc.
Qed.

(** The artifact of a JSON run: the header, the entries of the files
    that were not skipped, the footer. *)
Lemma render_json files :
  Config.output_format config = JSON ->
  let paths := StreamingWriter.file_paths resolve config files in
  StreamingWriter.render rt io resolve cwd now config files
  = json_header (length paths) ++ entries_text true (included paths)
    ++ json_footer.
Proof.
  intros Hjson paths. unfold StreamingWriter.render, StreamingWriter.body.
  fold paths. unfold mbind, stream_bind, Stream.bind. rewrite Hjson.
  cbn [Formatter.write_header Formatter.write_footer].
  change (StreamingWriter.write_fails StreamingWriter.no_faults)
    with no_write_fails.
  destruct (json_write_header_text (length paths) Stream.init) as [k ->].
  destruct (write_files_json paths
              (Stream.mk (Stream.written Stream.init ++ json_header (length paths))
                 k (Stream._is_first_file Stream.init)) Hjson) as [k' ->].
  destruct (json_write_footer_text
              (Stream.mk
                 (Stream.written
                    (Stream.mk
                       (Stream.written Stream.init ++ json_header (length paths))
                       k (Stream._is_first_file Stream.init))
                  ++ entries_text
                       (Stream._is_first_file
                          (Stream.mk
                             (Stream.written Stream.init
                              ++ json_header (length paths))
                             k (Stream._is_first_file Stream.init)))
                       (included paths)) k'
                 (Stream._is_first_file
                    (Stream.mk
                       (Stream.written Stream.init ++ json_header (length paths))
                       k (Stream._is_first_file Stream.init))
                  && bool_decide (included paths = [])))) as [k'' ->].
  cbn [snd Stream.written Stream._is_first_file Stream.init app].
  by rewrite <- app_assoc.
Qed.

(** ** The JSON artifact as a document *)

Definition content_value (content : option Py.str) : Json.value :=
  match content with
  | Some s => Json.String (JsonDumps.escape s)
  | None => Json.Null
  end.

Definition entry_value (pf : ProcessedFile) : Json.value :=
  Json.Object
    [ (Py.lit "path", Json.String (JsonDumps.escape (Formatter.rel_path_of cwd pf)));
      (Py.lit "size", Json.Number (Py.str_of_Z (pf_size pf)));
      (Py.lit "encoding", Json.String (JsonDumps.escape (pf_encoding pf)));
      (Py.lit "content", content_value (pf_content pf)) ].

Definition metadata_value (file_count : nat) : Json.value :=
  Json.Object
    [ (Py.lit "version", Json.String VERSION);
      (Py.lit "project_root",
       Json.String (JsonDumps.escape (Formatter.project_root_str resolve cwd)));
      (Py.lit "generated_at", Json.String (Formatter.strftime now));
      (Py.lit "file_count", Json.Number (Py.str_of_nat file_count)) ].

(** The document a JSON run writes, for [file_count] candidates of
    which the records [entries] were not skipped. *)
Definition document_of (file_count : nat) (entries : list ProcessedFile)
  : Json.value :=
  Json.Object
    [ (Py.lit "metadata", metadata_value file_count);
      (Py.lit "files", Json.Array (map entry_value entries)) ].

Definition indent (n : nat) : Py.str := Py.LF :: replicate n Py.SPACE.

Lemma ws_indent n : Json.ws (indent n).
Proof.
  unfold Json.ws, indent. cbn. induction n as [|n IH]; [done|]. exact IH.
Qed.

Lemma text_content content :
  Json.text (content_value content) (JsonDumps.dumps_opt_str content).
Proof.
  destruct content as [s|]; [|apply Json.text_null].
  apply Json.text_string, JsonFacts.chars_escape.
Qed.

(** One entry, in the shape of the grammar. *)
Definition entry_text (pf : ProcessedFile) : Py.str :=
  [123]
  ++ (indent 8 ++ [34] ++ Py.lit "path" ++ [34] ++ [] ++ [58] ++ [Py.SPACE]
      ++ JsonDumps.dumps_str (Formatter.rel_path_of cwd pf) ++ [] ++ [44]
      ++ indent 8 ++ [34] ++ Py.lit "size" ++ [34] ++ [] ++ [58] ++ [Py.SPACE]
      ++ Py.str_of_Z (pf_size pf) ++ [] ++ [44]
      ++ indent 8 ++ [34] ++ Py.lit "encoding" ++ [34] ++ [] ++ [58]
      ++ [Py.SPACE] ++ JsonDumps.dumps_str (pf_encoding pf) ++ [] ++ [44]
      ++ indent 8 ++ [34] ++ Py.lit "content" ++ [34] ++ [] ++ [58]
      ++ [Py.SPACE] ++ JsonDumps.dumps_opt_str (pf_content pf) ++ indent 4)
  ++ [125].

Lemma text_entry pf : Json.text (entry_value pf) (entry_text pf).
Proof.
  unfold entry_value, entry_text. apply Json.text_object.
  apply Json.members_cons;
    [apply ws_indent|by apply JsonFacts.chars_plain_all|done|done| |done|].
  { apply Json.text_string, JsonFacts.chars_escape. }
  apply Json.members_cons;
    [apply ws_indent|by apply JsonFacts.chars_plain_all|done|done| |done|].
  { apply Json.text_number, Decimal.str_of_Z_number. }
  apply Json.members_cons;
    [apply ws_indent|by apply JsonFacts.chars_plain_all|done|done| |done|].
  { apply Json.text_string, JsonFacts.chars_escape. }
  apply Json.members_one;
    [apply ws_indent|by apply JsonFacts.chars_plain_all|done|done| |apply ws_indent].
  apply text_content.
Qed.

Lemma json_entry_text pf :
  Formatter.json_entry cwd pf = Py.lit "    " ++ entry_text pf.
Proof.
  unfold Formatter.json_entry, Formatter.dumps_file_data, entry_text.
  rewrite !JsonFacts.replace_char_app.
  rewrite !(JsonFacts.replace_char_no_lf _ (JsonDumps.dumps_str _))
    by apply JsonFacts.no_lf_dumps_str.
  rewrite (JsonFacts.replace_char_no_lf _ (Py.str_of_Z _))
    by apply JsonFacts.no_lf_str_of_Z.
  rewrite (JsonFacts.replace_char_no_lf _ (JsonDumps.dumps_opt_str _))
    by apply JsonFacts.no_lf_dumps_opt_str.
  generalize (JsonDumps.dumps_str (Formatter.rel_path_of cwd pf)).
  generalize (JsonDumps.dumps_str (pf_encoding pf)).
  generalize (JsonDumps.dumps_opt_str (pf_content pf)).
  generalize (Py.str_of_Z (pf_size pf)).
  intros s1 s2 s3 s4. rewrite <- !app_assoc. reflexivity.
Qed.

(** The inside of the [files] array, in the shape of the grammar. *)
Fixpoint elements_text (pf : ProcessedFile) (rest : list ProcessedFile)
  : Py.str :=
  match rest with
  | [] => indent 4 ++ entry_text pf ++ indent 2
  | pf' :: rest' =>
      indent 4 ++ entry_text pf ++ [] ++ [44] ++ elements_text pf' rest'
  end.

Lemma elements_entries pf rest :
  Json.elements (map entry_value (pf :: rest)) (elements_text pf rest).
Proof.
  revert pf. induction rest as [|pf' rest IH]; intros pf.
  - apply Json.elements_one; [apply ws_indent|apply text_entry|apply ws_indent].
  - cbn [map elements_text]. apply Json.elements_cons;
      [apply ws_indent|apply text_entry|done|apply IH].
Qed.

Lemma entries_elements_text pf rest :
  [Py.LF] ++ Formatter.json_entry cwd pf ++ entries_text false rest ++ indent 2
  = elements_text pf rest.
Proof.
  revert pf. induction rest as [|pf' rest IH]; intros pf.
  - cbn [entries_text elements_text]. rewrite json_entry_text.
    rewrite app_nil_l. reflexivity.
  - cbn [entries_text elements_text]. rewrite <- IH, json_entry_text.
    rewrite <- !app_assoc. reflexivity.
Qed.

Definition array_text (entries : list ProcessedFile) : Py.str :=
  [91]
  ++ match entries with
     | [] => [Py.LF] ++ indent 2
     | pf :: rest => elements_text pf rest
     end
  ++ [93].

Lemma text_array entries :
  Json.text (Json.Array (map entry_value entries)) (array_text entries).
Proof.
  unfold array_text. destruct entries as [|pf rest].
  - by apply Json.text_array_empty.
  - apply Json.text_array, elements_entries.
Qed.

Definition metadata_text (file_count : nat) : Py.str :=
  [123]
  ++ (indent 4 ++ [34] ++ Py.lit "version" ++ [34] ++ [] ++ [58] ++ [Py.SPACE]
      ++ ([34] ++ VERSION ++ [34]) ++ [] ++ [44]
      ++ indent 4 ++ [34] ++ Py.lit "project_root" ++ [34] ++ [] ++ [58]
      ++ [Py.SPACE]
      ++ ([34] ++ JsonDumps.escape (Formatter.project_root_str resolve cwd)
          ++ [34])
      ++ [] ++ [44]
      ++ indent 4 ++ [34] ++ Py.lit "generated_at" ++ [34] ++ [] ++ [58]
      ++ [Py.SPACE] ++ ([34] ++ Formatter.strftime now ++ [34]) ++ [] ++ [44]
      ++ indent 4 ++ [34] ++ Py.lit "file_count" ++ [34] ++ [] ++ [58]
      ++ [Py.SPACE] ++ Py.str_of_nat file_count ++ indent 2)
  ++ [125].

Lemma two_digits_plain n : forallb JsonFacts.plain (Formatter.two_digits n) = true.
Proof.
  assert (forall s, forallb Json.is_digit s = true ->
                    forallb JsonFacts.plain s = true) as Hd.
  { induction s as [|c s IH]; [done|]. cbn.
    intros [Hc Hs]%andb_true_iff. rewrite IH by done.
    unfold Json.is_digit in Hc.
    apply andb_true_iff in Hc as [H1%N.leb_le H2%N.leb_le].
    unfold JsonFacts.plain.
    rewrite (proj2 (N.leb_le 32 c)), (proj2 (N.eqb_neq c 34)),
      (proj2 (N.eqb_neq c 92)) by lia. done. }
  unfold Formatter.two_digits. destruct (n <? 10).
  - cbn. apply Hd, Decimal.str_of_N_digits.
  - apply Hd, Decimal.str_of_N_digits.
Qed.

Lemma str_of_N_plain n : forallb JsonFacts.plain (Py.str_of_N n) = true.
Proof.
  pose proof (Decimal.str_of_N_digits n) as H.
  induction (Py.str_of_N n) as [|c s IH]; [done|]. cbn in *.
  apply andb_true_iff in H as [Hc Hs]. rewrite IH by done.
  unfold Json.is_digit in Hc.
  apply andb_true_iff in Hc as [H1%N.leb_le H2%N.leb_le].
  unfold JsonFacts.plain.
  rewrite (proj2 (N.leb_le 32 c)), (proj2 (N.eqb_neq c 34)),
    (proj2 (N.eqb_neq c 92)) by lia. done.
Qed.

Lemma chars_strftime : Json.chars (Formatter.strftime now).
Proof.
  apply JsonFacts.chars_plain_all. unfold Formatter.strftime.
  rewrite !forallb_app, !two_digits_plain, str_of_N_plain. reflexivity.
Qed.

Lemma text_metadata file_count :
  Json.text (metadata_value file_count) (metadata_text file_count).
Proof.
  unfold metadata_value, metadata_text. apply Json.text_object.
  apply Json.members_cons;
    [apply ws_indent|by apply JsonFacts.chars_plain_all|done|done| |done|].
  { apply Json.text_string. by apply JsonFacts.chars_plain_all. }
  apply Json.members_cons;
    [apply ws_indent|by apply JsonFacts.chars_plain_all|done|done| |done|].
  { apply Json.text_string, JsonFacts.chars_escape. }
  apply Json.members_cons;
    [apply ws_indent|by apply JsonFacts.chars_plain_all|done|done| |done|].
  { apply Json.text_string, chars_strftime. }
  apply Json.members_one;
    [apply ws_indent|by apply JsonFacts.chars_plain_all|done|done| |apply ws_indent].
  apply Json.text_number, Decimal.str_of_N_number.
Qed.

Definition document_text (file_count : nat) (entries : list ProcessedFile)
  : Py.str :=
  []
  ++ ([123]
      ++ (indent 2 ++ [34] ++ Py.lit "metadata" ++ [34] ++ [] ++ [58]
          ++ [Py.SPACE] ++ metadata_text file_count ++ [] ++ [44]
          ++ indent 2 ++ [34] ++ Py.lit "files" ++ [34] ++ [] ++ [58]
          ++ [Py.SPACE] ++ array_text entries ++ [Py.LF])
      ++ [125])
  ++ [Py.LF].

Lemma document_text_document file_count entries :
  Json.document (document_of file_count entries)
    (document_text file_count entries).
Proof.
  unfold document_text. eexists _, _, _. split; [reflexivity|].
  split; [done|]. split; [|done].
  unfold document_of. apply Json.text_object.
  apply Json.members_cons;
    [apply ws_indent|by apply JsonFacts.chars_plain_all|done|done| |done|].
  { apply text_metadata. }
  apply Json.members_one;
    [apply ws_indent|by apply JsonFacts.chars_plain_all|done|done| |done].
  apply text_array.
Qed.

Lemma json_text_shape file_count entries :
  json_header file_count ++ entries_text true entries ++ json_footer
  = document_text file_count entries.
Proof.
  unfold document_text, array_text.
  destruct entries as [|pf rest].
  - unfold json_header, json_footer, metadata_text, JsonDumps.dumps_str.
    generalize (JsonDumps.escape (Formatter.project_root_str resolve cwd)).
    generalize (Formatter.strftime now). generalize (Py.str_of_nat file_count).
    intros s1 s2 s3. cbn [entries_text]. rewrite <- !app_assoc. reflexivity.
  - rewrite <- entries_elements_text. cbn [entries_text].
    unfold json_header, json_footer, metadata_text, JsonDumps.dumps_str.
    generalize (JsonDumps.escape (Formatter.project_root_str resolve cwd)).
    generalize (Formatter.strftime now). generalize (Py.str_of_nat file_count).
    generalize (Formatter.json_entry cwd pf). generalize (entries_text false rest).
    intros s1 s2 s3 s4 s5. rewrite <- !app_assoc. reflexivity.
Qed.

(** The artifact of a JSON run is a JSON document: an object whose
    metadata carry the number of candidates as [file_count] and whose
    [files] array has one entry per candidate that was not skipped. *)
Lemma render_json_document files :
  Config.output_format config = JSON ->
  let paths := StreamingWriter.file_paths resolve config files in
  Json.document (document_of (length paths) (included paths))
    (StreamingWriter.render rt io resolve cwd now config files).
Proof.
  intros Hjson paths. rewrite (render_json files Hjson). fold paths.
  rewrite json_text_shape. apply document_text_document.
Qed.

(** ** The temporary file *)

Lemma tmp_path_parent tmp_random :
  PurePath.parent (StreamingWriter.tmp_path tmp_random config)
  = PurePath.parent (Config.output config).
Proof.
  unfold StreamingWriter.tmp_path, PurePath.child.
  generalize (PurePath.parent (Config.output config)). intros d.
  generalize (if Py.truthy (PurePath.suffix (Config.output config))
              then PurePath.suffix (Config.output config) else Py.lit ".txt").
  intros sfx.
  destruct d as [|h [|h' t]]; [reflexivity|reflexivity|].
  change (PurePath.parent ((h :: h' :: t) ++ [Py.lit ".tmp_" ++ tmp_random ++ sfx]))
    with (removelast ((h :: h' :: t) ++ [Py.lit ".tmp_" ++ tmp_random ++ sfx])).
  apply removelast_last.
Qed.

(** The name of the temporary file starts with ".tmp_": it differs from
    every destination whose name does not. *)
Lemma tmp_path_is_not_the_output tmp_random :
  Py.startswith (PurePath.name (Config.output config)) (Py.lit ".tmp_") = false ->
  StreamingWriter.tmp_path tmp_random config <> Config.output config.
Proof.
  intros Hname E. rewrite <- E in Hname.
  unfold StreamingWriter.tmp_path, PurePath.child, PurePath.name in Hname.
  rewrite last_snoc in Hname. unfold Py.eqb in Hname.
  rewrite bool_decide_false in Hname by (intros [=]).
  cbn in Hname. discriminate Hname.
Qed.

(** C3 (amended). [write] either publishes the whole artifact with one
    rename of a temporary file made in the directory of the destination,
    or raises and leaves the destination as it was. After a failure
    every file but the temporary one is as before, and so is the
    temporary one unless its deletion failed too: the writer swallows
    that failure and the temporary file stays. *)
Theorem write_publishes_whole_or_nothing tmp_random faults files disk :
  let tmp := StreamingWriter.tmp_path tmp_random config in
  let dest := Config.output config in
  let '(outcome, disk') :=
    StreamingWriter.write rt io resolve cwd now tmp_random config faults
      files disk in
  PurePath.parent tmp = PurePath.parent dest
  /\ match outcome with
     | StreamingWriter.DryRun => Config.dry_run config = true /\ disk' = disk
     | StreamingWriter.Completed =>
         Config.dry_run config = false
         /\ disk'
            = <[dest := StreamingWriter.render rt io resolve cwd now config files]>
                disk
     | StreamingWriter.Raised e =>
         Config.dry_run config = false
         /\ (forall p, p <> tmp -> disk' !! p = disk !! p)
         /\ (tmp <> dest -> disk' !! dest = disk !! dest)
         /\ (StreamingWriter.unlink_fails faults = false -> disk' = disk)
     end.
Proof.
  cbn zeta. unfold StreamingWriter.write, StreamingWriter.mktemp,
    StreamingWriter.fail_or_ok.
  pose proof (tmp_path_parent tmp_random) as Hparent.
  destruct (Config.dry_run config); [by repeat split|].
  destruct (StreamingWriter.mkdir_fails faults); [by repeat split|].
  destruct (StreamingWriter.mktemp_fails faults); [by repeat split|].
  destruct (disk !! StreamingWriter.tmp_path tmp_random config) eqn:Htmp;
    [by repeat split|].
  destruct (StreamingWriter.body _ _ _ _ _ _ _ _ _) as [[[]|e] st] eqn:Hbody.
  - apply body_completes_with_render in Hbody.
    destruct (StreamingWriter.close_fails faults),
      (StreamingWriter.replace_fails faults);
      try (rewrite bool_decide_true by (rewrite lookup_insert_eq; eauto);
           split; [done|]; split; [done|]; split;
           [ intros p Hp; destruct (StreamingWriter.unlink_fails faults);
             [by rewrite lookup_insert_ne|
              by rewrite delete_insert_id] |];
           split;
           [ intros Hne; destruct (StreamingWriter.unlink_fails faults);
             [by rewrite lookup_insert_ne|by rewrite delete_insert_id]
           | intros ->; by rewrite delete_insert_id ]).
    split; [done|]. split; [done|].
    by rewrite delete_insert_id, Hbody.
  - rewrite bool_decide_true by (rewrite lookup_insert_eq; eauto).
    split; [done|]. split; [done|]. split.
    + intros p Hp. destruct (StreamingWriter.unlink_fails faults);
        [by rewrite lookup_insert_ne|by rewrite delete_insert_id].
    + split.
      * intros Hne. destruct (StreamingWriter.unlink_fails faults);
          [by rewrite lookup_insert_ne|by rewrite delete_insert_id].
      * intros ->. by rewrite delete_insert_id.
Qed.

(** C4 (amended). The artifact of a JSON run is a JSON document. The
    [file_count] of its metadata is the number of candidates handed to
    the writer, counted before any of them is processed; the [files]
    array has one entry for each candidate that [process_file] did not
    skip. The two numbers are equal exactly when no candidate is
    skipped. *)
Theorem json_file_count_counts_candidates files :
  Config.output_format config = JSON ->
  let paths := StreamingWriter.file_paths resolve config files in
  let entries := included paths in
  exists doc,
    Json.document doc (StreamingWriter.render rt io resolve cwd now config files)
    /\ Json.file_count doc = Some (Py.str_of_nat (length paths))
    /\ Json.files_length doc = Some (length entries)
    /\ (length entries <= length paths)%nat
    /\ (length entries = length paths
        <-> Forall (fun p => pf_skipped (processed rt io config p) = false) paths).
Proof.
  intros Hjson paths entries. exists (document_of (length paths) entries).
  split; [by apply render_json_document|].
  split; [reflexivity|].
  split.
  { change (Json.files_length (document_of (length paths) entries))
      with (Some (length (map entry_value entries))).
    by rewrite length_map. }
  split; [apply included_length|].
  subst entries. unfold included.
  rewrite <- (length_map (processed rt io config) paths).
  rewrite filter_length_all, Forall_fmap. reflexivity.
Qed.

Lemma file_paths_permutation files files' :
  files ≡ₚ files' ->
  StreamingWriter.file_paths resolve config files
  = StreamingWriter.file_paths resolve config files'.
Proof.
  intros Hp. unfold StreamingWriter.file_paths.
  by rewrite (PathOrder.merge_sort_permutation_invariant _ _ Hp).
Qed.

(** C5 (amended). The candidates are sorted by a total order on paths,
    so a run does not depend on the order in which they were found: for
    one configuration, one file system, one clock reading and one
    behaviour of the system calls, two runs over the same candidates, in
    whatever order, write the same artifact and leave the same files.
    The clock reading is part of the header. *)
Theorem runs_agree_whatever_the_discovery_order tmp_random faults disk
    files files' :
  files ≡ₚ files' ->
  Sorted PurePath.le (merge_sort PurePath.le files)
  /\ StreamingWriter.render rt io resolve cwd now config files
     = StreamingWriter.render rt io resolve cwd now config files'
  /\ StreamingWriter.write rt io resolve cwd now tmp_random config faults
       files disk
     = StreamingWriter.write rt io resolve cwd now tmp_random config faults
         files' disk.
Proof.
  intros Hp. split; [apply Sorted_merge_sort, _|].
  unfold StreamingWriter.render, StreamingWriter.write.
  by rewrite (file_paths_permutation _ _ Hp).
Qed.

End WriterFacts.

(** The amended C4 at work: the artifact of a JSON run over /proj/a.py
    and the empty /proj/empty.py is a document that counts two files and
    lists one. *)
Lemma json_file_count_counts_candidates_witness :
  let files := [Scenario.P "/proj/empty.py"; Scenario.P "/proj/a.py"] in
  exists doc,
    Json.document doc
      (StreamingWriter.render Scenario.rt Scenario.io (fun p => p) Scenario.cwd
         Scenario.clock Scenario.config_json files)
    /\ Json.file_count doc = Some (Py.lit "2")
    /\ Json.files_length doc = Some 1%nat.
Proof.
  intros files.
  destruct (json_file_count_counts_candidates Scenario.rt Scenario.io
              (fun p => p) Scenario.cwd Scenario.clock Scenario.config_json
              files eq_refl) as (doc & Hdoc & Hcount & Hlen & _).
  exists doc. split; [exact Hdoc|]. split; [exact Hcount|exact Hlen].
Defined.

(** C4 (counterexample). A JSON run whose only candidate is the empty
    file /proj/empty.py: the file is skipped, the artifact is a document
    whose [file_count] is 1 and whose [files] array is empty. *)
Lemma file_count_differs_from_entries :
  let files := [Scenario.P "/proj/empty.py"] in
  let doc :=
    document_of (fun p => p) Scenario.cwd Scenario.clock 1 [] in
  (IO.run (FileProcessor.process_file Scenario.rt Scenario.io
             Scenario.config_json (Scenario.P "/proj/empty.py"))).1
  = Ok (FileProcessor.skip (Scenario.P "/proj/empty.py")
          (Py.lit "Empty or whitespace-only file") 0)
  /\ Json.document doc
       (StreamingWriter.render Scenario.rt Scenario.io (fun p => p) Scenario.cwd
          Scenario.clock Scenario.config_json files)
  /\ Json.file_count doc = Some (Py.lit "1")
  /\ Json.files_length doc = Some 0%nat.
Proof.
  cbn zeta. split; [vm_compute; reflexivity|]. split; [|by split].
  exact (render_json_document Scenario.rt Scenario.io (fun p => p) Scenario.cwd
           Scenario.clock Scenario.config_json
           [Scenario.P "/proj/empty.py"] eq_refl).
Qed.

(** The amended C5 at work: the two orders of two candidates. *)
Lemma runs_agree_whatever_the_discovery_order_witness :
  let a := Scenario.P "/proj/a.py" in
  let b := Scenario.P "/proj/empty.py" in
  StreamingWriter.render Scenario.rt Scenario.io (fun p => p) Scenario.cwd
    Scenario.clock Scenario.config_text [a; b]
  = StreamingWriter.render Scenario.rt Scenario.io (fun p => p) Scenario.cwd
      Scenario.clock Scenario.config_text [b; a].
Proof.
  intros a b.
  exact (proj1 (proj2 (runs_agree_whatever_the_discovery_order Scenario.rt
                         Scenario.io (fun p => p) Scenario.cwd Scenario.clock
                         Scenario.config_text Scenario.tmp_random
                         StreamingWriter.no_faults ∅ [a; b] [b; a]
                         (Permutation_swap b a [])))).
Defined.

(** C5 (counterexample). Two runs with one configuration over one
    unchanged tree, a second apart: the artifacts differ, in the line of
    the header that carries the time. *)
Lemma artifacts_differ_with_the_clock :
  let files := [Scenario.P "/proj/a.py"] in
  Py.eqb
    (StreamingWriter.render Scenario.rt Scenario.io (fun p => p) Scenario.cwd
       Scenario.clock Scenario.config_text files)
    (StreamingWriter.render Scenario.rt Scenario.io (fun p => p) Scenario.cwd
       Scenario.clock_later Scenario.config_text files)
  = false
  /\ Formatter.strftime Scenario.clock = Py.lit "2024-01-02 03:04:05"
  /\ Formatter.strftime Scenario.clock_later = Py.lit "2024-01-02 03:04:06".
Proof. vm_compute. repeat split; reflexivity. Qed.

(** C3 (counterexample). The rename fails and so does the deletion of
    the temporary file: [write] raises, the destination is as before,
    and the temporary file is left in the output directory with the
    whole artifact in it. *)
Lemma temporary_file_survives_a_failed_unlink :
  let files := [Scenario.P "/proj/a.py"] in
  let tmp := StreamingWriter.tmp_path Scenario.tmp_random Scenario.config_text in
  let '(outcome, disk') :=
    StreamingWriter.write Scenario.rt Scenario.io (fun p => p) Scenario.cwd
      Scenario.clock Scenario.tmp_random Scenario.config_text
      Scenario.faults_replace_and_unlink files ∅ in
  outcome = StreamingWriter.Raised (Exception (Py.lit "Permission denied"))
  /\ disk' !! Config.output Scenario.config_text = None
  /\ disk' !! tmp
     = Some (StreamingWriter.render Scenario.rt Scenario.io (fun p => p)
               Scenario.cwd Scenario.clock Scenario.config_text files).
Proof. vm_compute. repeat split; reflexivity. Qed.

(** The amended C3 at work: the same run when only the rename fails. *)
Lemma write_publishes_whole_or_nothing_witness :
  let files := [Scenario.P "/proj/a.py"] in
  let faults :=
    StreamingWriter.mkFaults None None (fun _ => None) None
      (Some (Exception (Py.lit "Permission denied"))) false in
  StreamingWriter.write Scenario.rt Scenario.io (fun p => p) Scenario.cwd
    Scenario.clock Scenario.tmp_random Scenario.config_text faults files ∅
  = (StreamingWriter.Raised (Exception (Py.lit "Permission denied")), ∅).
Proof.
  intros files faults.
  pose proof (write_publishes_whole_or_nothing Scenario.rt Scenario.io
                (fun p => p) Scenario.cwd Scenario.clock Scenario.config_text
                Scenario.tmp_random faults files ∅) as H.
  cbn zeta in H.
  assert ((StreamingWriter.write Scenario.rt Scenario.io (fun p => p)
             Scenario.cwd Scenario.clock Scenario.tmp_random
             Scenario.config_text faults files ∅).1
          = StreamingWriter.Raised (Exception (Py.lit "Permission denied")))
    as E by (vm_compute; reflexivity).
  destruct (StreamingWriter.write _ _ _ _ _ _ _ faults files ∅)
    as [outcome disk'].
  cbn [fst] in E. subst outcome.
  destruct H as (_ & _ & _ & _ & H). by rewrite (H eq_refl).
Defined.

(* ================================================================== *)
(** * Generator: what resolving a configuration does to the presets *)
(* ================================================================== *)

Section ResolveFacts.

Variable fs : FS.t.
Variable file_conf : Generator.FileConf.

(** What [_resolve_config] appends to the lists of the preset. *)
Definition added_includes (cli_config : Config.t) : list Py.str :=
  default [] (Generator.fc_include file_conf) ++ Config.include cli_config.

Definition added_excludes (cli_config : Config.t) : list Py.str :=
  default [] (Generator.fc_exclude file_conf) ++ Config.exclude cli_config.

(** The table after [_resolve_config]: the entry of the selected preset
    has grown by the patterns of the file and of the command line; no
    other entry has changed. *)
Lemma resolve_config_table cli_config presets :
  (Generator._resolve_config fs file_conf cli_config presets).2
  = match presets !! Generator.preset_name fs file_conf cli_config with
    | Some pc =>
        <[Generator.preset_name fs file_conf cli_config :=
            ProjectDetector.mkPreset
              (ProjectDetector.p_include pc ++ added_includes cli_config)
              (ProjectDetector.p_exclude pc ++ added_excludes cli_config)]>
          presets
    | None => presets
    end.
Proof.
  unfold Generator._resolve_config, ProjectDetector.get_preset_config. cbn zeta.
  cbn [snd]. by destruct (presets !! _).
Qed.

(** The table is left as it was exactly when the selected preset is not
    in the table or there is nothing to append. *)
Lemma resolve_config_table_unchanged cli_config presets :
  (Generator._resolve_config fs file_conf cli_config presets).2 = presets
  <-> presets !! Generator.preset_name fs file_conf cli_config = None
      \/ (added_includes cli_config = [] /\ added_excludes cli_config = []).
Proof.
  rewrite resolve_config_table.
  destruct (presets !! Generator.preset_name fs file_conf cli_config)
    as [[inc exc]|] eqn:E; [|by split; [left|]].
  cbn [ProjectDetector.p_include ProjectDetector.p_exclude]. split.
  - intros H. right.
    assert (<[Generator.preset_name fs file_conf cli_config :=
                ProjectDetector.mkPreset (inc ++ added_includes cli_config)
                  (exc ++ added_excludes cli_config)]> presets
            !! Generator.preset_name fs file_conf cli_config
            = Some (ProjectDetector.mkPreset inc exc)) as H'
      by by rewrite H.
    rewrite lookup_insert_eq in H'. injection H' as H1 H2.
    split.
    + apply (app_inv_head inc). by rewrite app_nil_r.
    + apply (app_inv_head exc). by rewrite app_nil_r.
  - intros [?|[-> ->]]; [done|]. rewrite !app_nil_r. by apply insert_id.
Qed.

End ResolveFacts.

(** C9 (the code at the failing input). The documented invocation
    [--preset python --include "*.toml" --exclude "tests/*"]: resolving
    the configuration appends both patterns to the lists of the "python"
    entry of [PRESETS]. A second resolution in the same process, with the
    preset alone, then includes "*.toml" and excludes "tests/*". *)
Theorem resolve_config_extends_the_preset_table :
  let cli patterns_in patterns_out :=
    {| Config.paths := [Scenario.P "/proj"];
       Config.output := Scenario.P "/proj/.context/generated/context.txt";
       Config.preset := Some (Py.lit "python");
       Config.include := patterns_in;
       Config.exclude := patterns_out;
       Config.exclude_common := true;
       Config.max_file_size_mb := 1;
       Config.output_format := TEXT;
       Config.minify := false;
       Config.verbose := false;
       Config.dry_run := false |} in
  let python := Py.lit "python" in
  let before := ProjectDetector.PRESETS in
  let first :=
    Generator._resolve_config Scenario.fs Generator.empty_conf
      (cli [Py.lit "*.toml"] [Py.lit "tests/*"]) before in
  let second :=
    Generator._resolve_config Scenario.fs Generator.empty_conf (cli [] [])
      first.2 in
  before !! python
  = Some (ProjectDetector.mkPreset
            (ProjectDetector.L ["*.py"; "requirements*.txt"; "pyproject.toml";
                                "setup.py"; "*.pyx"; "*.pyi"]%string)
            (ProjectDetector.L ["*.pyc"; "*.pyo"; "*.pyd"; "*.egg-info/*";
                                "venv/*"; ".venv/*"; "__pycache__/*"]%string))
  /\ first.2 !! python
     = Some (ProjectDetector.mkPreset
               (ProjectDetector.L ["*.py"; "requirements*.txt";
                                   "pyproject.toml"; "setup.py"; "*.pyx";
                                   "*.pyi"; "*.toml"]%string)
               (ProjectDetector.L ["*.pyc"; "*.pyo"; "*.pyd"; "*.egg-info/*";
                                   "venv/*"; ".venv/*"; "__pycache__/*";
                                   "tests/*"]%string))
  /\ match second.1 with
     | Ok c =>
         Config.include c
         = ProjectDetector.L ["*.py"; "requirements*.txt"; "pyproject.toml";
                              "setup.py"; "*.pyx"; "*.pyi"; "*.toml"]%string
         /\ Config.exclude c
            = ProjectDetector.L ["*.pyc"; "*.pyo"; "*.pyd"; "*.egg-info/*";
                                 "venv/*"; ".venv/*"; "__pycache__/*";
                                 "tests/*"]%string
     | Raise _ => False
     end.
Proof. vm_compute. repeat split; reflexivity. Qed.

(* ================================================================== *)
(** * Strings: strip, splitlines, join *)
(* ================================================================== *)

Module StrFacts.

(** A string of white space only. *)
Definition blank (s : Py.str) : bool := forallb Py.isspace s.

(** A string that holds no line boundary. *)
Definition one_line (s : Py.str) : bool :=
  forallb (fun c => negb (Py.islinebreak c)) s.

Lemma linebreak_isspace c : Py.islinebreak c = true -> Py.isspace c = true.
Proof.
  unfold Py.islinebreak, Py.isspace.
  rewrite !orb_true_iff, !andb_true_iff, !N.leb_le, !N.eqb_eq.
  intros H. repeat (rewrite orb_true_iff || rewrite andb_true_iff
                    || rewrite N.leb_le || rewrite N.eqb_eq). lia.
Qed.

Lemma LF_linebreak : Py.islinebreak Py.LF = true.
Proof. reflexivity. Qed.

Lemma rstrip_nil_iff s : Py.rstrip s = [] <-> blank s = true.
Proof.
  induction s as [|c s IH]; [done|].
  cbn. destruct (Py.rstrip s) as [|r rs] eqn:E.
  - destruct (Py.isspace c); cbn; [tauto|]. split; [done|intros [=]].
  - split; [done|]. intros [_ H]%andb_true_iff. apply IH in H. done.
Qed.

Lemma rstrip_blank s : blank s = true -> Py.rstrip s = [].
Proof. apply rstrip_nil_iff. Qed.

Lemma rstrip_cons_keep c s :
  Py.rstrip s <> [] -> Py.rstrip (c :: s) = c :: Py.rstrip s.
Proof. cbn. by destruct (Py.rstrip s). Qed.

Lemma rstrip_cons_nonspace c s :
  Py.isspace c = false -> Py.rstrip (c :: s) = c :: Py.rstrip s.
Proof. intros H. cbn. destruct (Py.rstrip s); by rewrite ?H. Qed.

Lemma rstrip_idem s : Py.rstrip (Py.rstrip s) = Py.rstrip s.
Proof.
  induction s as [|c s IH]; [done|].
  cbn. destruct (Py.rstrip s) as [|r rs] eqn:E.
  - destruct (Py.isspace c) eqn:Hc; [done|]. cbn. by rewrite Hc.
  - rewrite rstrip_cons_keep; [by rewrite IH|]. rewrite IH. done.
Qed.

(** [rstrip] takes a blank suffix off. *)
Lemma rstrip_split s : exists w, s = Py.rstrip s ++ w /\ blank w = true.
Proof.
  induction s as [|c s (w & Hs & Hw)]; [by exists []|].
  cbn. destruct (Py.rstrip s) as [|r rs] eqn:E.
  - destruct (Py.isspace c) eqn:Hc.
    + exists (c :: s). split; [done|]. cbn. rewrite Hc. cbn.
      by apply rstrip_nil_iff.
    + exists s. split; [done|]. by apply rstrip_nil_iff.
  - exists w. split; [|done]. cbn. by rewrite Hs at 1.
Qed.

Lemma blank_app a b : blank (a ++ b) = blank a && blank b.
Proof. apply forallb_app. Qed.

Lemma one_line_app a b : one_line (a ++ b) = one_line a && one_line b.
Proof. apply forallb_app. Qed.

Lemma one_line_cons c s :
  one_line (c :: s) = negb (Py.islinebreak c) && one_line s.
Proof. reflexivity. Qed.

Lemma one_line_rstrip s : one_line s = true -> one_line (Py.rstrip s) = true.
Proof.
  destruct (rstrip_split s) as (w & Hs & _). intros H.
  rewrite Hs, one_line_app in H. by apply andb_true_iff in H as [? _].
Qed.

Lemma lstrip_nil_iff s : Py.lstrip s = [] <-> blank s = true.
Proof.
  induction s as [|c s IH]; [done|].
  cbn. destruct (Py.isspace c); cbn; [done|]. split; [intros [=]|done].
Qed.

Lemma lstrip_head s c r : Py.lstrip s = c :: r -> Py.isspace c = false.
Proof.
  induction s as [|d s IH]; [done|].
  cbn. destruct (Py.isspace d) eqn:Hd; [done|]. by intros [= <- _].
Qed.

(** [strip] leaves nothing exactly of a blank string. *)
Lemma strip_truthy s : Py.truthy (Py.strip s) = negb (blank s).
Proof.
  unfold Py.strip. destruct (blank s) eqn:Hb.
  - apply lstrip_nil_iff in Hb. by rewrite Hb.
  - destruct (Py.lstrip s) as [|c r] eqn:E.
    + apply lstrip_nil_iff in E. congruence.
    + apply lstrip_head in E as Hc. rewrite rstrip_cons_nonspace by done. done.
Qed.

Lemma blank_rstrip s : blank (Py.rstrip s) = blank s.
Proof.
  destruct (rstrip_split s) as (w & Hs & Hw).
  rewrite Hs at 2. by rewrite blank_app, Hw, andb_true_r.
Qed.

(** ** splitlines *)

Lemma splitlines_aux_one_line cur l rest :
  one_line l = true ->
  Py.splitlines_aux cur (l ++ rest) = Py.splitlines_aux (reverse l ++ cur) rest.
Proof.
  revert cur. induction l as [|c l IH]; intros cur; [done|].
  intros [Hc Hl]%andb_true_iff. apply negb_true_iff in Hc.
  rewrite reverse_cons, <- app_assoc. cbn [app Py.splitlines_aux].
  rewrite Hc. by rewrite IH.
Qed.

Lemma join_cons sep l L :
  L <> [] -> Py.join sep (l :: L) = l ++ sep ++ Py.join sep L.
Proof. by destruct L. Qed.

Lemma join_nonempty sep l L : l <> [] -> Py.join sep (l :: L) <> [].
Proof. destruct L; cbn; [done|]. by destruct l. Qed.

(** Joining lines with line feeds and splitting again gives the lines
    back, when none of them is empty or holds a line boundary. *)
Lemma splitlines_join L :
  Forall (fun l => l <> [] /\ one_line l = true) L ->
  Py.splitlines (Py.join [Py.LF] L) = L.
Proof.
  unfold Py.splitlines. induction 1 as [|l L [Hne Hl] HL IH]; [done|].
  destruct L as [|l' L'].
  - cbn [Py.join]. rewrite <- (app_nil_r l) at 1.
    rewrite splitlines_aux_one_line by done. rewrite app_nil_r. cbn.
    destruct (reverse l) eqn:E; [|by rewrite <- E, reverse_involutive].
    apply (f_equal reverse) in E. rewrite reverse_involutive in E. done.
  - rewrite join_cons by done. rewrite splitlines_aux_one_line by done.
    rewrite app_nil_r. cbn [app Py.splitlines_aux]. rewrite LF_linebreak.
    rewrite reverse_involutive.
    destruct (Py.join [Py.LF] (l' :: L')) as [|d s''] eqn:E.
    + exfalso. apply Forall_cons in HL as [[Hne' _] _].
      by apply (join_nonempty [Py.LF] l' L').
    + replace ((Py.LF =? Py.CR) && (d =? Py.LF)) with false by done.
      by rewrite IH.
Qed.

(** ** strip, twice *)

Definition head_space (s : Py.str) : bool :=
  match s with c :: _ => Py.isspace c | [] => false end.

Lemma lstrip_split s : exists w, s = w ++ Py.lstrip s /\ blank w = true.
Proof.
  induction s as [|c s (w & Hs & Hw)]; [by exists []|].
  cbn [Py.lstrip]. destruct (Py.isspace c) eqn:Hc.
  - exists (c :: w). split; [cbn; by rewrite <- Hs|].
    unfold blank in *. cbn. by rewrite Hc.
  - by exists [].
Qed.

Lemma head_space_lstrip s : head_space (Py.lstrip s) = false.
Proof.
  destruct (Py.lstrip s) as [|c r] eqn:E; [done|]. by apply lstrip_head in E.
Qed.

Lemma lstrip_fixed s : head_space s = false -> Py.lstrip s = s.
Proof. destruct s as [|c s]; [done|]. cbn. by intros ->. Qed.

Lemma head_space_rstrip s :
  head_space s = false -> head_space (Py.rstrip s) = false.
Proof.
  intros H. destruct (rstrip_split s) as (w & Hs & _).
  destruct (Py.rstrip s) as [|c r]; [done|]. by rewrite Hs in H.
Qed.

Lemma strip_idem s : Py.strip (Py.strip s) = Py.strip s.
Proof.
  unfold Py.strip. rewrite (lstrip_fixed (Py.rstrip _)).
  - apply rstrip_idem.
  - apply head_space_rstrip, head_space_lstrip.
Qed.

End StrFacts.

(* ================================================================== *)
(** * Minifier: the passes over a text *)
(* ================================================================== *)

Module MinifyFacts.

Import StrFacts.

(** The two characters [a], [b] occur next to each other in [s]. *)
Fixpoint has2 (a b : N) (s : Py.str) : bool :=
  match s with
  | [] => false
  | c :: s' => ((c =? a) && Minifier.head_is b s') || has2 a b s'
  end.

Lemma has2_app_l a b s t : has2 a b s = true -> has2 a b (s ++ t) = true.
Proof.
  induction s as [|c s IH]; [done|].
  cbn. intros [H|H]%orb_true_iff; apply orb_true_iff; [left|right; auto].
  apply andb_true_iff in H as [-> H]. destruct s; [done|]. done.
Qed.

Lemma has2_app_r a b s t : has2 a b t = true -> has2 a b (s ++ t) = true.
Proof.
  intros H. induction s as [|c s IH]; [done|]. cbn. by rewrite IH, orb_true_r.
Qed.

Lemma has2_app_false_l a b s t : has2 a b (s ++ t) = false -> has2 a b s = false.
Proof.
  intros H. destruct (has2 a b s) eqn:E; [|done].
  by rewrite (has2_app_l _ _ _ t E) in H.
Qed.

Lemma has2_app_false_r a b s t : has2 a b (s ++ t) = false -> has2 a b t = false.
Proof.
  intros H. destruct (has2 a b t) eqn:E; [|done].
  by rewrite (has2_app_r _ _ s _ E) in H.
Qed.

(** [has2] across a seam: a pair is in the left part, in the right part,
    or made of the last character of the one and the first of the
    other. *)
Lemma has2_app a b s t :
  has2 a b (s ++ t)
  = has2 a b s || has2 a b t
    || (match last s with Some c => c =? a | None => false end
        && Minifier.head_is b t).
Proof.
  induction s as [|c s IH]; [cbn; by destruct (has2 a b t)|].
  cbn [app has2]. rewrite IH. destruct s as [|d s].
  - cbn. destruct t as [|e t]; cbn; [by rewrite !andb_false_r|].
    destruct (c =? a), (e =? b), (e =? a), (Minifier.head_is b t),
      (has2 a b t); done.
  - cbn [app Minifier.head_is]. rewrite last_cons_cons.
    destruct ((c =? a) && (d =? b)), (has2 a b (d :: s)), (has2 a b t); done.
Qed.

Lemma has2_rstrip a b s : has2 a b s = false -> has2 a b (Py.rstrip s) = false.
Proof.
  destruct (rstrip_split s) as (w & Hs & _). intros H.
  rewrite Hs in H. by apply has2_app_false_l in H.
Qed.

(** The lines of a text are pieces of it. *)
Lemma has2_splitlines_aux a b n :
  forall s cur, (length s <= n)%nat ->
    has2 a b (reverse cur ++ s) = false ->
    Forall (fun l => has2 a b l = false) (Py.splitlines_aux cur s).
Proof.
  induction n as [|n IH]; intros s cur Hn H.
  - destruct s; [|cbn in Hn; lia]. cbn. rewrite app_nil_r in H.
    destruct cur; [constructor|]. by repeat constructor.
  - destruct s as [|c s']; cbn [Py.splitlines_aux].
    + rewrite app_nil_r in H. destruct cur; [constructor|]. by repeat constructor.
    + cbn in Hn. destruct (Py.islinebreak c).
      * constructor; [by apply has2_app_false_l in H|].
        apply has2_app_false_r in H.
        change (c :: s') with ([c] ++ s') in H. apply has2_app_false_r in H.
        destruct s' as [|d s'']; [constructor|].
        destruct ((c =? Py.CR) && (d =? Py.LF)).
        -- apply IH; [cbn in Hn; lia|].
           change (d :: s'') with ([d] ++ s'') in H.
           by apply has2_app_false_r in H.
        -- apply IH; [lia|done].
      * apply IH; [lia|]. by rewrite reverse_cons, <- app_assoc.
Qed.

Lemma has2_splitlines a b s :
  has2 a b s = false -> Forall (fun l => has2 a b l = false) (Py.splitlines s).
Proof. intros H. by apply (has2_splitlines_aux a b (length s)). Qed.

Lemma one_line_splitlines_aux n :
  forall s cur, (length s <= n)%nat -> one_line cur = true ->
    Forall (fun l => one_line l = true) (Py.splitlines_aux cur s).
Proof.
  assert (Hrev : forall cur, one_line cur = true -> one_line (reverse cur) = true).
  { induction cur as [|c cur IHc]; [done|].
    rewrite one_line_cons. intros [Hc Hcur]%andb_true_iff.
    rewrite reverse_cons, one_line_app, IHc by done.
    by rewrite one_line_cons, Hc. }
  induction n as [|n IH]; intros s cur Hn H.
  - destruct s; [|cbn in Hn; lia]. cbn.
    destruct cur; [constructor|]. repeat constructor. by apply Hrev.
  - destruct s as [|c s']; cbn [Py.splitlines_aux].
    + destruct cur; [constructor|]. repeat constructor. by apply Hrev.
    + cbn in Hn. destruct (Py.islinebreak c) eqn:Hc.
      * constructor; [by apply Hrev|].
        destruct s' as [|d s'']; [constructor|].
        destruct ((c =? Py.CR) && (d =? Py.LF)); apply IH; cbn in *; try lia; done.
      * apply IH; [lia|]. cbn. by rewrite Hc.
Qed.

Lemma one_line_splitlines s :
  Forall (fun l => one_line l = true) (Py.splitlines s).
Proof. by apply (one_line_splitlines_aux (length s)). Qed.

Lemma has2_join a b L :
  a <> Py.LF -> b <> Py.LF ->
  Forall (fun l => has2 a b l = false) L ->
  has2 a b (Py.join [Py.LF] L) = false.
Proof.
  intros Ha Hb. induction 1 as [|l L Hl HL IH]; [done|].
  destruct L as [|l' L']; [done|]. rewrite join_cons by done.
  rewrite has2_app, Hl. cbn [orb].
  change ([Py.LF] ++ Py.join [Py.LF] (l' :: L'))
    with (Py.LF :: Py.join [Py.LF] (l' :: L')).
  cbn [has2 Minifier.head_is]. rewrite IH.
  rewrite (proj2 (N.eqb_neq Py.LF a)) by done.
  rewrite (proj2 (N.eqb_neq Py.LF b)) by done.
  by rewrite andb_false_r.
Qed.

(** ** Line comments *)

Definition no_lf (s : Py.str) : bool := forallb (fun c => negb (c =? Py.LF)) s.

Lemma one_line_no_lf s : one_line s = true -> no_lf s = true.
Proof.
  unfold one_line, no_lf. induction s as [|c s IH]; [done|].
  cbn [forallb]. intros [Hc Hs]%andb_true_iff. rewrite IH by done.
  destruct (N.eqb_spec c Py.LF) as [->|]; [done|done].
Qed.

Lemma line_end_ok_no_lf s : no_lf s = true -> Minifier.line_end_ok s = true.
Proof.
  induction s as [|c s IH]; [done|].
  cbn. intros [Hc Hs]%andb_true_iff. apply negb_true_iff in Hc.
  rewrite Hc. auto.
Qed.

Lemma sub_slash_skipping_no_lf m s :
  no_lf s = true -> Minifier.sub_slash_comment m true s = [].
Proof.
  induction s as [|c s IH]; [done|].
  cbn. intros [Hc Hs]%andb_true_iff. apply negb_true_iff in Hc.
  rewrite Hc. auto.
Qed.

Lemma sub_hash_skipping_no_lf s :
  no_lf s = true -> Minifier.sub_hash_comment true s = [].
Proof.
  induction s as [|c s IH]; [done|].
  cbn. intros [Hc Hs]%andb_true_iff. apply negb_true_iff in Hc.
  rewrite Hc. auto.
Qed.

(** A text with no "//" is left alone by the "//" pass. *)
Lemma sub_slash_fixed m s :
  has2 Py.SLASH Py.SLASH s = false -> Minifier.sub_slash_comment m false s = s.
Proof.
  induction s as [|c s IH]; [done|].
  cbn. intros [H1 H2]%orb_false_iff. rewrite H1. cbn. by rewrite IH.
Qed.

(** On a single line both comment passes cut the line short. *)
Lemma sub_slash_prefix s :
  no_lf s = true ->
  exists t, s = Minifier.sub_slash_comment false false s ++ t.
Proof.
  induction s as [|c s IH]; [by exists []|].
  cbn. intros [Hc Hs]%andb_true_iff.
  destruct ((c =? Py.SLASH) && Minifier.head_is Py.SLASH s
            && Minifier.line_end_ok s).
  - rewrite sub_slash_skipping_no_lf by done. by eexists.
  - destruct (IH Hs) as [t Ht]. exists t. cbn. by rewrite <- Ht.
Qed.

Lemma sub_hash_prefix s :
  no_lf s = true ->
  exists t, s = Minifier.sub_hash_comment false s ++ t.
Proof.
  induction s as [|c s IH]; [by exists []|].
  cbn. intros [Hc Hs]%andb_true_iff.
  destruct ((c =? Py.HASH) && negb (Minifier.head_is Py.BANG s)
            && Minifier.line_end_ok s).
  - rewrite sub_hash_skipping_no_lf by done. by eexists.
  - destruct (IH Hs) as [t Ht]. exists t. cbn. by rewrite <- Ht.
Qed.

Lemma no_lf_concat a b : no_lf (a ++ b) = no_lf a && no_lf b.
Proof. apply forallb_app. Qed.

Lemma no_lf_sub_slash s :
  no_lf s = true -> no_lf (Minifier.sub_slash_comment false false s) = true.
Proof.
  intros H. destruct (sub_slash_prefix s H) as [t Ht].
  rewrite Ht, no_lf_concat in H. by apply andb_true_iff in H as [? _].
Qed.

(** The first character the "//" pass writes is the first it read. *)
Lemma head_sub_slash m x s :
  x <> Py.LF ->
  Minifier.head_is x (Minifier.sub_slash_comment m false s) = true ->
  Minifier.head_is x s = true.
Proof.
  intros Hx. destruct s as [|c s]; [done|]. cbn.
  destruct ((c =? Py.SLASH) && Minifier.head_is Py.SLASH s
            && (m || Minifier.line_end_ok s)) eqn:E; [|done].
  (* the match starts here: what follows is dropped up to a line feed *)
  assert (forall t, Minifier.head_is x (Minifier.sub_slash_comment m true t)
                    = false) as Hskip.
  { induction t as [|d t IHt]; [done|]. cbn.
    destruct (N.eqb_spec d Py.LF) as [->|]; [|done].
    change (Minifier.head_is x (Py.LF :: Minifier.sub_slash_comment m false t))
      with (Py.LF =? x). apply N.eqb_neq. congruence. }
  by rewrite Hskip.
Qed.

(** After the "//" pass no "//" is left on a line. *)
Lemma sub_slash_line_clean s :
  no_lf s = true ->
  has2 Py.SLASH Py.SLASH (Minifier.sub_slash_comment false false s) = false.
Proof.
  induction s as [|c s IH]; [done|].
  cbn [no_lf forallb]. intros [Hc Hs]%andb_true_iff.
  cbn [Minifier.sub_slash_comment]. rewrite (line_end_ok_no_lf s Hs).
  rewrite orb_false_l, andb_true_r.
  destruct ((c =? Py.SLASH) && Minifier.head_is Py.SLASH s) eqn:E.
  - by rewrite sub_slash_skipping_no_lf.
  - cbn [has2]. rewrite IH by done. rewrite orb_false_r.
    destruct (c =? Py.SLASH); [|done]. cbn in E. cbn.
    destruct (Minifier.head_is Py.SLASH (Minifier.sub_slash_comment false false s))
      eqn:Hh; [|done].
    apply head_sub_slash in Hh; [congruence|done].
Qed.

(** A "#" that "!" does not follow. *)
Fixpoint bad_hash (s : Py.str) : bool :=
  match s with
  | [] => false
  | c :: s' => ((c =? Py.HASH) && negb (Minifier.head_is Py.BANG s')) || bad_hash s'
  end.

Lemma sub_hash_fixed s :
  bad_hash s = false -> Minifier.sub_hash_comment false s = s.
Proof.
  induction s as [|c s IH]; [done|].
  cbn. intros [H1 H2]%orb_false_iff. rewrite H1. cbn. by rewrite IH.
Qed.

Lemma head_sub_hash x s :
  x <> Py.LF ->
  Minifier.head_is x s = true ->
  x <> Py.HASH ->
  Minifier.head_is x (Minifier.sub_hash_comment false s) = true.
Proof.
  intros Hx Hh Hne. destruct s as [|c s]; [done|]. cbn in *.
  apply N.eqb_eq in Hh as ->.
  rewrite (proj2 (N.eqb_neq x Py.HASH)) by done. cbn. apply N.eqb_refl.
Qed.

Lemma sub_hash_line_clean s :
  no_lf s = true -> bad_hash (Minifier.sub_hash_comment false s) = false.
Proof.
  induction s as [|c s IH]; [done|].
  cbn [no_lf forallb]. intros [Hc Hs]%andb_true_iff.
  cbn [Minifier.sub_hash_comment]. rewrite (line_end_ok_no_lf s Hs).
  rewrite andb_true_r.
  destruct ((c =? Py.HASH) && negb (Minifier.head_is Py.BANG s)) eqn:E.
  - by rewrite sub_hash_skipping_no_lf.
  - cbn [bad_hash]. rewrite IH by done. rewrite orb_false_r.
    destruct (c =? Py.HASH); [|done]. cbn in E. cbn.
    apply negb_false_iff in E. apply negb_false_iff.
    apply head_sub_hash; done.
Qed.

(** [rstrip] keeps every "#!" whole: "!" is no white space. *)
Lemma bad_hash_app_blank a w :
  blank w = true -> bad_hash (a ++ w) = false -> bad_hash a = false.
Proof.
  intros Hw. induction a as [|c a IH]; [done|].
  cbn [app bad_hash]. intros [H1 H2]%orb_false_iff.
  rewrite IH by done. rewrite orb_false_r.
  destruct (c =? Py.HASH); [|done]. cbn in *.
  apply negb_false_iff in H1. apply negb_false_iff.
  destruct a as [|d a]; [|done].
  destruct w as [|x w]; [done|]. cbn in H1, Hw.
  apply N.eqb_eq in H1 as ->. done.
Qed.

Lemma bad_hash_rstrip s : bad_hash s = false -> bad_hash (Py.rstrip s) = false.
Proof.
  intros H. destruct (rstrip_split s) as (w & Hs & Hw).
  rewrite Hs in H. by apply bad_hash_app_blank in H.
Qed.

Lemma no_lf_rstrip s : no_lf s = true -> no_lf (Py.rstrip s) = true.
Proof.
  intros H. destruct (rstrip_split s) as (w & Hs & Hw).
  rewrite Hs, no_lf_concat in H. by apply andb_true_iff in H as [? _].
Qed.

(** ** Block comments *)

(** A text with no "/*" is left alone by the block-comment pass. *)
Lemma sub_block_fixed s :
  has2 Py.SLASH Py.STAR s = false -> Minifier.sub_block_comment false s = s.
Proof.
  induction s as [|c s IH]; [done|].
  cbn [has2]. intros [H1 H2]%orb_false_iff.
  cbn [Minifier.sub_block_comment]. destruct s as [|d s]; [done|].
  cbn [Minifier.head_is] in H1.
  rewrite H1. cbn [andb]. by rewrite IH.
Qed.

(** ** The generic strategy, line by line *)

(** What a line looks like once the loop of [_minify_generic] has
    rewritten it. *)
Definition clean (r : Py.str) : Prop :=
  one_line r = true /\ blank r = false
  /\ has2 Py.SLASH Py.SLASH r = false /\ bad_hash r = false
  /\ Py.rstrip r = r.

Lemma clean_generic_line f r :
  clean r -> Minifier.generic_line f r = Some r.
Proof.
  intros (Hl & Hb & Hs & Hh & Hr). unfold Minifier.generic_line.
  destruct (f && Py.startswith r Minifier.SHEBANG); [done|].
  rewrite sub_slash_fixed, sub_hash_fixed by done.
  by rewrite strip_truthy, Hb, Hr.
Qed.

Lemma generic_line_clean line r :
  one_line line = true ->
  Minifier.generic_line false line = Some r -> clean r.
Proof.
  intros Hl. unfold Minifier.generic_line. cbn [andb].
  rewrite strip_truthy.
  pose proof (one_line_no_lf line Hl) as Hn.
  destruct (sub_slash_prefix line Hn) as [t1 H1].
  pose proof (no_lf_sub_slash line Hn) as Hn1.
  pose proof (sub_slash_line_clean line Hn) as Hc1.
  set (l1 := Minifier.sub_slash_comment false false line) in *.
  destruct (sub_hash_prefix l1 Hn1) as [t2 H2].
  pose proof (sub_hash_line_clean l1 Hn1) as Hc2.
  set (l2 := Minifier.sub_hash_comment false l1) in *.
  destruct (blank l2) eqn:Hb; [done|]. intros [= <-].
  assert (one_line l2 = true) as Hl2.
  { rewrite H1, H2, !one_line_app in Hl.
    by apply andb_true_iff in Hl as [[? _]%andb_true_iff _]. }
  repeat split.
  - by apply one_line_rstrip.
  - by rewrite blank_rstrip.
  - apply has2_rstrip. rewrite H2 in Hc1. by apply has2_app_false_l in Hc1.
  - by apply bad_hash_rstrip.
  - apply rstrip_idem.
Qed.

(** The loop never writes a pair of characters that the line did not
    hold. *)
Lemma generic_line_has2 a b f line r :
  one_line line = true ->
  has2 a b line = false ->
  Minifier.generic_line f line = Some r -> has2 a b r = false.
Proof.
  intros Hl Hp. unfold Minifier.generic_line.
  destruct (f && Py.startswith line Minifier.SHEBANG); [by intros [= <-]|].
  pose proof (one_line_no_lf line Hl) as Hn.
  destruct (sub_slash_prefix line Hn) as [t1 H1].
  pose proof (no_lf_sub_slash line Hn) as Hn1.
  set (l1 := Minifier.sub_slash_comment false false line) in *.
  destruct (sub_hash_prefix l1 Hn1) as [t2 H2].
  set (l2 := Minifier.sub_hash_comment false l1) in *.
  destruct (Py.truthy (Py.strip l2)); [|done]. intros [= <-].
  apply has2_rstrip. rewrite H1, H2 in Hp.
  by do 2 apply has2_app_false_l in Hp.
Qed.

(** A line the loop has written is written again unchanged, as the first
    line or as a later one. *)
Definition settled (f : bool) (r : Py.str) : Prop :=
  r <> [] /\ one_line r = true /\ Minifier.generic_line f r = Some r.

Lemma clean_settled f r : clean r -> settled f r.
Proof.
  intros Hc. split; [|split].
  - destruct Hc as (_ & Hb & _). by destruct r.
  - by destruct Hc.
  - by apply clean_generic_line.
Qed.

Lemma generic_line_settled f line r :
  one_line line = true ->
  Minifier.generic_line f line = Some r -> settled f r.
Proof.
  intros Hl H. destruct f.
  - unfold Minifier.generic_line in H. cbn [andb] in H.
    destruct (Py.startswith line Minifier.SHEBANG) eqn:Hs.
    + injection H as <-. split; [|split; [done|]].
      * by destruct line.
      * unfold Minifier.generic_line. cbn [andb]. by rewrite Hs.
    + apply clean_settled. apply (generic_line_clean line); [done|].
      unfold Minifier.generic_line. by cbn [andb].
  - apply clean_settled. by apply (generic_line_clean line).
Qed.

Lemma generic_lines_clean lines :
  Forall (fun l => one_line l = true) lines ->
  Forall clean (Minifier.generic_lines false lines).
Proof.
  induction 1 as [|l L Hl HL IH]; [constructor|].
  cbn [Minifier.generic_lines].
  destruct (Minifier.generic_line false l) as [r|] eqn:E; [|done].
  constructor; [|done]. by apply (generic_line_clean l).
Qed.

Lemma generic_lines_fixed_later R :
  Forall clean R -> Minifier.generic_lines false R = R.
Proof.
  induction 1 as [|r R Hr HR IH]; [done|].
  cbn [Minifier.generic_lines]. rewrite clean_generic_line by done.
  by rewrite IH.
Qed.

(** The lines written by one run of the loop are written again unchanged
    by a second run. *)
Lemma generic_lines_fixed lines :
  Forall (fun l => one_line l = true) lines ->
  let R := Minifier.generic_lines true lines in
  Minifier.generic_lines true R = R
  /\ Forall (fun l => l <> [] /\ one_line l = true) R.
Proof.
  intros HL. destruct HL as [|l L Hl HL]; [done|].
  cbn [Minifier.generic_lines].
  pose proof (generic_lines_clean L HL) as Hc.
  assert (Forall (fun l => l <> [] /\ one_line l = true)
            (Minifier.generic_lines false L)) as Hne.
  { eapply Forall_impl; [exact Hc|]. intros r Hr.
    destruct (clean_settled false r Hr) as (? & ? & _). done. }
  destruct (Minifier.generic_line true l) as [r|] eqn:E.
  - destruct (generic_line_settled true l r Hl E) as (Hr1 & Hr2 & Hr3).
    cbn zeta. cbn [Minifier.generic_lines]. rewrite Hr3.
    rewrite generic_lines_fixed_later by done. split; [done|].
    by constructor.
  - cbn zeta. split; [|done].
    destruct (Minifier.generic_lines false L) as [|r R] eqn:ER; [done|].
    cbn [Minifier.generic_lines].
    apply Forall_cons in Hc as [Hr HR].
    rewrite (clean_generic_line true r Hr).
    by rewrite generic_lines_fixed_later.
Qed.

Lemma generic_lines_has2 a b f lines :
  Forall (fun l => one_line l = true) lines ->
  Forall (fun l => has2 a b l = false) lines ->
  Forall (fun l => has2 a b l = false) (Minifier.generic_lines f lines).
Proof.
  intros HL. revert f. induction HL as [|l L Hl HL IH]; intros f Hp;
    [constructor|].
  apply Forall_cons in Hp as [Hp1 Hp2].
  cbn [Minifier.generic_lines].
  destruct (Minifier.generic_line f l) as [r|] eqn:E; [|by apply IH].
  constructor; [|by apply IH]. by apply (generic_line_has2 a b f l).
Qed.

(** The generic strategy on a text with no "/*": what it returns, it
    returns again. *)
Lemma minify_generic_fixed content :
  has2 Py.SLASH Py.STAR content = false ->
  Minifier._minify_generic (Minifier._minify_generic content)
  = Minifier._minify_generic content.
Proof.
  intros Hp. unfold Minifier._minify_generic.
  pose proof (one_line_splitlines content) as HL.
  pose proof (has2_splitlines _ _ content Hp) as HP.
  destruct (generic_lines_fixed _ HL) as [Hfix Hne].
  pose proof (generic_lines_has2 _ _ true _ HL HP) as HR.
  set (R := Minifier.generic_lines true (Py.splitlines content)) in *.
  assert (has2 Py.SLASH Py.STAR (Py.join [Py.LF] R) = false) as HJ
    by (by apply has2_join).
  rewrite (sub_block_fixed _ HJ). rewrite splitlines_join by done.
  rewrite Hfix. exact (sub_block_fixed _ HJ).
Qed.

(** ** The style-sheet strategy *)

(** The white space of a text is made of plain spaces. *)
Definition plain_spaces (s : Py.str) : bool :=
  forallb (fun c => negb (Py.isspace c) || (c =? Py.SPACE)) s.

(** Every two neighbours of a text are related by [R]. *)
Fixpoint adj (R : N -> N -> bool) (s : Py.str) : bool :=
  match s with
  | [] => true
  | c :: s' => match s' with d :: _ => R c d | [] => true end && adj R s'
  end.

(** No two white-space characters side by side. *)
Definition single (x y : N) : bool := negb (Py.isspace x && Py.isspace y).

(** No white space beside white space or beside one of "{}:;,". *)
Definition apart (x y : N) : bool :=
  if Py.isspace x then negb (Py.isspace y) && negb (Minifier.is_punct y)
  else if Minifier.is_punct x then negb (Py.isspace y)
  else true.

Lemma punct_not_space c : Minifier.is_punct c = true -> Py.isspace c = false.
Proof.
  unfold Minifier.is_punct. rewrite !orb_true_iff, !N.eqb_eq.
  intros [[[[->| ->]| ->]| ->]| ->]; reflexivity.
Qed.

Lemma apart_single x y : apart x y = true -> single x y = true.
Proof.
  unfold apart, single. destruct (Py.isspace x) eqn:Hx; [|done].
  intros [Hy _]%andb_true_iff. apply negb_true_iff in Hy. by rewrite Hy.
Qed.

Lemma adj_mono (R R' : N -> N -> bool) s :
  (forall x y, R x y = true -> R' x y = true) ->
  adj R s = true -> adj R' s = true.
Proof.
  intros HR. induction s as [|c s IH]; [done|].
  cbn [adj]. intros [H1 H2]%andb_true_iff. rewrite IH by done.
  destruct s as [|d s]; [done|]. by rewrite HR.
Qed.

Lemma adj_app R a b :
  adj R (a ++ b) = true -> adj R a = true /\ adj R b = true.
Proof.
  induction a as [|c a IH]; [done|].
  cbn [app adj]. intros [H1 H2]%andb_true_iff.
  destruct (IH H2) as [Ha Hb]. split; [|done]. rewrite Ha, andb_true_r.
  destruct a as [|d a]; [done|]. done.
Qed.

Lemma adj_strip R s : adj R s = true -> adj R (Py.strip s) = true.
Proof.
  intros H. unfold Py.strip.
  destruct (lstrip_split s) as (w & Hs & _).
  destruct (rstrip_split (Py.lstrip s)) as (w' & Hs' & _).
  rewrite Hs in H. apply adj_app in H as [_ H].
  rewrite Hs' in H. by apply adj_app in H as [H _].
Qed.

Lemma plain_spaces_strip s :
  plain_spaces s = true -> plain_spaces (Py.strip s) = true.
Proof.
  intros H. unfold Py.strip, plain_spaces in *.
  destruct (lstrip_split s) as (w & Hs & _).
  destruct (rstrip_split (Py.lstrip s)) as (w' & Hs' & _).
  rewrite Hs, forallb_app in H. apply andb_true_iff in H as [_ H].
  rewrite Hs', forallb_app in H. by apply andb_true_iff in H as [H _].
Qed.

Lemma has2_strip a b s : has2 a b s = false -> has2 a b (Py.strip s) = false.
Proof.
  intros H. unfold Py.strip. apply has2_rstrip.
  destruct (lstrip_split s) as (w & Hs & _).
  rewrite Hs in H. by apply has2_app_false_r in H.
Qed.

(** What [collapse_ws] writes. *)
Lemma collapse_ws_out s :
  forall b,
    plain_spaces (Minifier.collapse_ws b s) = true
    /\ adj single (Minifier.collapse_ws b s) = true
    /\ (b = true -> head_space (Minifier.collapse_ws b s) = false).
Proof.
  induction s as [|c s IH]; intros b; [done|].
  cbn [Minifier.collapse_ws]. destruct (Py.isspace c) eqn:Hc.
  - destruct b; [apply IH|].
    destruct (IH true) as (H1 & H2 & H3). specialize (H3 eq_refl).
    split; [|split; [|done]].
    + cbn. exact H1.
    + cbn [adj]. rewrite H2, andb_true_r.
      destruct (Minifier.collapse_ws true s) as [|d o]; [done|].
      cbn in H3. unfold single. by rewrite H3, andb_false_r.
  - destruct (IH false) as (H1 & H2 & _).
    split; [|split].
    + cbn. by rewrite Hc.
    + cbn [adj]. rewrite H2, andb_true_r.
      destruct (Minifier.collapse_ws false s) as [|d o]; [done|].
      unfold single. by rewrite Hc.
    + intros _. cbn. exact Hc.
Qed.

Lemma trim_punct_plain after s :
  plain_spaces s = true -> plain_spaces (Minifier.trim_punct after s) = true.
Proof.
  revert after. induction s as [|c s IH]; intros after; [done|].
  cbn [plain_spaces forallb]. intros [Hc Hs]%andb_true_iff.
  assert (forall o, plain_spaces o = true -> plain_spaces (c :: o) = true)
    as Hk by (intros o Ho; cbn; by rewrite Hc).
  cbn [Minifier.trim_punct].
  destruct (Minifier.is_punct c); [by apply Hk, IH|].
  destruct (Py.isspace c); [|by apply Hk, IH].
  destruct (after || Minifier.ws_then_punct s); [by apply IH|by apply Hk, IH].
Qed.

(** What [trim_punct] writes, from a text of single spaces. *)
Lemma trim_punct_out s :
  forall after,
    adj single s = true ->
    adj apart (Minifier.trim_punct after s) = true
    /\ (after = true -> head_space (Minifier.trim_punct after s) = false).
Proof.
  induction s as [|c s IH]; intros after; [done|].
  cbn [adj]. intros [Hcd Hs]%andb_true_iff.
  cbn [Minifier.trim_punct].
  destruct (Minifier.is_punct c) eqn:Hp.
  - destruct (IH true Hs) as [H1 H2]. specialize (H2 eq_refl).
    split; [|intros _; cbn; by apply punct_not_space].
    cbn [adj]. rewrite H1, andb_true_r.
    destruct (Minifier.trim_punct true s) as [|d o]; [done|].
    cbn in H2. unfold apart.
    by rewrite (punct_not_space c Hp), Hp, H2.
  - destruct (Py.isspace c) eqn:Hc.
    + destruct after; cbn [orb]; [by apply IH|].
      destruct (Minifier.ws_then_punct s) eqn:Hw; [by apply IH|].
      split; [|done].
      destruct (IH false Hs) as [H1 _].
      cbn [adj]. rewrite H1, andb_true_r.
      destruct s as [|d s]; [done|].
      unfold single in Hcd. rewrite Hc in Hcd. cbn in Hcd.
      apply negb_true_iff in Hcd. cbn in Hw. rewrite Hcd in Hw.
      cbn [Minifier.trim_punct]. rewrite Hw, Hcd.
      unfold apart. by rewrite Hc, Hcd, Hw.
    + destruct (IH false Hs) as [H1 _]. split; [|intros _; exact Hc].
      cbn [adj]. rewrite H1, andb_true_r.
      destruct (Minifier.trim_punct false s) as [|d o]; [done|].
      unfold apart. by rewrite Hc, Hp.
Qed.

(** A text of single plain spaces is left alone by [collapse_ws]. *)
Lemma collapse_ws_fixed s :
  forall b,
    plain_spaces s = true -> adj single s = true ->
    (b = true -> head_space s = false) ->
    Minifier.collapse_ws b s = s.
Proof.
  induction s as [|c s IH]; intros b; [done|].
  cbn [plain_spaces forallb adj].
  intros [Hc Hs]%andb_true_iff [Hcd Ha]%andb_true_iff Hb.
  cbn [Minifier.collapse_ws]. destruct (Py.isspace c) eqn:Hsp.
  - destruct b; [by specialize (Hb eq_refl); cbn in Hb; congruence|].
    cbn in Hc. apply N.eqb_eq in Hc as ->.
    rewrite (IH true); [done|done|done|]. intros _.
    destruct s as [|d s]; [done|]. unfold single in Hcd.
    rewrite Hsp in Hcd. cbn in Hcd. by apply negb_true_iff in Hcd.
  - by rewrite (IH false).
Qed.

(** A text with no white space beside "{}:;," is left alone by
    [trim_punct]. *)
Lemma trim_punct_fixed s :
  forall after,
    adj apart s = true ->
    (after = true -> head_space s = false) ->
    Minifier.trim_punct after s = s.
Proof.
  induction s as [|c s IH]; intros after; [done|].
  cbn [adj]. intros [Hcd Ha]%andb_true_iff Hb.
  cbn [Minifier.trim_punct].
  destruct (Minifier.is_punct c) eqn:Hp.
  - rewrite (IH true); [done|done|]. intros _.
    destruct s as [|d s]; [done|]. unfold apart in Hcd.
    rewrite (punct_not_space c Hp), Hp in Hcd.
    by apply negb_true_iff in Hcd.
  - destruct (Py.isspace c) eqn:Hsp.
    + destruct after; [by specialize (Hb eq_refl); cbn in Hb; congruence|].
      cbn [orb].
      assert (Minifier.ws_then_punct s = false) as ->.
      { destruct s as [|d s]; [done|]. unfold apart in Hcd.
        rewrite Hsp in Hcd. apply andb_true_iff in Hcd as [H1 H2].
        apply negb_true_iff in H1, H2. cbn. by rewrite H1. }
      by rewrite (IH false).
    + by rewrite (IH false).
Qed.

(** Neither pass brings together two characters that are neither white
    space nor "{}:;,". *)
Lemma head_collapse_ws x s :
  Py.isspace x = false ->
  Minifier.head_is x (Minifier.collapse_ws false s) = true ->
  Minifier.head_is x s = true.
Proof.
  intros Hx. destruct s as [|c s]; [done|].
  cbn [Minifier.collapse_ws]. destruct (Py.isspace c); [|done].
  unfold Minifier.head_is. intros <-%N.eqb_eq. done.
Qed.

Lemma has2_collapse_ws a b s :
  Py.isspace a = false -> Py.isspace b = false ->
  forall w, has2 a b s = false ->
    has2 a b (Minifier.collapse_ws w s) = false.
Proof.
  intros Ha Hb. induction s as [|c s IH]; intros w; [done|].
  cbn [has2]. intros [H1 H2]%orb_false_iff.
  cbn [Minifier.collapse_ws]. destruct (Py.isspace c) eqn:Hc.
  - destruct w; [by apply IH|]. cbn [has2]. rewrite IH by done.
    rewrite orb_false_r.
    destruct (N.eqb_spec Py.SPACE a) as [<-|]; [done|done].
  - cbn [has2]. rewrite IH by done. rewrite orb_false_r.
    destruct (c =? a); [|done]. cbn in *.
    destruct (Minifier.head_is b (Minifier.collapse_ws false s)) eqn:E;
      [|done].
    apply head_collapse_ws in E; [congruence|done].
Qed.

Lemma head_trim_punct x s :
  Py.isspace x = false -> Minifier.is_punct x = false ->
  Minifier.head_is x (Minifier.trim_punct false s) = true ->
  Minifier.head_is x s = true.
Proof.
  intros Hx Hp. induction s as [|c s IH]; [done|].
  cbn [Minifier.trim_punct].
  destruct (Minifier.is_punct c) eqn:Hc; [done|].
  destruct (Py.isspace c) eqn:Hs; [|done].
  cbn [orb]. destruct (Minifier.ws_then_punct s) eqn:Hw.
  - intros H. apply IH in H. destruct s as [|d s]; [done|].
    cbn in H. apply N.eqb_eq in H as ->. cbn in Hw.
    rewrite Hx in Hw. congruence.
  - cbn. intros ->%N.eqb_eq. congruence.
Qed.

Lemma has2_trim_punct a b s :
  Py.isspace a = false -> Minifier.is_punct a = false ->
  Py.isspace b = false -> Minifier.is_punct b = false ->
  forall after, has2 a b s = false ->
    has2 a b (Minifier.trim_punct after s) = false.
Proof.
  intros Ha Ha' Hb Hb'. induction s as [|c s IH]; intros after; [done|].
  cbn [has2]. intros [H1 H2]%orb_false_iff.
  cbn [Minifier.trim_punct].
  destruct (Minifier.is_punct c) eqn:Hp.
  - cbn [has2]. rewrite IH by done. rewrite orb_false_r.
    destruct (N.eqb_spec c a) as [->|]; [congruence|done].
  - destruct (Py.isspace c) eqn:Hs.
    + destruct (after || Minifier.ws_then_punct s); [by apply IH|].
      cbn [has2]. rewrite IH by done. rewrite orb_false_r.
      destruct (N.eqb_spec c a) as [->|]; [congruence|done].
    + cbn [has2]. rewrite IH by done. rewrite orb_false_r.
      destruct (c =? a); [|done]. cbn in *.
      destruct (Minifier.head_is b (Minifier.trim_punct false s)) eqn:E;
        [|done].
      apply head_trim_punct in E; [congruence|done|done].
Qed.

(** The style-sheet strategy on a text with no "/*": what it returns, it
    returns again. *)
Lemma minify_css_fixed content :
  has2 Py.SLASH Py.STAR content = false ->
  Minifier._minify_css (Minifier._minify_css content)
  = Minifier._minify_css content.
Proof.
  intros Hp. unfold Minifier._minify_css.
  rewrite (sub_block_fixed content Hp).
  destruct (collapse_ws_out content false) as (Hq & Hs & _).
  pose proof (has2_collapse_ws Py.SLASH Py.STAR content eq_refl eq_refl false Hp) as Hc.
  set (c1 := Minifier.collapse_ws false content) in *.
  destruct (trim_punct_out c1 false Hs) as [Ha _].
  pose proof (trim_punct_plain false c1 Hq) as Hq'.
  pose proof (has2_trim_punct Py.SLASH Py.STAR c1 eq_refl eq_refl eq_refl eq_refl
                false Hc)
    as Hc'.
  set (c2 := Minifier.trim_punct false c1) in *.
  apply adj_strip in Ha. apply plain_spaces_strip in Hq'.
  apply has2_strip in Hc'.
  set (c3 := Py.strip c2) in *.
  rewrite (sub_block_fixed c3 Hc').
  rewrite (collapse_ws_fixed c3 false Hq'); [|by apply (adj_mono apart), Ha; apply apart_single|done].
  rewrite (trim_punct_fixed c3 false Ha) by done.
  apply strip_idem.
Qed.

(** ** The script strategy *)

Lemma has_close_has2 s : Minifier.has_close s = has2 Py.STAR Py.SLASH s.
Proof. induction s as [|c s IH]; [done|]. cbn. by rewrite IH. Qed.

(** Some "/*" of [s] has a "*/" behind it: the block-comment pass finds
    a match. *)
Fixpoint has_match (s : Py.str) : bool :=
  match s with
  | [] => false
  | c :: s' =>
      ((c =? Py.SLASH) && Minifier.head_is Py.STAR s'
       && Minifier.has_close (tail s'))
      || has_match s'
  end.

Lemma sub_block_false_cons c s :
  Minifier.sub_block_comment false (c :: s)
  = if (c =? Py.SLASH) && Minifier.head_is Py.STAR s
       && Minifier.has_close (tail s)
    then Minifier.sub_block_comment true (tail s)
    else c :: Minifier.sub_block_comment false s.
Proof. destruct s as [|d s]; [cbn; by rewrite andb_false_r|]. reflexivity. Qed.

Lemma sub_block_true_cons c s :
  Minifier.sub_block_comment true (c :: s)
  = if (c =? Py.STAR) && Minifier.head_is Py.SLASH s
    then Minifier.sub_block_comment false (tail s)
    else Minifier.sub_block_comment true s.
Proof. destruct s as [|d s]; [cbn; by rewrite andb_false_r|]. reflexivity. Qed.

Lemma has_close_tail s :
  Minifier.has_close s = false -> Minifier.has_close (tail s) = false.
Proof. destruct s as [|c s]; [done|]. cbn. by intros [_ ?]%orb_false_iff. Qed.

Lemma sub_block_no_close s :
  Minifier.has_close s = false -> Minifier.sub_block_comment false s = s.
Proof.
  induction s as [|c s IH]; [done|].
  intros H. rewrite sub_block_false_cons.
  pose proof (has_close_tail _ H) as H'. cbn [tail] in H'.
  rewrite (has_close_tail _ H'), andb_false_r. by rewrite IH.
Qed.

Lemma sub_block_no_match s :
  has_match s = false -> Minifier.sub_block_comment false s = s.
Proof.
  induction s as [|c s IH]; [done|].
  cbn [has_match]. intros [H1 H2]%orb_false_iff.
  rewrite sub_block_false_cons, H1. by rewrite IH.
Qed.

Lemma sub_block_head x s :
  Minifier.head_is Py.SLASH s = false ->
  Minifier.head_is x (Minifier.sub_block_comment false s)
  = Minifier.head_is x s.
Proof.
  destruct s as [|d s]; [done|]. intros H.
  rewrite sub_block_false_cons. cbn [Minifier.head_is] in H. by rewrite H.
Qed.

Lemma has2_tail a b s : has2 a b s = false -> has2 a b (tail s) = false.
Proof. destruct s as [|c s]; [done|]. cbn. by intros [_ ?]%orb_false_iff. Qed.

(** What the block-comment pass writes, from a text with no "//": no
    "//" and no further match. *)
Lemma sub_block_out n :
  forall s inside, (length s <= n)%nat ->
    has2 Py.SLASH Py.SLASH s = false ->
    has2 Py.SLASH Py.SLASH (Minifier.sub_block_comment inside s) = false
    /\ has_match (Minifier.sub_block_comment inside s) = false.
Proof.
  induction n as [|n IH]; intros s inside Hn Hs.
  { destruct s; [|cbn in Hn; lia]. by destruct inside. }
  destruct s as [|c s]; [by destruct inside|].
  cbn [length] in Hn.
  assert (length (tail s) <= n)%nat as Hn' by (destruct s; cbn in *; lia).
  pose proof Hs as Hs0. cbn [has2] in Hs. apply orb_false_iff in Hs as [H1 H2].
  pose proof (has2_tail _ _ _ H2) as H3.
  destruct inside.
  - rewrite sub_block_true_cons.
    destruct ((c =? Py.STAR) && Minifier.head_is Py.SLASH s);
      apply IH; try done; lia.
  - rewrite sub_block_false_cons.
    destruct ((c =? Py.SLASH) && Minifier.head_is Py.STAR s
              && Minifier.has_close (tail s)) eqn:E; [by apply IH|].
    destruct (IH s false ltac:(lia) H2) as [I1 I2]. split.
    + cbn [has2]. rewrite I1, orb_false_r.
      destruct (c =? Py.SLASH); [|done]. cbn [andb] in *.
      by rewrite sub_block_head.
    + cbn [has_match]. rewrite I2, orb_false_r.
      destruct (c =? Py.SLASH); [|done]. cbn [andb] in *.
      rewrite sub_block_head by done.
      destruct (Minifier.head_is Py.STAR s) eqn:Hh; [|done]. cbn [andb] in *.
      destruct s as [|d s]; [done|]. cbn [Minifier.head_is tail] in *.
      rewrite sub_block_false_cons. rewrite H1. cbn [andb tail].
      by rewrite sub_block_no_close.
Qed.

(** In MULTILINE mode the "//" pass leaves no "//". *)
Lemma sub_slash_multiline_clean s :
  forall skipping,
    has2 Py.SLASH Py.SLASH (Minifier.sub_slash_comment true skipping s)
    = false.
Proof.
  induction s as [|c s IH]; intros skipping; [by destruct skipping|].
  cbn [Minifier.sub_slash_comment]. destruct skipping.
  - destruct (N.eqb_spec c Py.LF) as [->|]; [|apply IH].
    cbn [has2]. by rewrite IH.
  - cbn [orb]. rewrite andb_true_r.
    destruct ((c =? Py.SLASH) && Minifier.head_is Py.SLASH s) eqn:E;
      [apply IH|].
    cbn [has2]. rewrite IH, orb_false_r.
    destruct (c =? Py.SLASH); [|done]. cbn [andb] in *.
    destruct (Minifier.head_is Py.SLASH
                (Minifier.sub_slash_comment true false s)) eqn:Hh; [|done].
    apply head_sub_slash in Hh; [congruence|done].
Qed.

(** *** A match across the lines of a text *)

Lemma has_match_app_l a b :
  has_match a = true -> has_match (a ++ b) = true.
Proof.
  induction a as [|c a IH]; [done|].
  cbn [app has_match]. intros [H|H]%orb_true_iff;
    [|rewrite IH by done; apply orb_true_r].
  apply andb_true_iff in H as [[Hc Hh]%andb_true_iff Hcl].
  destruct a as [|d a]; [done|]. cbn [app Minifier.head_is tail] in *.
  rewrite Hc, Hh. rewrite has_close_has2 in *.
  by rewrite (has2_app_l _ _ _ _ Hcl).
Qed.

Lemma has_match_app_r a b :
  has_match b = true -> has_match (a ++ b) = true.
Proof.
  intros H. induction a as [|c a IH]; [done|].
  cbn [app has_match]. rewrite IH. apply orb_true_r.
Qed.

Lemma has_match_app_mid a b :
  has2 Py.SLASH Py.STAR a = true -> Minifier.has_close b = true ->
  has_match (a ++ b) = true.
Proof.
  intros Ha Hb. induction a as [|c a IH]; [done|].
  cbn [has2] in Ha. cbn [app has_match].
  apply orb_true_iff in Ha as [H|H];
    [|rewrite IH by done; apply orb_true_r].
  apply andb_true_iff in H as [Hc Hh].
  destruct a as [|d a]; [done|]. cbn [app Minifier.head_is tail] in *.
  rewrite Hc, Hh. rewrite has_close_has2 in *.
  by rewrite (has2_app_r _ _ _ _ Hb).
Qed.

(** A match in a text cut in two at a character that is neither "/" nor
    "*". *)
Lemma has_match_app_sep a x b :
  x <> Py.SLASH -> x <> Py.STAR ->
  has_match (a ++ x :: b)
  = has_match a
    || (has2 Py.SLASH Py.STAR a && Minifier.has_close b)
    || has_match b.
Proof.
  intros Hx1%N.eqb_neq Hx2%N.eqb_neq. induction a as [|c a IH].
  - cbn. by rewrite Hx1.
  - cbn [app has_match has2]. rewrite IH. destruct a as [|d a].
    + cbn. rewrite Hx2. by rewrite !andb_false_r.
    + cbn [app Minifier.head_is tail].
      assert (Minifier.has_close (a ++ x :: b)
              = Minifier.has_close a || Minifier.has_close b) as ->.
      { rewrite !has_close_has2. rewrite has2_app. cbn [has2 Minifier.head_is].
        rewrite Hx1, Hx2. cbn [andb orb]. by rewrite andb_false_r, orb_false_r. }
      destruct ((c =? Py.SLASH) && (d =? Py.STAR)), (Minifier.has_close a),
        (Minifier.has_close b), (has_match (d :: a)),
        (has2 Py.SLASH Py.STAR (d :: a)), (has_match b); done.
Qed.

(** The same over the lines of a text. *)
Fixpoint match_lines (L : list Py.str) : bool :=
  match L with
  | [] => false
  | l :: R =>
      has_match l
      || (has2 Py.SLASH Py.STAR l && existsb Minifier.has_close R)
      || match_lines R
  end.

Lemma existsb_Forall_false {A} (f : A -> bool) L :
  Forall (fun l => f l = false) L -> existsb f L = false.
Proof. induction 1 as [|l L Hl HL IH]; [done|]. cbn. by rewrite Hl, IH. Qed.

Lemma has_close_splitlines_aux cur s :
  existsb Minifier.has_close (Py.splitlines_aux cur s) = true ->
  Minifier.has_close (reverse cur ++ s) = true.
Proof.
  intros H. destruct (Minifier.has_close (reverse cur ++ s)) eqn:E; [done|].
  rewrite has_close_has2 in E.
  apply (has2_splitlines_aux _ _ (length s) s cur) in E; [|done].
  rewrite (existsb_Forall_false Minifier.has_close) in H; [done|].
  eapply Forall_impl; [exact E|]. intros l Hl. by rewrite has_close_has2.
Qed.

Lemma has_close_join L :
  Minifier.has_close (Py.join [Py.LF] L) = true ->
  existsb Minifier.has_close L = true.
Proof.
  intros H. destruct (existsb Minifier.has_close L) eqn:E; [done|].
  rewrite has_close_has2, has2_join in H; [done|done|done|].
  apply Forall_forall. intros l Hl. rewrite <- has_close_has2.
  destruct (Minifier.has_close l) eqn:El; [|done].
  assert (existsb Minifier.has_close L = true); [|congruence].
  apply existsb_exists. exists l. split; [by apply list_elem_of_In|done].
Qed.

Lemma match_lines_splitlines_aux n :
  forall s cur, (length s <= n)%nat ->
    match_lines (Py.splitlines_aux cur s) = true ->
    has_match (reverse cur ++ s) = true.
Proof.
  induction n as [|n IH]; intros s cur Hn H.
  { destruct s; [|cbn in Hn; lia]. cbn in H. rewrite app_nil_r.
    destruct cur; [done|]. cbn in H.
    by rewrite andb_false_r, !orb_false_r in H. }
  destruct s as [|c s']; cbn [Py.splitlines_aux] in H.
  { rewrite app_nil_r. destruct cur; [done|]. cbn in H.
    by rewrite andb_false_r, !orb_false_r in H. }
  cbn [length] in Hn. destruct (Py.islinebreak c).
  - set (REST := match s' with
                 | [] => []
                 | d :: s'' =>
                     if (c =? Py.CR) && (d =? Py.LF)
                     then Py.splitlines_aux [] s''
                     else Py.splitlines_aux [] s'
                 end) in *.
    assert (existsb Minifier.has_close REST = true ->
            Minifier.has_close (c :: s') = true) as Hclose.
    { intros HR. change (c :: s') with ([c] ++ s').
      rewrite has_close_has2. apply has2_app_r. rewrite <- has_close_has2.
      subst REST. destruct s' as [|d s'']; [done|].
      destruct ((c =? Py.CR) && (d =? Py.LF)).
      - apply has_close_splitlines_aux in HR. cbn [reverse app] in HR.
        change (d :: s'') with ([d] ++ s'').
        rewrite has_close_has2 in *. by apply has2_app_r.
      - by apply has_close_splitlines_aux in HR. }
    assert (match_lines REST = true -> has_match (c :: s') = true) as Hmatch.
    { intros HR. change (c :: s') with ([c] ++ s'). apply has_match_app_r.
      subst REST. destruct s' as [|d s'']; [done|].
      destruct ((c =? Py.CR) && (d =? Py.LF)).
      - apply IH in HR; [|cbn in Hn; lia]. cbn [reverse app] in HR.
        change (d :: s'') with ([d] ++ s''). by apply has_match_app_r.
      - by apply IH in HR; [|lia]. }
    cbn [match_lines] in H.
    apply orb_true_iff in H as [[H|H]%orb_true_iff|H].
    + by apply has_match_app_l.
    + apply andb_true_iff in H as [Ho Hc]. apply has_match_app_mid; auto.
    + apply has_match_app_r; auto.
  - apply IH in H; [|lia]. by rewrite reverse_cons, <- app_assoc in H.
Qed.

Lemma match_lines_join L :
  has_match (Py.join [Py.LF] L) = true -> match_lines L = true.
Proof.
  induction L as [|l L IH]; [done|].
  destruct L as [|l' L'].
  - cbn. intros ->. done.
  - rewrite join_cons by done. cbn [app].
    rewrite has_match_app_sep by done.
    remember (l' :: L') as R eqn:ER. cbn [match_lines].
    intros [[H|H]%orb_true_iff|H]%orb_true_iff.
    + by rewrite H.
    + apply andb_true_iff in H as [Ho Hc]. apply has_close_join in Hc.
      rewrite Ho, Hc. cbn [andb]. by rewrite orb_true_r.
    + rewrite (IH H). by rewrite !orb_true_r.
Qed.

(** *** The lines the script strategy keeps *)

Definition kept_lines (L : list Py.str) : list Py.str :=
  map Py.rstrip (filter (fun line => Py.truthy (Py.strip line) = true) L).

Lemma kept_lines_cons l L :
  kept_lines (l :: L)
  = if blank l then kept_lines L else Py.rstrip l :: kept_lines L.
Proof.
  unfold kept_lines. rewrite filter_cons. rewrite strip_truthy.
  destruct (blank l); case_decide; done.
Qed.

Lemma kept_lines_Forall (Q : Py.str -> Prop) L :
  (forall l, Q l -> Q (Py.rstrip l)) ->
  Forall Q L -> Forall Q (kept_lines L).
Proof.
  intros HQ. induction 1 as [|l L Hl HL IH]; [done|].
  rewrite kept_lines_cons. destruct (blank l); [done|].
  constructor; auto.
Qed.

Lemma kept_lines_close L :
  existsb Minifier.has_close (kept_lines L) = true ->
  existsb Minifier.has_close L = true.
Proof.
  induction L as [|l L IH]; [done|].
  rewrite kept_lines_cons. cbn [existsb].
  destruct (blank l).
  - intros H. rewrite (IH H). apply orb_true_r.
  - cbn [existsb]. intros [H|H]%orb_true_iff.
    + destruct (Minifier.has_close l) eqn:E; [done|].
      rewrite has_close_has2 in *. apply has2_rstrip in E. congruence.
    + rewrite (IH H). apply orb_true_r.
Qed.

Lemma match_lines_kept L :
  match_lines (kept_lines L) = true -> match_lines L = true.
Proof.
  induction L as [|l L IH]; [done|].
  rewrite kept_lines_cons. cbn [match_lines].
  destruct (blank l).
  - intros H. rewrite (IH H). by rewrite !orb_true_r.
  - cbn [match_lines].
    destruct (rstrip_split l) as (w & Hl & _).
    intros [[H|H]%orb_true_iff|H]%orb_true_iff.
    + apply (has_match_app_l _ w) in H. rewrite <- Hl in H. by rewrite H.
    + apply andb_true_iff in H as [Ho Hc].
      apply (has2_app_l _ _ _ w) in Ho. rewrite <- Hl in Ho.
      apply kept_lines_close in Hc. rewrite Ho, Hc. cbn [andb].
      by rewrite orb_true_r.
    + rewrite (IH H). by rewrite !orb_true_r.
Qed.

(** A kept line is written again as it is. *)
Lemma kept_lines_fixed L :
  Forall (fun l => one_line l = true) L ->
  Py.splitlines (Py.join [Py.LF] (kept_lines L)) = kept_lines L
  /\ kept_lines (kept_lines L) = kept_lines L.
Proof.
  intros HL.
  assert (Forall (fun l => (l <> [] /\ one_line l = true)
                           /\ blank l = false /\ Py.rstrip l = l)
            (kept_lines L)) as H.
  { induction HL as [|l L Hl HL IH]; [done|].
    rewrite kept_lines_cons. destruct (blank l) eqn:Hb; [done|].
    constructor; [|done]. repeat split.
    - intros E. apply rstrip_nil_iff in E. congruence.
    - by apply one_line_rstrip.
    - by rewrite blank_rstrip.
    - apply rstrip_idem. }
  split.
  - apply splitlines_join. eapply Forall_impl; [exact H|]. by intros l [? _].
  - induction H as [|l R (_ & Hb & Hr) HR IH]; [done|].
    rewrite kept_lines_cons, Hb, Hr. by rewrite IH.
Qed.

Lemma minify_javascript_eq content :
  Minifier._minify_javascript content
  = Py.join [Py.LF]
      (kept_lines
         (Py.splitlines
            (Minifier.sub_block_comment false
               (Minifier.sub_slash_comment true false content)))).
Proof. reflexivity. Qed.

(** The script strategy: what it returns, it returns again. *)
Lemma minify_javascript_fixed content :
  Minifier._minify_javascript (Minifier._minify_javascript content)
  = Minifier._minify_javascript content.
Proof.
  rewrite (minify_javascript_eq content).
  pose proof (sub_slash_multiline_clean content false) as HS.
  set (c1 := Minifier.sub_slash_comment true false content) in *.
  destruct (sub_block_out (length c1) c1 false (le_n _) HS) as [HB HM].
  set (t := Minifier.sub_block_comment false c1) in *.
  pose proof (one_line_splitlines t) as HL.
  destruct (kept_lines_fixed _ HL) as [F1 F2].
  set (o := Py.join [Py.LF] (kept_lines (Py.splitlines t))) in *.
  assert (has2 Py.SLASH Py.SLASH o = false) as Ho.
  { apply has2_join; [done|done|].
    apply kept_lines_Forall; [intros l; apply has2_rstrip|].
    by apply has2_splitlines. }
  assert (has_match o = false) as Hm.
  { destruct (has_match o) eqn:E; [|done].
    apply match_lines_join, match_lines_kept in E.
    apply (match_lines_splitlines_aux (length t)) in E; [|done].
    cbn in E. congruence. }
  rewrite (minify_javascript_eq o).
  rewrite (sub_slash_fixed true o Ho), (sub_block_no_match o Hm).
  by rewrite F1, F2.
Qed.

End MinifyFacts.

(* ================================================================== *)
(** * Minifying twice *)
(* ================================================================== *)

(** C7 (amended). Minifying what [Minifier.minify] returned gives the
    same text again: for a script suffix (.js, .jsx, .ts, .tsx, .mjs,
    .cjs) whatever the content; for a style-sheet suffix and for the
    generic fallback when the content holds no "/*". The strategy of
    ".py" rests on the interpreter's [tokenize] and is left aside. *)
Theorem minify_twice_is_minify_once
    (tokenize_without_comments : Py.str -> Minifier.tokenized)
    (content : Py.str) (path : PurePath.Path) :
  Minifier.strategy_of path = Minifier.JavaScript
  \/ ((Minifier.strategy_of path = Minifier.Css
       \/ Minifier.strategy_of path = Minifier.Generic)
      /\ MinifyFacts.has2 Py.SLASH Py.STAR content = false) ->
  exists once,
    Minifier.minify tokenize_without_comments content path = Ok once
    /\ Minifier.minify tokenize_without_comments once path = Ok once.
Proof.
  unfold Minifier.minify. intros [E|[[E|E] H]]; rewrite E.
  - eexists. split; [reflexivity|].
    by rewrite MinifyFacts.minify_javascript_fixed.
  - eexists. split; [reflexivity|].
    by rewrite MinifyFacts.minify_css_fixed.
  - eexists. split; [reflexivity|].
    by rewrite MinifyFacts.minify_generic_fixed.
Qed.

(** The amended C7 at work on a style sheet. *)
Lemma minify_twice_is_minify_once_witness :
  exists once,
    Minifier.minify (tokenize_without_comments Scenario.rt)
      (Py.lit "a  {  color : red ;  }") (Scenario.P "/proj/site.css")
    = Ok once
    /\ Minifier.minify (tokenize_without_comments Scenario.rt)
         once (Scenario.P "/proj/site.css")
       = Ok once.
Proof.
  apply minify_twice_is_minify_once.
  right. split; [left|]; vm_compute; reflexivity.
Defined.

(** C7 (counterexample). A block comment on a line of its own in a text
    file: the first pass leaves an empty line, which the second pass
    drops. In a style sheet the removal of the first comment of
    "//* a */* b */" brings "/" and "* b */" together, and the second
    pass removes the comment they make. *)
Lemma minify_twice_differs :
  Minifier.minify (tokenize_without_comments Scenario.rt)
    (Py.lit "x" ++ [Py.LF] ++ Py.lit "/* a */" ++ [Py.LF] ++ Py.lit "y")
    (Scenario.P "/proj/notes.txt")
  = Ok (Py.lit "x" ++ [Py.LF; Py.LF] ++ Py.lit "y")
  /\ Minifier.minify (tokenize_without_comments Scenario.rt)
       (Py.lit "x" ++ [Py.LF; Py.LF] ++ Py.lit "y")
       (Scenario.P "/proj/notes.txt")
     = Ok (Py.lit "x" ++ [Py.LF] ++ Py.lit "y")
  /\ Py.eqb (Py.lit "x" ++ [Py.LF; Py.LF] ++ Py.lit "y")
       (Py.lit "x" ++ [Py.LF] ++ Py.lit "y")
     = false
  /\ Minifier.minify (tokenize_without_comments Scenario.rt)
       (Py.lit "//* a */* b */") (Scenario.P "/proj/site.css")
     = Ok (Py.lit "/* b */")
  /\ Minifier.minify (tokenize_without_comments Scenario.rt)
       (Py.lit "/* b */") (Scenario.P "/proj/site.css")
     = Ok [].
Proof. repeat split; vm_compute; reflexivity. Qed.

(* ================================================================== *)
(** * The installer: lines appended to .gitignore *)
(* ================================================================== *)

Module InstallFacts.

Import StrFacts.

Definition no_cr (s : Py.str) : bool := forallb (fun c => negb (c =? Py.CR)) s.

Lemma one_line_no_cr s : one_line s = true -> no_cr s = true.
Proof.
  unfold one_line, no_cr. induction s as [|c s IH]; [done|].
  cbn [forallb]. intros [Hc Hs]%andb_true_iff. rewrite IH by done.
  destruct (N.eqb_spec c Py.CR) as [->|]; [done|done].
Qed.

Lemma no_cr_app a b : no_cr (a ++ b) = no_cr a && no_cr b.
Proof. apply forallb_app. Qed.

Lemma universal_newlines_fixed s :
  no_cr s = true -> InstallContext.universal_newlines s = s.
Proof.
  induction s as [|c s IH]; [done|].
  cbn [no_cr forallb]. intros [Hc Hs]%andb_true_iff.
  apply negb_true_iff in Hc. cbn [InstallContext.universal_newlines].
  rewrite Hc. by rewrite IH.
Qed.

Lemma universal_newlines_cons_cr s :
  InstallContext.universal_newlines (Py.CR :: s)
  = Py.LF ::
      InstallContext.universal_newlines
        (if Minifier.head_is Py.LF s then tail s else s).
Proof. by destruct s as [|d s]; [|cbn; destruct (d =? Py.LF)]. Qed.

Lemma universal_newlines_cons c s :
  c <> Py.CR ->
  InstallContext.universal_newlines (c :: s)
  = c :: InstallContext.universal_newlines s.
Proof. intros H%N.eqb_neq. cbn. by rewrite H. Qed.

(** Reading a text in two pieces, when the cut does not fall inside a
    "\r\n". *)
Lemma universal_newlines_app_fuel n :
  forall a b, (length a <= n)%nat ->
    last a <> Some Py.CR \/ Minifier.head_is Py.LF b = false ->
    InstallContext.universal_newlines (a ++ b)
    = InstallContext.universal_newlines a ++ InstallContext.universal_newlines b.
Proof.
  induction n as [|n IH]; intros a b Hn Hcut.
  { by destruct a; [|cbn in Hn; lia]. }
  destruct a as [|c a]; [done|]. cbn [length] in Hn.
  destruct (N.eqb_spec c Py.CR) as [->|Hc].
  - cbn [app]. rewrite !universal_newlines_cons_cr.
    destruct a as [|d a].
    + cbn [app]. destruct Hcut as [Hcut|Hcut]; [done|]. by rewrite Hcut.
    + cbn [app Minifier.head_is tail]. destruct (d =? Py.LF).
      * cbn [app]. f_equal. apply IH; [cbn in Hn; lia|].
        destruct Hcut as [Hcut|Hcut]; [left|by right].
        destruct a as [|e a]; [done|]. by rewrite !last_cons_cons in Hcut.
      * cbn [app]. f_equal. apply (IH (d :: a)); [lia|].
        destruct Hcut as [Hcut|Hcut]; [left|by right].
        by rewrite last_cons_cons in Hcut.
  - cbn [app]. rewrite !universal_newlines_cons by done. cbn [app]. f_equal.
    apply IH; [lia|]. destruct Hcut as [Hcut|Hcut]; [left|by right].
    destruct a as [|d a]; [done|]. by rewrite last_cons_cons in Hcut.
Qed.

Lemma universal_newlines_app a b :
  last a <> Some Py.CR \/ Minifier.head_is Py.LF b = false ->
  InstallContext.universal_newlines (a ++ b)
  = InstallContext.universal_newlines a ++ InstallContext.universal_newlines b.
Proof. by apply (universal_newlines_app_fuel (length a)). Qed.

(** The last character read is the last character stored, a final "\r"
    read as "\n". *)
Lemma last_universal_newlines s :
  last (InstallContext.universal_newlines s)
  = (fun c => if c =? Py.CR then Py.LF else c) <$> last s.
Proof.
  induction s as [|c s IH] using rev_ind; [done|].
  rewrite last_snoc. cbn [fmap option_fmap option_map].
  destruct (N.eqb_spec c Py.CR) as [->|Hc].
  - destruct s as [|d s _] using rev_ind; [done|].
    destruct (N.eqb_spec d Py.CR) as [->|Hd].
    + rewrite <- app_assoc. cbn [app].
      rewrite universal_newlines_app by (by right).
      rewrite (universal_newlines_cons_cr [Py.CR]). cbn [Minifier.head_is].
      cbn. by rewrite last_app.
    + rewrite universal_newlines_app by (left; by rewrite last_snoc; intros [=]).
      cbn. by rewrite last_snoc.
  - destruct (N.eqb_spec c Py.LF) as [->|Hl].
    + destruct s as [|d s _] using rev_ind; [done|].
      destruct (N.eqb_spec d Py.CR) as [->|Hd].
      * rewrite <- app_assoc. cbn [app].
        destruct (decide (last s = Some Py.CR)) as [E|E].
        -- rewrite universal_newlines_app by (by right). cbn. by rewrite last_snoc.
        -- rewrite universal_newlines_app by (by left). cbn. by rewrite last_snoc.
      * rewrite universal_newlines_app by (left; by rewrite last_snoc; intros [=]).
        cbn. by rewrite last_snoc.
    + rewrite universal_newlines_app by (right; cbn; by apply N.eqb_neq).
      rewrite (universal_newlines_cons c []) by done. cbn. by rewrite last_snoc.
Qed.

Lemma universal_newlines_nil s :
  InstallContext.universal_newlines s = [] -> s = [].
Proof.
  destruct s as [|c s]; [done|]. cbn.
  by destruct (c =? Py.CR).
Qed.

Lemma endswith_last s c :
  InstallContext.endswith s [c]
  = match last s with Some d => c =? d | None => false end.
Proof.
  unfold InstallContext.endswith.
  destruct s as [|d s _] using rev_ind; [done|].
  rewrite reverse_snoc, last_snoc. cbn. by rewrite andb_true_r.
Qed.

(** ** splitlines of a text that grows *)

Lemma splitlines_aux_app_lf n :
  forall a b cur, (length a <= n)%nat ->
    (a = [] /\ cur = []) \/ last a = Some Py.LF ->
    Py.splitlines_aux cur (a ++ b)
    = Py.splitlines_aux cur a ++ Py.splitlines_aux [] b.
Proof.
  induction n as [|n IH]; intros a b cur Hn Ha.
  { destruct a; [|cbn in Hn; lia]. by destruct Ha as [[_ ->]|]. }
  destruct a as [|c a]; [by destruct Ha as [[_ ->]|]|].
  destruct Ha as [[? _]|Ha]; [done|]. cbn [length] in Hn.
  cbn [app Py.splitlines_aux].
  destruct (Py.islinebreak c) eqn:Hc.
  - cbn [app]. f_equal. destruct a as [|d a].
    + injection Ha as ->. cbn [app]. destruct b as [|e b]; [done|].
      by replace ((Py.LF =? Py.CR) && (e =? Py.LF)) with false by done.
    + rewrite last_cons_cons in Ha. cbn [app].
      destruct ((c =? Py.CR) && (d =? Py.LF)).
      * apply IH; [cbn in Hn; lia|].
        destruct a as [|e a]; [by left|right].
        by rewrite last_cons_cons in Ha.
      * apply (IH (d :: a)); [lia|by right].
  - destruct a as [|d a].
    + injection Ha as ->. done.
    + rewrite last_cons_cons in Ha. apply (IH (d :: a)); [lia|by right].
Qed.

Lemma splitlines_app_lf a b :
  a = [] \/ last a = Some Py.LF ->
  Py.splitlines (a ++ b) = Py.splitlines a ++ Py.splitlines b.
Proof.
  intros Ha. apply (splitlines_aux_app_lf (length a)); [done|].
  destruct Ha as [->|Ha]; [by left|by right].
Qed.

Lemma splitlines_one_line line :
  line <> [] -> one_line line = true ->
  Py.splitlines (line ++ [Py.LF]) = [line].
Proof.
  intros Hne Hl. unfold Py.splitlines.
  rewrite splitlines_aux_one_line by done. rewrite app_nil_r.
  cbn. by rewrite reverse_involutive.
Qed.

(** A line of a text is still a line once "\n" and more text follow. *)
Lemma splitlines_aux_grows l b n :
  forall a cur, (length a <= n)%nat ->
    l ∈ Py.splitlines_aux cur a ->
    l ∈ Py.splitlines_aux cur (a ++ Py.LF :: b).
Proof.
  induction n as [|n IH]; intros a cur Hn Hl.
  { destruct a; [|cbn in Hn; lia]. cbn [app Py.splitlines_aux].
    rewrite LF_linebreak. cbn in Hl.
    destruct cur; [by apply elem_of_nil in Hl|].
    apply list_elem_of_singleton in Hl as ->. apply list_elem_of_here. }
  destruct a as [|c a].
  { cbn [app Py.splitlines_aux]. rewrite LF_linebreak. cbn in Hl.
    destruct cur; [by apply elem_of_nil in Hl|].
    apply list_elem_of_singleton in Hl as ->. apply list_elem_of_here. }
  cbn [length] in Hn. cbn [app Py.splitlines_aux] in *.
  destruct (Py.islinebreak c).
  - apply elem_of_cons in Hl as [->|Hl]; [apply list_elem_of_here|].
    apply list_elem_of_further. destruct a as [|d a]; [by apply elem_of_nil in Hl|].
    cbn [app]. destruct ((c =? Py.CR) && (d =? Py.LF)).
    + apply IH; [cbn in Hn; lia|done].
    + apply (IH (d :: a)); [lia|done].
  - apply IH; [lia|done].
Qed.

Lemma splitlines_grows l a b :
  l ∈ Py.splitlines a -> l ∈ Py.splitlines (a ++ Py.LF :: b).
Proof. by apply (splitlines_aux_grows l b (length a)). Qed.

(** ** What [append_if_missing] writes *)

(** A line that [append_if_missing] can find again: not empty, its own
    [strip()], and with no line boundary in it. *)
Definition findable (line : Py.str) : Prop :=
  line <> [] /\ Py.strip line = line /\ one_line line = true.

(** The lines the function looks through. *)
Definition stripped_lines (disk : gmap PurePath.Path Py.str)
    (file : PurePath.Path) : list Py.str :=
  map Py.strip (Py.splitlines (InstallContext.read_text disk file)).

(** The separator written before the line. *)
Definition newline_for (text : Py.str) : Py.str :=
  if Py.truthy text && negb (InstallContext.endswith text [Py.LF])
  then [Py.LF] else [].

Lemma append_if_missing_eq file line disk :
  InstallContext.append_if_missing file line disk
  = if bool_decide (line ∈ stripped_lines disk file) then (false, disk)
    else (true,
          <[file := default [] (disk !! file)
                    ++ newline_for (InstallContext.read_text disk file)
                    ++ line ++ [Py.LF]]> disk).
Proof. reflexivity. Qed.

(** The text read back after a line was appended. *)
Lemma read_text_appended file line disk :
  findable line ->
  let text := InstallContext.read_text disk file in
  InstallContext.read_text
    (<[file := default [] (disk !! file) ++ newline_for text ++ line ++ [Py.LF]]>
       disk) file
  = text ++ newline_for text ++ line ++ [Py.LF].
Proof.
  intros (Hne & Hstrip & Hl) text. unfold InstallContext.read_text at 1.
  rewrite lookup_insert_eq.
  assert (InstallContext.universal_newlines (default [] (disk !! file)) = text)
    as Hold by (subst text; unfold InstallContext.read_text;
                by destruct (disk !! file)).
  set (old := default [] (disk !! file)) in *.
  assert (no_cr (newline_for text ++ line ++ [Py.LF]) = true) as Hcr.
  { rewrite !no_cr_app, (one_line_no_cr line Hl).
    unfold newline_for.
    by destruct (Py.truthy text && negb (InstallContext.endswith text [Py.LF])). }
  rewrite universal_newlines_app, Hold.
  { by rewrite (universal_newlines_fixed _ Hcr). }
  unfold newline_for. destruct (Py.truthy text) eqn:Ht; cbn [andb].
  - rewrite endswith_last, <- Hold, last_universal_newlines.
    destruct (last old) as [c|] eqn:Hlast; cbn.
    + destruct (N.eqb_spec c Py.CR) as [->|Hc].
      * right. cbn. destruct line as [|d line]; [done|].
        cbn. apply N.eqb_neq. intros ->. cbn in Hl. done.
      * destruct (N.eqb_spec Py.LF c) as [<-|Hc'].
        -- right. cbn. destruct line as [|d line]; [done|].
           cbn. apply N.eqb_neq. intros ->. cbn in Hl. done.
        -- left. by intros [= ->].
    + left. done.
  - left. destruct text; [|done]. apply universal_newlines_nil in Hold.
    by rewrite Hold.
Qed.

Lemma newline_for_closes text :
  text ++ newline_for text = [] \/ last (text ++ newline_for text) = Some Py.LF.
Proof.
  unfold newline_for. destruct text as [|c text] using rev_ind; [by left|].
  right. rewrite endswith_last, last_snoc.
  assert (Py.truthy (text ++ [c]) = true) as -> by by destruct text.
  cbn [andb]. destruct (N.eqb_spec Py.LF c) as [<-|Hc]; cbn.
  - by rewrite app_nil_r, last_snoc.
  - by rewrite last_snoc.
Qed.

(** After the call the line is among the lines of the file. *)
Lemma appended_line_is_found file line disk :
  findable line ->
  line ∈ stripped_lines (InstallContext.append_if_missing file line disk).2 file.
Proof.
  intros Hf. rewrite append_if_missing_eq. case_bool_decide as Hin; [done|].
  cbn [snd]. unfold stripped_lines. rewrite read_text_appended by done.
  destruct Hf as (Hne & Hstrip & Hl).
  rewrite (app_assoc _ (newline_for _)).
  rewrite splitlines_app_lf by apply newline_for_closes.
  rewrite splitlines_one_line by done.
  rewrite map_app. apply elem_of_app. right. cbn. rewrite Hstrip.
  apply list_elem_of_here.
Qed.

(** The call loses none of the lines the file had. *)
Lemma appended_lines_are_kept file line disk l :
  findable line ->
  l ∈ stripped_lines disk file ->
  l ∈ stripped_lines (InstallContext.append_if_missing file line disk).2 file.
Proof.
  intros Hf Hl. rewrite append_if_missing_eq. case_bool_decide as Hin; [done|].
  cbn [snd]. unfold stripped_lines in *. rewrite read_text_appended by done.
  set (text := InstallContext.read_text disk file) in *.
  apply list_elem_of_fmap in Hl as (l0 & -> & Hl0).
  apply list_elem_of_fmap. exists l0. split; [done|].
  unfold newline_for.
  destruct (Py.truthy text && negb (InstallContext.endswith text [Py.LF])) eqn:E.
  - cbn [app]. by apply splitlines_grows.
  - cbn [app]. apply andb_false_iff in E as [E|E].
    + destruct text; [by apply elem_of_nil in Hl0|done].
    + apply negb_false_iff in E. rewrite endswith_last in E.
      destruct (last text) as [c|] eqn:Hlast; [|done].
      apply N.eqb_eq in E as <-.
      rewrite splitlines_app_lf by (by right).
      apply elem_of_app. by left.
Qed.

Lemma one_line_strip s : one_line s = true -> one_line (Py.strip s) = true.
Proof.
  intros H. unfold Py.strip. apply one_line_rstrip.
  destruct (lstrip_split s) as (w & Hs & _).
  rewrite Hs, one_line_app in H. by apply andb_true_iff in H as [_ ?].
Qed.

(** Every line the function looks through is its own [strip()] and holds
    no line boundary. *)
Lemma stripped_lines_shape disk file l :
  l ∈ stripped_lines disk file -> Py.strip l = l /\ one_line l = true.
Proof.
  unfold stripped_lines. intros (l0 & -> & Hl0)%list_elem_of_fmap.
  split; [apply strip_idem|]. apply one_line_strip.
  pose proof (MinifyFacts.one_line_splitlines (InstallContext.read_text disk file)) as H.
  rewrite Forall_forall in H. by apply H.
Qed.

Lemma append_if_missing_frame file line disk :
  (forall other, other <> file ->
     (InstallContext.append_if_missing file line disk).2 !! other
     = disk !! other)
  /\ exists tail,
       default [] ((InstallContext.append_if_missing file line disk).2 !! file)
       = default [] (disk !! file) ++ tail.
Proof.
  rewrite append_if_missing_eq. case_bool_decide.
  - split; [done|]. exists []. by rewrite app_nil_r.
  - cbn [snd]. split; [intros other Ho; by rewrite lookup_insert_ne|].
    rewrite lookup_insert_eq. by eexists.
Qed.

Lemma patterns_findable : Forall findable InstallContext.patterns.
Proof.
  repeat constructor; try (intros [=]); vm_compute; reflexivity.
Qed.

End InstallFacts.

(** [append_if_missing] with a line that is not empty, is its own
    [strip()] and holds no line boundary: a second call with the same
    line finds it, returns [False] and writes nothing. The first call
    changes no other file and only ever adds to the end of this one. *)
Theorem append_if_missing_once_is_enough file line disk :
  line <> [] -> Py.strip line = line -> StrFacts.one_line line = true ->
  let '(added, disk') := InstallContext.append_if_missing file line disk in
  InstallContext.append_if_missing file line disk' = (false, disk')
  /\ (added = false -> disk' = disk)
  /\ (forall other, other <> file -> disk' !! other = disk !! other)
  /\ exists tail,
       default [] (disk' !! file) = default [] (disk !! file) ++ tail.
Proof.
  intros Hne Hstrip Hl.
  pose proof (InstallFacts.appended_line_is_found file line disk
                (conj Hne (conj Hstrip Hl))) as Hfound.
  pose proof (InstallFacts.append_if_missing_frame file line disk) as [Hf Ht].
  destruct (InstallContext.append_if_missing file line disk)
    as [added disk'] eqn:E.
  cbn [snd] in *. split; [|split; [|by split]].
  - rewrite InstallFacts.append_if_missing_eq. by rewrite bool_decide_true.
  - intros ->. rewrite InstallFacts.append_if_missing_eq in E.
    by case_bool_decide; simplify_eq.
Qed.

Lemma append_if_missing_once_is_enough_witness :
  InstallContext.append_if_missing (Scenario.P "/proj/.gitignore")
    (Py.lit "**/generated/")
    (InstallContext.append_if_missing (Scenario.P "/proj/.gitignore")
       (Py.lit "**/generated/") {[Scenario.P "/proj/.gitignore" := Py.lit "*.pyc"]}).2
  = (false,
     {[Scenario.P "/proj/.gitignore"
       := Py.lit "*.pyc" ++ [Py.LF] ++ Py.lit "**/generated/" ++ [Py.LF]]}).
Proof.
  pose proof (append_if_missing_once_is_enough (Scenario.P "/proj/.gitignore")
                (Py.lit "**/generated/")
                {[Scenario.P "/proj/.gitignore" := Py.lit "*.pyc"]}) as H.
  destruct (InstallContext.append_if_missing _ _ _) as [added disk'] eqn:E.
  destruct H as [H _]; [by intros [=]|vm_compute; reflexivity
                        |vm_compute; reflexivity|].
  cbn [snd]. rewrite H. f_equal.
  vm_compute in E. injection E as _ <-. vm_compute. reflexivity.
Defined.

(** [append_if_missing] compares the line with the stripped lines of the
    file: a line with white space at either end, or with a line boundary
    in it, is never found, and is appended by every call. *)
Theorem append_if_missing_cannot_find_unstripped file line disk :
  Py.strip line <> line \/ StrFacts.one_line line = false ->
  (InstallContext.append_if_missing file line disk).1 = true.
Proof.
  intros H. rewrite InstallFacts.append_if_missing_eq.
  case_bool_decide as Hin; [|done]. exfalso.
  apply InstallFacts.stripped_lines_shape in Hin as [H1 H2].
  destruct H as [H|H]; congruence.
Qed.

Lemma append_if_missing_cannot_find_unstripped_witness :
  (InstallContext.append_if_missing (Scenario.P "/proj/.gitignore")
     (Py.lit " build/")
     {[Scenario.P "/proj/.gitignore" := Py.lit " build/" ++ [Py.LF]]}).1
  = true.
Proof.
  apply append_if_missing_cannot_find_unstripped.
  left. vm_compute. intros [=].
Defined.

(** What [main] leaves in [.gitignore]: both patterns are lines of the
    file, whatever it held before is still its beginning, and no other
    file has changed. A second run adds nothing and writes nothing. *)
Theorem main_gitignore_settles gitignore_file disk :
  let '(added, disk') := InstallContext.main_gitignore gitignore_file disk in
  InstallContext.main_gitignore gitignore_file disk' = ([false; false], disk')
  /\ Forall (fun p => p ∈ InstallFacts.stripped_lines disk' gitignore_file)
       InstallContext.patterns
  /\ (forall other, other <> gitignore_file -> disk' !! other = disk !! other)
  /\ (forall old, disk !! gitignore_file = Some old ->
        exists tail, disk' !! gitignore_file = Some (old ++ tail)).
Proof.
  unfold InstallContext.main_gitignore.
  set (disk0 := match disk !! gitignore_file with
                | Some _ => disk
                | None => <[gitignore_file := InstallContext.GITIGNORE_BANNER]> disk
                end).
  assert (is_Some (disk0 !! gitignore_file)) as H0.
  { subst disk0. destruct (disk !! gitignore_file) eqn:E; [by rewrite E|].
    by rewrite lookup_insert_eq. }
  assert (forall other, other <> gitignore_file -> disk0 !! other = disk !! other)
    as Hframe0.
  { intros other Ho. subst disk0. destruct (disk !! gitignore_file); [done|].
    by rewrite lookup_insert_ne. }
  assert (forall old, disk !! gitignore_file = Some old ->
                      disk0 !! gitignore_file = Some old) as Hold0.
  { intros old E. subst disk0. by rewrite E. }
  pose proof InstallFacts.patterns_findable as Hp.
  unfold InstallContext.patterns in *.
  apply Forall_cons in Hp as [Hp1 Hp2]. apply Forall_cons in Hp2 as [Hp2 _].
  set (p1 := Py.lit ".context/generated/") in *.
  set (p2 := Py.lit "**/generated/") in *.
  cbn [fold_left].
  pose proof (InstallFacts.appended_line_is_found gitignore_file p1 disk0 Hp1)
    as Hfound1.
  pose proof (InstallFacts.append_if_missing_frame gitignore_file p1 disk0)
    as [Hf1 [t1 Ht1]].
  destruct (InstallContext.append_if_missing gitignore_file p1 disk0)
    as [b1 disk1] eqn:E1. cbn [snd] in *.
  pose proof (InstallFacts.appended_line_is_found gitignore_file p2 disk1 Hp2)
    as Hfound2.
  pose proof (InstallFacts.appended_lines_are_kept gitignore_file p2 disk1 p1
                Hp2 Hfound1) as Hkept.
  pose proof (InstallFacts.append_if_missing_frame gitignore_file p2 disk1)
    as [Hf2 [t2 Ht2]].
  assert (is_Some (disk1 !! gitignore_file)) as H1.
  { rewrite InstallFacts.append_if_missing_eq in E1.
    case_bool_decide; simplify_eq; [done|]. by rewrite lookup_insert_eq. }
  destruct (InstallContext.append_if_missing gitignore_file p2 disk1)
    as [b2 disk2] eqn:E2. cbn [snd app] in *.
  assert (is_Some (disk2 !! gitignore_file)) as H2.
  { rewrite InstallFacts.append_if_missing_eq in E2.
    case_bool_decide; simplify_eq; [done|]. by rewrite lookup_insert_eq. }
  split; [|split; [|split]].
  - destruct H2 as [raw2 H2]. rewrite H2.
    rewrite (InstallFacts.append_if_missing_eq _ p1), bool_decide_true by done.
    by rewrite (InstallFacts.append_if_missing_eq _ p2), bool_decide_true.
  - by repeat constructor.
  - intros other Ho. by rewrite Hf2, Hf1, Hframe0.
  - intros old Hold. apply Hold0 in Hold.
    destruct H1 as [raw1 H1], H2 as [raw2 H2].
    rewrite Hold, H1 in Ht1. rewrite H1, H2 in Ht2. cbn in Ht1, Ht2.
    exists (t1 ++ t2). rewrite H2. f_equal. by rewrite Ht2, Ht1, app_assoc.
Qed.

(* ================================================================== *)
(** * FileCollector: what the walk yields *)
(* ================================================================== *)

Module CollectFacts.

(** Induction on a directory tree, with the property known of every
    sub-directory. *)
Lemma Tree_induction (P : FS.Tree -> Prop) :
  (forall name files dirs, Forall P dirs -> P (FS.Dir name files dirs)) ->
  forall d, P d.
Proof.
  intros H. fix IH 1. intros [name files dirs]. apply H.
  induction dirs as [|sub dirs IHdirs]; constructor; [apply IH|apply IHdirs].
Qed.

Section Invariants.

Variable fs : FS.t.
Variable filter : SmartFilter.t.

Local Abbreviation state := FileCollector.state.
Local Abbreviation should_process := (FileCollector.should_process fs filter).
Local Abbreviation visit_file := (FileCollector.visit_file fs filter).
Local Abbreviation walk := (FileCollector.walk fs filter).

(** A property of the state that asking the filter and visiting a file
    both keep. *)
Variable I : state -> Prop.
Hypothesis should_process_keeps :
  forall st p, I st -> I (should_process st p).2.
Hypothesis visit_file_keeps : forall st p, I st -> I (visit_file st p).

Lemma filter_dirs_keeps root_path names :
  forall st, I st ->
    I (FileCollector.filter_dirs fs filter st root_path names).2.
Proof using should_process_keeps.
  induction names as [|d names IH]; intros st Hst; [done|].
  cbn [FileCollector.filter_dirs].
  pose proof (should_process_keeps st (PurePath.child root_path d) Hst) as H1.
  destruct (should_process st (PurePath.child root_path d)) as [b st1].
  cbn [snd] in H1. specialize (IH st1 H1).
  by destruct (FileCollector.filter_dirs fs filter st1 root_path names).
Qed.

Lemma visit_files_keep root_path files :
  forall st, I st ->
    I (fold_left
         (fun s name => visit_file s (PurePath.child root_path name)) files st).
Proof using visit_file_keeps.
  induction files as [|f files IH]; intros st Hst; [done|].
  cbn [fold_left]. apply IH. by apply visit_file_keeps.
Qed.

Lemma walk_keeps d : forall root_path st, I st -> I (walk d root_path st).
Proof using should_process_keeps visit_file_keeps.
  induction d as [name files dirs IHd] using Tree_induction.
  intros root_path st Hst. cbn [FileCollector.walk].
  pose proof (filter_dirs_keeps root_path (map FS.name_of dirs) st Hst) as H1.
  destruct (FileCollector.filter_dirs fs filter st root_path
              (map FS.name_of dirs)) as [keep st1].
  cbn [snd] in H1.
  pose proof (visit_files_keep root_path files st1 H1) as H2.
  set (st2 := fold_left _ files st1) in *. clearbody st2.
  clear H1 Hst st st1. revert keep st2 H2.
  induction IHd as [|sub dirs Hsub _ IHdirs]; intros keep st2 H2;
    [by destruct keep|].
  destruct keep as [|k keep]; [done|].
  apply IHdirs. destruct k; [by apply Hsub|done].
Qed.

Lemma collect_from_keeps st start_path :
  I st -> I (FileCollector.collect_from fs filter st start_path).
Proof using should_process_keeps visit_file_keeps.
  intros Hst. unfold FileCollector.collect_from.
  destruct (FS.stat fs _) as [[|d]|]; [by apply visit_file_keeps
                                       |by apply walk_keeps|done].
Qed.

Lemma collect_state_keeps config :
  I FileCollector.init_state ->
  I (FileCollector.collect_state fs filter config).
Proof using should_process_keeps visit_file_keeps.
  unfold FileCollector.collect_state.
  generalize FileCollector.init_state.
  induction (Config.paths config) as [|p paths IH]; intros st Hst; [done|].
  cbn [fold_left]. apply IH. by apply collect_from_keeps.
Qed.

End Invariants.

(** ** Resolved paths *)

Definition no_dotdot (comps : list Py.str) : Prop :=
  Forall (fun c => Py.eqb c FS.DOTDOT = false) comps.

Lemma normalize_no_dotdot comps :
  forall acc, no_dotdot acc -> no_dotdot (FS.normalize acc comps).
Proof.
  induction comps as [|c comps IH]; intros acc Hacc.
  - cbn. unfold no_dotdot. by rewrite Forall_reverse.
  - cbn [FS.normalize]. destruct (Py.eqb c FS.DOTDOT) eqn:Hc.
    + apply IH. destruct acc; [done|]. by apply Forall_cons in Hacc as [_ ?].
    + apply IH. by constructor.
Qed.

Lemma normalize_fixed comps :
  no_dotdot comps -> forall acc, FS.normalize acc comps = reverse acc ++ comps.
Proof.
  induction 1 as [|c comps Hc _ IH]; intros acc.
  - cbn. by rewrite app_nil_r.
  - cbn [FS.normalize]. rewrite Hc, IH, reverse_cons. by rewrite <- app_assoc.
Qed.

(** [resolve] returns a path that [resolve] leaves alone. *)
Lemma resolve_resolved fs p : FS.resolve fs (FS.resolve fs p) = FS.resolve fs p.
Proof.
  unfold FS.resolve at 1. unfold FS.absolute.
  assert (PurePath.is_absolute (FS.resolve fs p) = true) as ->
      by (unfold FS.resolve; cbn; unfold Py.eqb; by rewrite bool_decide_true).
  unfold FS.resolve. cbn [tail]. f_equal.
  rewrite normalize_fixed; [done|]. apply normalize_no_dotdot. constructor.
Qed.

Lemma resolve_absolute fs p : PurePath.is_absolute (FS.resolve fs p) = true.
Proof. unfold FS.resolve. cbn. unfold Py.eqb. by rewrite bool_decide_true. Qed.

(** ** No path is yielded twice *)

Definition each_once (fs : FS.t) (st : FileCollector.state) : Prop :=
  NoDup (FileCollector.yielded st)
  /\ (forall p, p ∈ FileCollector.yielded st -> p ∈ FileCollector.seen_paths st)
  /\ Forall (fun p => FS.resolve fs p = p) (FileCollector.yielded st).

Lemma should_process_state fs filter st p :
  FileCollector.seen_paths (FileCollector.should_process fs filter st p).2
  = FileCollector.seen_paths st
  /\ FileCollector.yielded (FileCollector.should_process fs filter st p).2
     = FileCollector.yielded st.
Proof.
  unfold FileCollector.should_process.
  by destruct (SmartFilter.should_process _ _ _ _ _ _).
Qed.

Lemma each_once_should_process fs filter st p :
  each_once fs st ->
  each_once fs (FileCollector.should_process fs filter st p).2.
Proof.
  unfold each_once.
  destruct (should_process_state fs filter st p) as [-> ->]. done.
Qed.

Lemma each_once_visit_file fs filter st p :
  each_once fs st -> each_once fs (FileCollector.visit_file fs filter st p).
Proof.
  intros Hst. unfold FileCollector.visit_file.
  pose proof (each_once_should_process fs filter st p Hst) as H1.
  destruct (FileCollector.should_process fs filter st p) as [b st1].
  cbn [snd] in H1. destruct b; [|done].
  case_bool_decide as Hseen; [done|].
  destruct H1 as (Hnd & Hsub & Hres). unfold each_once. cbn.
  split; [|split].
  - apply NoDup_app. split; [done|]. split; [|apply NoDup_singleton].
    intros q Hq ->%list_elem_of_singleton. by apply Hsub in Hq.
  - intros q [Hq| ->%list_elem_of_singleton]%elem_of_app; set_solver.
  - apply Forall_app. split; [done|]. constructor; [|done].
    apply resolve_resolved.
Qed.

Lemma each_once_collect fs filter config :
  each_once fs (FileCollector.collect_state fs filter config).
Proof.
  apply CollectFacts.collect_state_keeps.
  - intros st p. apply each_once_should_process.
  - intros st p. apply each_once_visit_file.
  - split; [constructor|]. split; [by intros p Hp%elem_of_nil|constructor].
Qed.

(** ** Start paths that do not exist *)

Lemma collect_from_missing fs filter st start_path :
  FS.exists_ fs
    (PathManager.resolve_project_path (FS.resolve fs) (FS.cwd fs) start_path)
  = false ->
  FileCollector.collect_from fs filter st start_path = st.
Proof.
  unfold FS.exists_, FileCollector.collect_from.
  by destruct (FS.stat fs _).
Qed.

Lemma fold_collect_from_existing fs filter paths :
  forall st,
    fold_left (FileCollector.collect_from fs filter)
      (List.filter
         (fun p =>
            FS.exists_ fs
              (PathManager.resolve_project_path (FS.resolve fs) (FS.cwd fs) p))
         paths) st
    = fold_left (FileCollector.collect_from fs filter) paths st.
Proof.
  induction paths as [|p paths IH]; intros st; [done|].
  cbn [List.filter fold_left].
  destruct (FS.exists_ fs _) eqn:E.
  - cbn [fold_left]. apply IH.
  - rewrite (collect_from_missing _ _ _ _ E). apply IH.
Qed.

End CollectFacts.

(** [FileCollector.collect] yields no path twice, also when the start
    paths overlap or name one file in several ways; every path it yields
    is absolute and in resolved form. *)
Theorem collect_yields_each_path_once fs filter config :
  NoDup (FileCollector.collect fs filter config)
  /\ Forall (fun p => PurePath.is_absolute p = true /\ FS.resolve fs p = p)
       (FileCollector.collect fs filter config).
Proof.
  destruct (CollectFacts.each_once_collect fs filter config) as (H1 & _ & H3).
  split; [exact H1|]. unfold FileCollector.collect.
  eapply Forall_impl; [exact H3|]. intros p Hp. split; [|done].
  rewrite <- Hp. apply CollectFacts.resolve_absolute.
Qed.

(** A start path that does not exist is skipped: [collect] yields what
    it yields for the start paths that exist, in their order. *)
Theorem collect_skips_missing_start_paths fs filter config config' :
  Config.paths config'
  = List.filter
      (fun p =>
         FS.exists_ fs
           (PathManager.resolve_project_path (FS.resolve fs) (FS.cwd fs) p))
      (Config.paths config) ->
  FileCollector.collect fs filter config'
  = FileCollector.collect fs filter config.
Proof.
  intros H. unfold FileCollector.collect, FileCollector.collect_state.
  rewrite H. by rewrite CollectFacts.fold_collect_from_existing.
Qed.

Lemma collect_skips_missing_start_paths_witness :
  FileCollector.collect Scenario.fs (SmartFilter.init Scenario.config)
    Scenario.config
  = FileCollector.collect Scenario.fs (SmartFilter.init Scenario.config)
      (Scenario.config_with [Scenario.P "/nowhere"; Scenario.P "/proj"]
         [Py.lit "*.py"] [Py.lit "build/*"] TEXT).
Proof.
  apply collect_skips_missing_start_paths. vm_compute. reflexivity.
Defined.

(* ================================================================== *)
(** * FileProcessor: the calls it makes *)
(* ================================================================== *)

Ltac step_process_file :=
  unfold IO.run, FileProcessor.process_file, FileProcessor.read_content,
    IO.try_except, mbind, io_bind, IO.bind, IO.call, IO.ret, IO.lift, IO.raise;
  cbn [app].

Section ProcessorCalls.

Variable rt : Runtime.
Variable io : IO.env.
Variable config : Config.t.


(** A record that is not skipped has content, and the content is not
    blank. *)
Lemma processed_content path :
  pf_skipped (processed rt io config path) = false ->
  exists content,
    pf_content (processed rt io config path) = Some content
    /\ Py.strip content <> [].
Proof.
  assert (Hblank : forall content : Py.str,
    negb (Py.truthy (Py.strip content)) = false -> Py.strip content <> []).
  { intros content H E. by rewrite E in H. }
  unfold processed. step_process_file.
  destruct (IO.st_size io path) as [size|e0]; [|done].
  destruct (FileProcessor.oversized config size); [done|].
  destruct (IO.open_rb io path) as [[]|e1]; [|done].
  destruct (IO.read io path (Some ENCODING_SAMPLE_SIZE)) as [chunk|e2]; [|done].
  destruct (FileProcessor.has_nul chunk); [done|].
  destruct (IO.seek0 io path) as [[]|e3]; [|done].
  destruct (IO.read io path None) as [data|e4]; [|done].
  destruct (Codecs.decode _ _ data) as [content|e5]; [|done].
  destruct (Config.minify config).
  - destruct (Minifier.minify _ content path) as [content'|e6]; [|done].
    destruct (negb (Py.truthy (Py.strip content'))) eqn:E; [done|].
    intros _. eexists. split; [reflexivity|by apply Hblank].
  - destruct (negb (Py.truthy (Py.strip content))) eqn:E; [done|].
    intros _. eexists. split; [reflexivity|by apply Hblank].
Qed.


End ProcessorCalls.

(* ================================================================== *)
(** * StreamingWriter: the candidates written, and the artifact *)
(* ================================================================== *)

Module WriterShape.

Lemma StronglySorted_filter {A} (R : relation A) (P : A -> Prop)
    `{!forall x, Decision (P x)} (l : list A) :
  StronglySorted R l -> StronglySorted R (filter P l).
Proof.
  induction 1 as [|x l Hl IH Hx]; [constructor|].
  rewrite filter_cons. case_decide; [|done].
  constructor; [done|]. rewrite Forall_forall in Hx |- *.
  intros y [_ Hy]%list_elem_of_filter. by apply Hx.
Qed.

(** A computation on the stream that cannot fail, and the text it adds,
    whatever was written before. *)
Definition emits (m : Stream.M unit) (s : Py.str) : Prop :=
  forall st, exists st',
    m st = (Ok tt, st') /\ Stream.written st' = Stream.written st ++ s.


Lemma emits_write s : emits (Stream.write no_write_fails s) s.
Proof. intros st. eexists. by rewrite write_no_faults. Qed.

Lemma emits_bind (m : Stream.M unit) (k : unit -> Stream.M unit) a b :
  emits m a -> emits (k tt) b -> emits (m ≫= k) (a ++ b).
Proof.
  intros Hm Hk st. unfold mbind, stream_bind, Stream.bind.
  destruct (Hm st) as (st1 & -> & H1). destruct (Hk st1) as (st2 & -> & H2).
  exists st2. split; [done|]. by rewrite H2, H1, app_assoc.
Qed.

(** A computation on the stream that cannot fail. *)
Definition total (m : Stream.M unit) : Prop :=
  forall st, exists st', m st = (Ok tt, st').

Lemma emits_total m s : emits m s -> total m.
Proof. intros H st. destruct (H st) as (st' & E & _). by exists st'. Qed.

Lemma total_bind (m : Stream.M unit) (k : unit -> Stream.M unit) :
  total m -> total (k tt) -> total (m ≫= k).
Proof.
  intros Hm Hk st. unfold mbind, stream_bind, Stream.bind.
  destruct (Hm st) as (st1 & ->). apply Hk.
Qed.

End WriterShape.

Section WriterExtras.

Variable rt : Runtime.
Variable io : IO.env.
Variable resolve : PurePath.Path -> PurePath.Path.
Variable cwd : PurePath.Path.
Variable now : Clock.
Variable config : Config.t.

Import WriterShape.

(** What the text formatter writes for one file. *)
Definition text_block (pf : ProcessedFile) : Py.str :=
  Formatter.text_separator (Formatter.rel_path_of cwd pf)
  ++ default [] (pf_content pf).

(** What the Markdown formatter writes for one file. *)
Definition markdown_block (pf : ProcessedFile) : Py.str :=
  (Py.lit "## `" ++ Formatter.rel_path_of cwd pf
   ++ [Formatter.BACKTICK; Py.LF; Py.LF])
  ++ (Py.lit "```" ++ Formatter.language_hint (pf_path pf) ++ [Py.LF]
      ++ default [] (pf_content pf) ++ [Py.LF] ++ Py.lit "```"
      ++ [Py.LF; Py.LF] ++ Py.lit "---" ++ [Py.LF; Py.LF]).

Definition block (f : OutputFormat) (pf : ProcessedFile) : Py.str :=
  match f with
  | TEXT => text_block pf
  | MARKDOWN => markdown_block pf
  | JSON => []
  end.

Definition header (f : OutputFormat) (file_count : nat) : Py.str :=
  match f with
  | TEXT => Formatter.text_header resolve cwd now file_count
  | MARKDOWN => Formatter.markdown_header resolve cwd now file_count
  | JSON => []
  end.

Lemma emits_write_file f pf :
  f <> JSON -> is_Some (pf_content pf) ->
  emits (Formatter.write_file cwd no_write_fails f pf) (block f pf).
Proof.
  intros Hf [content Hc]. destruct f; [|done|]; cbn [Formatter.write_file block].
  - unfold Formatter.text_write_file, text_block. rewrite Hc.
    apply emits_bind; apply emits_write.
  - unfold Formatter.markdown_write_file, markdown_block. rewrite Hc.
    apply emits_bind; apply emits_write.
Qed.


Lemma emits_write_header f n :
  f <> JSON ->
  emits (Formatter.write_header resolve cwd now no_write_fails f n) (header f n).
Proof. intros Hf. destruct f; [|done|]; apply emits_write. Qed.

Lemma total_write_header f n :
  total (Formatter.write_header resolve cwd now no_write_fails f n).
Proof.
  destruct f; [by eapply emits_total, emits_write_header| |
               by eapply emits_total, emits_write_header].
  intros st. cbn [Formatter.write_header].
  destruct (json_write_header_text resolve cwd now n st) as [k ->].
  by eexists.
Qed.

Lemma total_write_file f pf :
  is_Some (pf_content pf) ->
  total (Formatter.write_file cwd no_write_fails f pf).
Proof.
  intros Hc. destruct f; [by eapply emits_total, emits_write_file| |
                          by eapply emits_total, emits_write_file].
  intros st. cbn [Formatter.write_file].
  destruct (json_write_file_text cwd pf st) as [k ->]. by eexists.
Qed.

Lemma total_write_footer f :
  total (Formatter.write_footer no_write_fails f).
Proof.
  destruct f; [by intros st; exists st| |by intros st; exists st].
  intros st. cbn [Formatter.write_footer].
  destruct (json_write_footer_text st) as [k ->]. by eexists.
Qed.

Lemma total_write_files paths :
  total (StreamingWriter.write_files rt io cwd config StreamingWriter.no_faults
           paths).
Proof.
  induction paths as [|path paths IH]; [by intros st; exists st|].
  cbn [StreamingWriter.write_files].
  intros st. unfold mbind, stream_bind, Stream.bind at 1.
  unfold Stream.lift at 1. rewrite process_file_returns.
  fold (@mbind Stream.M stream_bind).
  destruct (pf_skipped (processed rt io config path)) eqn:Hskip.
  - unfold Stream.bind, Stream.ret at 1. apply IH.
  - apply (total_bind
             (Formatter.write_file cwd
                (StreamingWriter.write_fails StreamingWriter.no_faults)
                (Config.output_format config) (processed rt io config path))
             (fun _ => StreamingWriter.write_files rt io cwd config
                         StreamingWriter.no_faults paths)); [|exact IH].
    apply total_write_file.
    destruct (processed_content rt io config path Hskip) as (c & -> & _).
    by eexists.
Qed.

Lemma total_body paths :
  total (StreamingWriter.body rt io resolve cwd now config
           StreamingWriter.no_faults paths).
Proof.
  unfold StreamingWriter.body.
  apply total_bind; [apply total_write_header|].
  apply total_bind; [apply total_write_files|apply total_write_footer].
Qed.


(** A run in which no system call fails, with a free name for the
    temporary file: [write] completes, the destination holds the whole
    artifact, and nothing else has changed; the temporary file is
    gone. *)
Theorem write_completes_without_faults tmp_random files disk :
  Config.dry_run config = false ->
  disk !! StreamingWriter.tmp_path tmp_random config = None ->
  StreamingWriter.write rt io resolve cwd now tmp_random config
    StreamingWriter.no_faults files disk
  = (StreamingWriter.Completed,
     <[Config.output config
       := StreamingWriter.render rt io resolve cwd now config files]> disk).
Proof.
  intros Hdry Htmp. unfold StreamingWriter.write, StreamingWriter.mktemp.
  rewrite Hdry. cbn [StreamingWriter.mkdir_fails StreamingWriter.mktemp_fails
                     StreamingWriter.no_faults].
  rewrite Htmp. unfold StreamingWriter.render.
  destruct (total_body (StreamingWriter.file_paths resolve config files)
              Stream.init) as [st' ->].
  cbn [StreamingWriter.close_fails StreamingWriter.replace_fails
       StreamingWriter.no_faults StreamingWriter.fail_or_ok snd].
  by rewrite delete_insert_id.
Qed.

(** The candidates [write] processes: the files it was handed, without
    those that resolve to the output file, each before every path that
    is not smaller. Candidates that were distinct stay distinct. *)
Theorem file_paths_sorted_without_output files :
  let paths := StreamingWriter.file_paths resolve config files in
  StronglySorted PurePath.le paths
  /\ (forall p, p ∈ paths
                <-> p ∈ files /\ resolve p <> resolve (Config.output config))
  /\ (NoDup files -> NoDup paths).
Proof.
  cbn zeta. unfold StreamingWriter.file_paths. split; [|split].
  - apply StronglySorted_filter. apply StronglySorted_merge_sort; apply _.
  - intros p. rewrite list_elem_of_filter, merge_sort_Permutation. tauto.
  - intros Hnd. apply NoDup_filter. by rewrite merge_sort_Permutation.
Qed.

End WriterExtras.


Lemma write_completes_without_faults_witness :
  StreamingWriter.write Scenario.rt Scenario.io (fun p => p) Scenario.cwd
    Scenario.clock Scenario.tmp_random Scenario.config_text
    StreamingWriter.no_faults [Scenario.P "/proj/a.py"] ∅
  = (StreamingWriter.Completed,
     {[Config.output Scenario.config_text
       := StreamingWriter.render Scenario.rt Scenario.io (fun p => p)
            Scenario.cwd Scenario.clock Scenario.config_text
            [Scenario.P "/proj/a.py"]]}).
Proof.
  apply (write_completes_without_faults Scenario.rt Scenario.io (fun p => p)
           Scenario.cwd Scenario.clock Scenario.config_text
           Scenario.tmp_random [Scenario.P "/proj/a.py"] ∅);
    [reflexivity|apply lookup_empty].
Defined.

(* ================================================================== *)
(** * Minifier: what the strategies leave *)
(* ================================================================== *)

Module MinifyShape.

Import StrFacts MinifyFacts.

(** ** Lengths *)

Lemma sub_slash_length m s :
  forall skipping,
    (length (Minifier.sub_slash_comment m skipping s) <= length s)%nat.
Proof.
  induction s as [|c s IH]; intros skipping; [done|].
  cbn [Minifier.sub_slash_comment length].
  pose proof (IH true). pose proof (IH false).
  destruct skipping; [destruct (c =? Py.LF); cbn [length]; lia|].
  destruct (_ && _); cbn [length]; lia.
Qed.

Lemma sub_hash_length s :
  forall skipping, (length (Minifier.sub_hash_comment skipping s) <= length s)%nat.
Proof.
  induction s as [|c s IH]; intros skipping; [done|].
  cbn [Minifier.sub_hash_comment length].
  pose proof (IH true). pose proof (IH false).
  destruct skipping; [destruct (c =? Py.LF); cbn [length]; lia|].
  destruct (_ && _); cbn [length]; lia.
Qed.

Lemma sub_block_length n :
  forall s inside, (length s <= n)%nat ->
    (length (Minifier.sub_block_comment inside s) <= length s)%nat.
Proof.
  induction n as [|n IH]; intros s inside Hn.
  { destruct s; [by destruct inside|cbn in Hn; lia]. }
  destruct s as [|c s]; [by destruct inside|]. cbn [length] in *.
  assert (length (tail s) <= n)%nat as Hn' by (destruct s; cbn in *; lia).
  assert (length (tail s) <= length s)%nat as Ht by (destruct s; cbn; lia).
  pose proof (IH (tail s) true Hn'). pose proof (IH (tail s) false Hn').
  pose proof (IH s true ltac:(lia)). pose proof (IH s false ltac:(lia)).
  destruct inside.
  - rewrite sub_block_true_cons. destruct (_ && _); lia.
  - rewrite sub_block_false_cons. destruct (_ && _); cbn [length]; lia.
Qed.

Lemma collapse_ws_length s :
  forall b, (length (Minifier.collapse_ws b s) <= length s)%nat.
Proof.
  induction s as [|c s IH]; intros b; [done|].
  cbn [Minifier.collapse_ws length].
  pose proof (IH true). pose proof (IH false).
  destruct (Py.isspace c); [destruct b|]; cbn [length]; lia.
Qed.

Lemma trim_punct_length s :
  forall after, (length (Minifier.trim_punct after s) <= length s)%nat.
Proof.
  induction s as [|c s IH]; intros after; [done|].
  cbn [Minifier.trim_punct length].
  pose proof (IH true). pose proof (IH false). pose proof (IH after).
  destruct (Minifier.is_punct c); [cbn [length]; lia|].
  destruct (Py.isspace c); [|cbn [length]; lia].
  destruct (after || Minifier.ws_then_punct s); cbn [length]; lia.
Qed.

Lemma rstrip_length s : (length (Py.rstrip s) <= length s)%nat.
Proof.
  destruct (rstrip_split s) as (w & Hs & _).
  rewrite Hs at 2. rewrite length_app. lia.
Qed.

Lemma strip_length s : (length (Py.strip s) <= length s)%nat.
Proof.
  unfold Py.strip. etrans; [apply rstrip_length|].
  destruct (lstrip_split s) as (w & Hs & _).
  rewrite Hs at 2. rewrite length_app. lia.
Qed.

(** The characters of a list of lines, one more for each line: its
    boundary. *)
Fixpoint weight (L : list Py.str) : nat :=
  match L with
  | [] => 0
  | l :: R => S (length l) + weight R
  end.

Lemma join_length L : (length (Py.join [Py.LF] L) <= pred (weight L))%nat.
Proof.
  induction L as [|l L IH]; [done|].
  destruct L as [|l' L']; [cbn; lia|].
  rewrite join_cons by done. rewrite !length_app. cbn [length weight] in *. lia.
Qed.

Lemma splitlines_aux_weight n :
  forall s cur, (length s <= n)%nat ->
    (weight (Py.splitlines_aux cur s) <= length cur + length s + 1)%nat.
Proof.
  assert (Hend : forall cur : Py.str,
            (weight (Py.splitlines_aux cur []) <= length cur + 0 + 1)%nat).
  { intros [|c cur]; cbn [Py.splitlines_aux weight]; [lia|].
    rewrite length_reverse. lia. }
  induction n as [|n IH]; intros s cur Hn.
  { destruct s; [apply Hend|cbn in Hn; lia]. }
  destruct s as [|c s]; [apply Hend|].
  cbn [length] in Hn. cbn [Py.splitlines_aux].
  destruct (Py.islinebreak c).
  - cbn [weight]. rewrite length_reverse.
    destruct s as [|d s]; [cbn [weight length]; lia|].
    destruct ((c =? Py.CR) && (d =? Py.LF)).
    + pose proof (IH s [] ltac:(cbn in Hn; lia)). cbn [length] in *. lia.
    + pose proof (IH (d :: s) [] ltac:(lia)). cbn [length] in *. lia.
  - pose proof (IH s (c :: cur) ltac:(lia)). cbn [length] in *. lia.
Qed.

Lemma splitlines_weight s : (weight (Py.splitlines s) <= length s + 1)%nat.
Proof. apply (splitlines_aux_weight (length s)). done. Qed.

Lemma kept_lines_weight L : (weight (kept_lines L) <= weight L)%nat.
Proof.
  induction L as [|l L IH]; [done|].
  rewrite kept_lines_cons. pose proof (rstrip_length l).
  destruct (blank l); cbn [weight]; lia.
Qed.

Lemma generic_line_length first line r :
  Minifier.generic_line first line = Some r -> (length r <= length line)%nat.
Proof.
  unfold Minifier.generic_line.
  destruct (first && Py.startswith line Minifier.SHEBANG); [by intros [= ->]|].
  destruct (Py.truthy _); [|done]. intros [= <-].
  etrans; [apply rstrip_length|]. etrans; [apply sub_hash_length|].
  apply sub_slash_length.
Qed.

Lemma generic_lines_weight lines :
  forall first, (weight (Minifier.generic_lines first lines) <= weight lines)%nat.
Proof.
  induction lines as [|l lines IH]; intros first; [done|].
  cbn [Minifier.generic_lines]. pose proof (IH false).
  destruct (Minifier.generic_line first l) as [r|] eqn:E; cbn [weight]; [|lia].
  apply generic_line_length in E. lia.
Qed.

Lemma minify_generic_length content :
  (length (Minifier._minify_generic content) <= length content)%nat.
Proof.
  unfold Minifier._minify_generic.
  etrans; [by apply (sub_block_length _ _ false (le_n _))|].
  etrans; [apply join_length|].
  pose proof (generic_lines_weight (Py.splitlines content) true).
  pose proof (splitlines_weight content). lia.
Qed.

Lemma minify_javascript_length content :
  (length (Minifier._minify_javascript content) <= length content)%nat.
Proof.
  rewrite minify_javascript_eq.
  etrans; [apply join_length|].
  set (t := Minifier.sub_block_comment false _).
  pose proof (kept_lines_weight (Py.splitlines t)).
  pose proof (splitlines_weight t).
  assert (length t <= length content)%nat; [|lia].
  subst t. etrans; [by apply (sub_block_length _ _ false (le_n _))|].
  apply sub_slash_length.
Qed.

Lemma minify_css_length content :
  (length (Minifier._minify_css content) <= length content)%nat.
Proof.
  unfold Minifier._minify_css.
  etrans; [apply strip_length|]. etrans; [apply trim_punct_length|].
  etrans; [apply collapse_ws_length|].
  by apply (sub_block_length _ _ false (le_n _)).
Qed.

End MinifyShape.

(** Minifying never makes a text longer: for every strategy behind
    [Minifier.minify] that is written in this module, and for a ".py"
    file that [tokenize] rejects, the text returned has at most as many
    characters as the content. *)
Theorem minify_never_lengthens
    (tokenize_without_comments : Py.str -> Minifier.tokenized)
    (content : Py.str) (path : PurePath.Path) :
  Minifier.strategy_of path <> Minifier.Python
  \/ tokenize_without_comments content = Minifier.TokenError ->
  exists once,
    Minifier.minify tokenize_without_comments content path = Ok once
    /\ (length once <= length content)%nat.
Proof.
  unfold Minifier.minify, Minifier._minify_python. intros H.
  destruct (Minifier.strategy_of path).
  - destruct H as [H|H]; [done|]. rewrite H. eexists. split; [done|].
    apply MinifyShape.minify_generic_length.
  - eexists. split; [done|]. apply MinifyShape.minify_javascript_length.
  - eexists. split; [done|]. apply MinifyShape.minify_css_length.
  - eexists. split; [done|]. apply MinifyShape.minify_generic_length.
Qed.

Lemma minify_never_lengthens_witness :
  exists once,
    Minifier.minify (tokenize_without_comments Scenario.rt)
      (Py.lit "x = 1  # one") (Scenario.P "/proj/a.py")
    = Ok once
    /\ (length once <= 12)%nat.
Proof.
  apply (minify_never_lengthens (tokenize_without_comments Scenario.rt)
           (Py.lit "x = 1  # one") (Scenario.P "/proj/a.py")).
  right. reflexivity.
Defined.

(** What the script strategy leaves: no "//", no "/*" with a "*/"
    behind it, and lines that are not blank and end in no white space.
    Everything from a "//" to the end of its line is removed, also inside
    a string literal or a URL. *)
Theorem minify_javascript_leaves content :
  let once := Minifier._minify_javascript content in
  MinifyFacts.has2 Py.SLASH Py.SLASH once = false
  /\ MinifyFacts.has_match once = false
  /\ Forall (fun l => StrFacts.blank l = false /\ Py.rstrip l = l)
       (Py.splitlines once).
Proof.
  cbn zeta. rewrite MinifyFacts.minify_javascript_eq.
  pose proof (MinifyFacts.sub_slash_multiline_clean content false) as HS.
  set (c1 := Minifier.sub_slash_comment true false content) in *.
  destruct (MinifyFacts.sub_block_out (length c1) c1 false (le_n _) HS)
    as [HB HM].
  set (t := Minifier.sub_block_comment false c1) in *.
  pose proof (MinifyFacts.one_line_splitlines t) as HL.
  destruct (MinifyFacts.kept_lines_fixed _ HL) as [F1 _].
  split; [|split].
  - apply MinifyFacts.has2_join; [done|done|].
    apply MinifyFacts.kept_lines_Forall;
      [intros l; apply MinifyFacts.has2_rstrip|].
    by apply MinifyFacts.has2_splitlines.
  - destruct (MinifyFacts.has_match (Py.join _ _)) eqn:E; [|done].
    apply MinifyFacts.match_lines_join, MinifyFacts.match_lines_kept in E.
    apply (MinifyFacts.match_lines_splitlines_aux (length t)) in E; [|done].
    cbn in E. congruence.
  - rewrite F1. clear. induction (Py.splitlines t) as [|l L IH]; [constructor|].
    rewrite MinifyFacts.kept_lines_cons.
    destruct (StrFacts.blank l) eqn:Hb; [done|]. constructor; [|done].
    split; [by rewrite StrFacts.blank_rstrip|apply StrFacts.rstrip_idem].
Qed.

(** What the style-sheet strategy leaves: every white-space character is
    a plain space, no space stands beside another space or beside one of
    "{", "}", ":", ";", ",", and the text neither starts nor ends with
    white space. *)
Theorem minify_css_leaves content :
  let once := Minifier._minify_css content in
  MinifyFacts.plain_spaces once = true
  /\ MinifyFacts.adj MinifyFacts.apart once = true
  /\ Py.strip once = once.
Proof.
  cbn zeta. unfold Minifier._minify_css.
  set (c0 := Minifier.sub_block_comment false content).
  destruct (MinifyFacts.collapse_ws_out c0 false) as (Hq & Hs & _).
  set (c1 := Minifier.collapse_ws false c0) in *.
  destruct (MinifyFacts.trim_punct_out c1 false Hs) as [Ha _].
  pose proof (MinifyFacts.trim_punct_plain false c1 Hq) as Hq'.
  split; [by apply MinifyFacts.plain_spaces_strip|].
  split; [by apply MinifyFacts.adj_strip|apply StrFacts.strip_idem].
Qed.

(* ================================================================== *)
(** * ProjectDetector: what [detect] returns *)
(* ================================================================== *)

Module DetectFacts.

(** Every ecosystem of [INDICATORS] has an entry in [PRESETS]. *)
Lemma indicators_have_presets :
  Forall (fun entry => is_Some (ProjectDetector.PRESETS !! entry.1))
    ProjectDetector.INDICATORS.
Proof. repeat constructor; eexists; vm_compute; reflexivity. Qed.

Lemma generic_has_no_preset :
  ProjectDetector.PRESETS !! ProjectDetector.GENERIC = None.
Proof. vm_compute. reflexivity. Qed.

(** Lookup below something that is no directory finds nothing. *)
Lemma locate_below_no_directory comps c :
  forall up cur,
    (forall d, FS.locate up cur comps <> Some (FS.IsDir d)) ->
    FS.locate up cur (comps ++ [c]) = None.
Proof.
  induction comps as [|x comps IH]; intros up cur H.
  - by destruct (H cur).
  - cbn [app FS.locate] in *. destruct (Py.eqb x FS.DOTDOT).
    + destruct up; by apply IH.
    + destruct (FS.entry_of cur x) as [[|sub]|]; [|by apply IH|done].
      destruct comps; [done|done].
Qed.

Lemma stat_below_no_directory fs path c :
  Py.eqb c PurePath.anchor = false ->
  (forall d, FS.stat fs path <> Some (FS.IsDir d)) ->
  FS.stat fs (PurePath.child path c) = None.
Proof.
  intros Hc H. unfold FS.stat, PurePath.child in *.
  assert (FS.absolute fs (path ++ [c]) = FS.absolute fs path ++ [c]) as ->.
  { unfold FS.absolute. destruct path as [|h t].
    - cbn. rewrite Hc. by rewrite app_nil_r.
    - cbn. destruct (Py.eqb h PurePath.anchor); [done|by rewrite <- app_assoc]. }
  destruct (FS.absolute fs path) as [|h t] eqn:E.
  - by destruct (H (FS.root fs)).
  - cbn [app tail] in *. by apply locate_below_no_directory.
Qed.

Lemma indicated_no_directory fs path indicator :
  Py.eqb indicator PurePath.anchor = false ->
  (forall d, FS.stat fs path <> Some (FS.IsDir d)) ->
  ProjectDetector.indicated fs path indicator = false.
Proof.
  intros Hi H. unfold ProjectDetector.indicated, ProjectDetector.glob_some,
    FS.exists_.
  destruct (existsb _ indicator).
  - destruct (FS.stat fs path) as [[|d]|] eqn:E; [done| |done]. by destruct (H d).
  - by rewrite stat_below_no_directory.
Qed.

Lemma indicators_are_names :
  Forall (fun entry =>
            Forall (fun i => Py.eqb i PurePath.anchor = false) entry.2)
    ProjectDetector.INDICATORS.
Proof. repeat constructor. Qed.

End DetectFacts.

(** [ProjectDetector.detect] names an entry of [PRESETS], or answers
    "generic", for which [get_preset_config] has nothing. On a path that
    is no directory, missing ones included, it answers "generic"; it
    never fails. *)
Theorem detect_names_a_preset fs path :
  let name := ProjectDetector.detect fs path in
  (is_Some (ProjectDetector.get_preset_config ProjectDetector.PRESETS name)
   \/ (name = ProjectDetector.GENERIC
       /\ ProjectDetector.get_preset_config ProjectDetector.PRESETS name = None))
  /\ ((forall d, FS.stat fs path <> Some (FS.IsDir d)) ->
      name = ProjectDetector.GENERIC).
Proof.
  cbn zeta. unfold ProjectDetector.detect, ProjectDetector.get_preset_config.
  destruct (list_find _ ProjectDetector.INDICATORS) as [[i [name inds]]|] eqn:E.
  - apply list_find_Some in E as (Hi & Hfound & _).
    apply list_elem_of_lookup_2 in Hi. split.
    + left. pose proof DetectFacts.indicators_have_presets as H.
      rewrite Forall_forall in H. by apply (H (name, inds)).
    + intros Hno. exfalso.
      pose proof DetectFacts.indicators_are_names as H.
      rewrite Forall_forall in H. specialize (H (name, inds) Hi). cbn in H.
      apply existsb_exists in Hfound as (ind & Hin & Hind).
      rewrite Forall_forall in H. apply list_elem_of_In in Hin.
      rewrite DetectFacts.indicated_no_directory in Hind; [done|by apply H|done].
  - split; [|done]. right. split; [done|].
    apply DetectFacts.generic_has_no_preset.
Qed.

(** The ecosystems are tried in the order of [INDICATORS], and Python
    comes first: a directory that holds one of the Python indicator
    files is a Python project, whatever else it holds. *)
Theorem detect_prefers_python fs path indicator :
  indicator ∈ ProjectDetector.L
                ["requirements.txt"; "requirements-dev.txt"; "pyproject.toml";
                 "setup.py"; "Pipfile"]%string ->
  FS.exists_ fs (PurePath.child path indicator) = true ->
  ProjectDetector.detect fs path = Py.lit "python".
Proof.
  intros Hin Hex. unfold ProjectDetector.detect, ProjectDetector.INDICATORS.
  cbn [list_find]. rewrite decide_True; [done|].
  apply existsb_exists. exists indicator. split; [by apply list_elem_of_In|].
  unfold ProjectDetector.indicated.
  assert (existsb (N.eqb Py.STAR) indicator = false) as ->; [|done].
  repeat (apply elem_of_cons in Hin as [->|Hin]; [reflexivity|]).
  by apply elem_of_nil in Hin.
Qed.

Lemma detect_prefers_python_witness :
  ProjectDetector.detect
    (FS.mk (FS.Dir [] []
              [FS.Dir (Py.lit "proj")
                 [Py.lit "package.json"; Py.lit "pyproject.toml"] []])
       (Scenario.P "/proj"))
    (Scenario.P "/proj")
  = Py.lit "python".
Proof.
  apply (detect_prefers_python _ _ (Py.lit "pyproject.toml")).
  - vm_compute. do 2 right. left.
  - vm_compute. reflexivity.
Defined.

(* ================================================================== *)
(** * Generator: the merged pattern lists *)
(* ================================================================== *)

Module ResolveShape.



End ResolveShape.

Section ResolveExtras.

Variable fs : FS.t.
Variable file_conf : Generator.FileConf.

(** The patterns [_resolve_config] merges, in the order it merges them:
    those of the preset, of the configuration file, of the command
    line. *)
Definition merged_includes (cli_config : Config.t)
    (presets : gmap (list N) ProjectDetector.preset_conf) : list Py.str :=
  from_option ProjectDetector.p_include []
    (presets !! Generator.preset_name fs file_conf cli_config)
  ++ default [] (Generator.fc_include file_conf) ++ Config.include cli_config.

Definition merged_excludes (cli_config : Config.t)
    (presets : gmap (list N) ProjectDetector.preset_conf) : list Py.str :=
  from_option ProjectDetector.p_exclude []
    (presets !! Generator.preset_name fs file_conf cli_config)
  ++ default [] (Generator.fc_exclude file_conf) ++ Config.exclude cli_config.


(** Resolving a configuration changes at most one entry of the preset
    table, that of the preset selected; a preset name the table does not
    hold, "generic" included, leaves the table as it was and contributes
    no pattern. *)
Theorem resolve_config_touches_one_preset cli_config presets :
  let name := Generator.preset_name fs file_conf cli_config in
  let presets' :=
    (Generator._resolve_config fs file_conf cli_config presets).2 in
  (forall other, other <> name -> presets' !! other = presets !! other)
  /\ (presets !! name = None ->
      presets' = presets
      /\ merged_includes cli_config presets
         = default [] (Generator.fc_include file_conf)
           ++ Config.include cli_config
      /\ merged_excludes cli_config presets
         = default [] (Generator.fc_exclude file_conf)
           ++ Config.exclude cli_config)
  /\ (is_Some (presets !! name) <-> is_Some (presets' !! name)).
Proof.
  cbn zeta. rewrite resolve_config_table.
  unfold merged_includes, merged_excludes.
  destruct (presets !! Generator.preset_name fs file_conf cli_config)
    as [pc|] eqn:E.
  - split; [intros other Ho; by rewrite lookup_insert_ne|].
    split; [done|]. rewrite lookup_insert_eq. by split.
  - split; [done|]. split; [done|]. by rewrite E.
Qed.

End ResolveExtras.


(* ================================================================== *)
(** * PathManager and SmartFilter: the project root and the rules *)
(* ================================================================== *)

(** The project root is the same whether the program is started in the
    root or in its [.context] directory, and so is everything derived
    from it. *)
Theorem project_root_from_the_context_directory root :
  PurePath.is_absolute root = true ->
  Py.eqb (PurePath.name root) CONTEXT_DIR_NAME = false ->
  PathManager.get_project_root (PurePath.child root CONTEXT_DIR_NAME) = root
  /\ PathManager.get_project_root root = root
  /\ PathManager.get_generated_dir (PurePath.child root CONTEXT_DIR_NAME)
     = PathManager.get_generated_dir root
  /\ PathManager.get_config_path (PurePath.child root CONTEXT_DIR_NAME)
     = PathManager.get_config_path root.
Proof.
  intros Habs Hname.
  assert (PathManager.get_project_root (PurePath.child root CONTEXT_DIR_NAME)
          = root) as H1.
  { unfold PathManager.get_project_root, PurePath.child, PurePath.name.
    rewrite last_snoc.
    replace (Py.eqb CONTEXT_DIR_NAME PurePath.anchor) with false by done.
    replace (Py.eqb CONTEXT_DIR_NAME CONTEXT_DIR_NAME) with true by done.
    destruct root as [|h [|h' t]]; [done|reflexivity|].
    change (PurePath.parent ((h :: h' :: t) ++ [CONTEXT_DIR_NAME]))
      with (removelast ((h :: h' :: t) ++ [CONTEXT_DIR_NAME])).
    apply removelast_last. }
  assert (PathManager.get_project_root root = root) as H2
      by (unfold PathManager.get_project_root; by rewrite Hname).
  unfold PathManager.get_generated_dir, PathManager.get_config_path,
    PathManager.get_context_dir.
  by rewrite H1, H2.
Qed.

Lemma project_root_from_the_context_directory_witness :
  PathManager.get_project_root (Scenario.P "/proj/.context")
  = Scenario.P "/proj".
Proof.
  exact (proj1 (project_root_from_the_context_directory (Scenario.P "/proj")
                  eq_refl eq_refl)).
Defined.

Module FilterShape.

Lemma startswith_app s t p :
  Py.startswith s p = true -> Py.startswith (s ++ t) p = true.
Proof.
  revert s. induction p as [|c p IH]; intros s; [done|].
  destruct s as [|d s]; [done|]. cbn.
  intros [-> H]%andb_true_iff. cbn. by apply IH.
Qed.

(** A pattern that can only match a relative path: it is empty, or it
    starts with a character that stands for itself and is not "/". *)
Definition relative_literal (pattern : Py.str) : bool :=
  match pattern with
  | [] => true
  | c :: _ =>
      negb (c =? Py.STAR) && negb (c =? Py.QMARK) && negb (c =? Py.LBRACKET)
      && negb (c =? Py.SLASH)
  end.

Lemma relative_literal_misses_absolute pattern p :
  relative_literal pattern = true ->
  PurePath.is_absolute p = true ->
  Fnmatch.matches (SmartFilter._compile_glob pattern) (PurePath.as_posix p)
  = false.
Proof.
  intros Hrel Habs. destruct pattern as [|c pattern].
  - destruct (absolute_as_posix_head p Habs) as [rest ->]. done.
  - cbn in Hrel. repeat (apply andb_true_iff in Hrel as [Hrel ?]).
    apply literal_head_misses_absolute; [..|done];
      intros ->; by cbn in *.
Qed.

Lemma relative_literals_miss_absolute patterns p :
  Forall (fun pattern => relative_literal pattern = true) patterns ->
  PurePath.is_absolute p = true ->
  SmartFilter._matches (PurePath.as_posix p)
    (map SmartFilter._compile_glob patterns) = false.
Proof.
  intros H Habs. unfold SmartFilter._matches.
  induction H as [|pattern patterns Hp _ IH]; [done|].
  cbn [map existsb]. by rewrite relative_literal_misses_absolute, IH.
Qed.

End FilterShape.

Section FilterExtras.

Variable resolve : PurePath.Path -> PurePath.Path.
Variable is_file : PurePath.Path -> bool.
Variable cwd : PurePath.Path.

(** A path under the project root whose first component below the root
    starts with ".context" is rejected by every filter, whatever its
    patterns and with the common excludes switched off: the [.context]
    directory itself, and with it every sibling such as ".context.bak"
    or ".contextual". *)
Theorem context_directory_is_never_processed self cache path c rest :
  PurePath.relative_to path (PathManager.get_project_root cwd)
  = Some (c :: rest) ->
  Py.startswith c CONTEXT_DIR_NAME = true ->
  cache !! resolve path = None ->
  SmartFilter.should_process resolve is_file cwd self cache path
  = (false, <[resolve path := false]> cache).
Proof.
  intros Hrel Hc Hmiss. rewrite should_process_miss by done.
  assert (SmartFilter.decision is_file cwd self path = false) as ->; [|done].
  unfold SmartFilter.decision, PathManager.rel_to_project_root.
  rewrite Hrel.
  assert (Py.startswith (PurePath.to_str (c :: rest)) CONTEXT_DIR_NAME = true)
    as ->; [|done].
  unfold PurePath.to_str.
  assert (Py.eqb c PurePath.anchor = false) as ->.
  { unfold Py.eqb. apply bool_decide_false. intros ->. done. }
  destruct rest as [|r rest]; [done|].
  rewrite StrFacts.join_cons by done. by apply FilterShape.startswith_app.
Qed.

(** An exclude pattern is matched against the whole absolute path. A
    pattern that starts with a literal character other than "/" can
    therefore never match: a filter with such exclude patterns decides
    every absolute path as it would with no exclude pattern at all. Of
    the built-in patterns only "*/.*" can match. *)
Theorem relative_exclude_patterns_never_match
    exclude_common include_patterns patterns base path :
  PurePath.is_absolute path = true ->
  Forall (fun pattern => FilterShape.relative_literal pattern = true) patterns ->
  SmartFilter.decision is_file cwd
    (SmartFilter.mk exclude_common include_patterns
       (map SmartFilter._compile_glob patterns) base) path
  = SmartFilter.decision is_file cwd
      (SmartFilter.mk exclude_common include_patterns [] base) path
  /\ SmartFilter._matches (PurePath.as_posix path)
       (map SmartFilter._compile_glob DEFAULT_EXCLUDE_PATTERNS)
     = Fnmatch.matches (SmartFilter._compile_glob (Py.lit "*/.*"))
         (PurePath.as_posix path).
Proof.
  intros Habs Hrel. split.
  - unfold SmartFilter.decision.
    cbn [SmartFilter.exclude_common SmartFilter.include_patterns
         SmartFilter.exclude_patterns SmartFilter.base_exclude].
    by rewrite FilterShape.relative_literals_miss_absolute.
  - assert (SmartFilter._matches (PurePath.as_posix path)
              (map SmartFilter._compile_glob
                 [Py.lit "dist"; Py.lit "build"; Py.lit "node_modules";
                  Py.lit "__pycache__"; CONTEXT_DIR_NAME ++ Py.lit "/*"])
            = false) as H.
    { apply FilterShape.relative_literals_miss_absolute; [|done].
      repeat constructor. }
    change (SmartFilter._matches (PurePath.as_posix path)
              (map SmartFilter._compile_glob DEFAULT_EXCLUDE_PATTERNS))
      with (Fnmatch.matches (SmartFilter._compile_glob (Py.lit "*/.*"))
              (PurePath.as_posix path)
            || SmartFilter._matches (PurePath.as_posix path)
                 (map SmartFilter._compile_glob
                    [Py.lit "dist"; Py.lit "build"; Py.lit "node_modules";
                     Py.lit "__pycache__"; CONTEXT_DIR_NAME ++ Py.lit "/*"])).
    by rewrite H, orb_false_r.
Qed.

End FilterExtras.

Lemma context_directory_is_never_processed_witness :
  SmartFilter.should_process (fun p => p) (fun _ => true) (Scenario.P "/proj")
    (SmartFilter.mk false [] [] []) ∅ (Scenario.P "/proj/.context.bak/notes.md")
  = (false, {[Scenario.P "/proj/.context.bak/notes.md" := false]}).
Proof.
  apply (context_directory_is_never_processed (fun p => p) (fun _ => true)
           (Scenario.P "/proj") (SmartFilter.mk false [] [] []) ∅
           (Scenario.P "/proj/.context.bak/notes.md")
           (Py.lit ".context.bak") [Py.lit "notes.md"]);
    [vm_compute; reflexivity|vm_compute; reflexivity|apply lookup_empty].
Defined.

Lemma relative_exclude_patterns_never_match_witness :
  SmartFilter.decision (fun _ => true) (Scenario.P "/proj")
    (SmartFilter.mk false []
       (map SmartFilter._compile_glob [Py.lit "tests/*"; Py.lit "docs"]) [])
    (Scenario.P "/proj/tests/t.py")
  = SmartFilter.decision (fun _ => true) (Scenario.P "/proj")
      (SmartFilter.mk false [] [] []) (Scenario.P "/proj/tests/t.py").
Proof.
  apply (relative_exclude_patterns_never_match (fun _ => true)
           (Scenario.P "/proj") false [] [Py.lit "tests/*"; Py.lit "docs"] []
           (Scenario.P "/proj/tests/t.py") eq_refl).
  repeat constructor.
Defined.
